(** * check-side-effects: the extraction pipeline, its regression harness
      and the no-toplevel-property-access lint rule

    A shallow embedding of [src/checker.ts], [src/cli.ts] and
    [src/tslint/noToplevelPropertyAccessRule.ts].  JavaScript strings are
    [string]; Node's [fs] module is a finite map from path strings to
    entries; code that throws or touches the file system or the console
    lives in a small state-and-exception monad.  The bundler, the path
    functions and the two parsers are collaborators, taken as the fields of
    type classes.

    The sources hold several revisions of [checker.ts] and [cli.ts].
    [Checker] and [Cli] follow the latest of each: the pipeline that works
    in a scratch directory obtained from [mkdtempSync], and the command
    line with [--test], [--update] and [_recursiveMkDir].  [CheckerEarlier]
    follows the first revision of the pipeline.  The two revisions of the
    lint rule differ in their imports only. *)

From Stdlib Require Import String Ascii List Bool Arith Lia.
From stdpp Require Import base option list gmap strings fin_maps.

Set Default Proof Using "Type".
Open Scope string_scope.
Open Scope list_scope.

(** ** JavaScript string and array helpers *)

Module JS.

(** The line feed written ['\n'] in the sources. *)
Definition LF : string := String (ascii_of_nat 10) EmptyString.

Definition backslash : ascii := ascii_of_nat 92.
Definition slash : ascii := ascii_of_nat 47.

(** [Array.prototype.join(sep)] on an array of strings. *)
Fixpoint join (sep : string) (xs : list string) : string :=
  match xs with
  | [] => ""
  | [x] => x
  | x :: rest => x +:+ sep +:+ join sep rest
  end.

(** [s.replace(/\\/g, '/')]: every backslash becomes a forward slash. *)
Fixpoint replaceBackslashes (s : string) : string :=
  match s with
  | EmptyString => EmptyString
  | String c rest =>
      String (if Ascii.eqb c backslash then slash else c)
             (replaceBackslashes rest)
  end.

(** [s.startsWith(p)]. *)
Fixpoint startsWith (s p : string) {struct p} : bool :=
  match p, s with
  | EmptyString, _ => true
  | String _ _, EmptyString => false
  | String a p', String b s' => Ascii.eqb a b && startsWith s' p'
  end.

(** [s.includes(sub)]. *)
Fixpoint includes (s sub : string) : bool :=
  startsWith s sub ||
  match s with
  | EmptyString => false
  | String _ s' => includes s' sub
  end.

(** [s.endsWith(suffix)]. *)
Fixpoint endsWith (s suffix : string) : bool :=
  String.eqb s suffix ||
  match s with
  | EmptyString => false
  | String _ s' => endsWith s' suffix
  end.

(** A value of type [string | undefined]. *)
Inductive Value : Type :=
| Undefined
| Str (s : string).

(** Truthiness of a [string | undefined]: [undefined] and ['']
    are falsy. *)
Definition truthy (v : option string) : bool :=
  match v with
  | Some s => negb (String.eqb s "")
  | None => false
  end.

(** [v != s] for [v : string | undefined] and a string [s]: loose
    inequality never identifies [undefined] with a string, and compares
    two strings character by character. *)
Definition looseNeq (v : Value) (s : string) : bool :=
  match v with
  | Undefined => true
  | Str r => negb (String.eqb r s)
  end.

(** String conversion of a [string | undefined], as performed by
    [fs.writeFileSync] on the Node releases the tool targets. *)
Definition toString (v : Value) : string :=
  match v with
  | Undefined => "undefined"
  | Str s => s
  end.

End JS.

(** ** The lint rule: [noToplevelPropertyAccessRule.ts] *)

Module Rule.

(** The syntax kinds the rule tests for, a few more used by the examples,
    and a catch-all for every other kind of the TypeScript AST. *)
Inductive SyntaxKind : Type :=
| SourceFileKind
| EndOfFileToken
| Identifier
| Block
| ExpressionStatement
| VariableStatement
| VariableDeclarationList
| VariableDeclaration
| ObjectLiteralExpression
| CallExpression
| PropertyAccessExpression
| ElementAccessExpression
| FunctionDeclaration
| FunctionExpression
| ClassDeclaration
| ClassExpression
| ArrowFunction
| MethodDeclaration
| InterfaceDeclaration
| OtherKind (tag : nat).

(** A [ts.Node]: its kind, its span in the source text ([getStart()],
    [getEnd()]) and its children in [ts.forEachChild] order. *)
#[local] Unset Elimination Schemes.
Inductive Node : Type :=
| mkNode (kind : SyntaxKind) (start finish : nat) (children : list Node).
#[local] Set Elimination Schemes.

Definition kind (n : Node) : SyntaxKind :=
  match n with mkNode k _ _ _ => k end.
Definition getStart (n : Node) : nat :=
  match n with mkNode _ s _ _ => s end.
Definition getEnd (n : Node) : nat :=
  match n with mkNode _ _ e _ => e end.
Definition children (n : Node) : list Node :=
  match n with mkNode _ _ _ cs => cs end.

Record SourceFile : Type := mkSourceFile {
  fileName : string;
  root : Node
}.

Record RuleFailure : Type := mkRuleFailure {
  startPosition : nat;
  endPosition : nat;
  failure : string
}.

Record WalkContext : Type := mkWalkContext {
  sourceFile : SourceFile;
  failures : list RuleFailure
}.

Definition FAILURE_STRING : string := "Avoid toplevel property access.".

(** [ctx.addFailureAtNode(node, failure)]. *)
Definition addFailureAtNode (ctx : WalkContext) (node : Node) (msg : string)
  : WalkContext :=
  {| sourceFile := sourceFile ctx;
     failures := failures ctx ++ [mkRuleFailure (getStart node) (getEnd node) msg] |}.

Definition isFunctionDeclaration (n : Node) : bool :=
  match kind n with FunctionDeclaration => true | _ => false end.
Definition isFunctionExpression (n : Node) : bool :=
  match kind n with FunctionExpression => true | _ => false end.
Definition isClassDeclaration (n : Node) : bool :=
  match kind n with ClassDeclaration => true | _ => false end.
Definition isClassExpression (n : Node) : bool :=
  match kind n with ClassExpression => true | _ => false end.
Definition isArrowFunction (n : Node) : bool :=
  match kind n with ArrowFunction => true | _ => false end.
Definition isMethodDeclaration (n : Node) : bool :=
  match kind n with MethodDeclaration => true | _ => false end.
Definition isInterfaceDeclaration (n : Node) : bool :=
  match kind n with InterfaceDeclaration => true | _ => false end.
Definition isPropertyAccessExpression (n : Node) : bool :=
  match kind n with PropertyAccessExpression => true | _ => false end.
Definition isElementAccessExpression (n : Node) : bool :=
  match kind n with ElementAccessExpression => true | _ => false end.

(** [ts.forEachChild(node, cb)] over the children of a node: the callback
    is called on each child in turn, and the iteration stops with the
    first truthy value a call returns.  The callback's result is kept as
    its truthiness. *)
Definition forEachChild (cb : Node -> WalkContext -> bool * WalkContext)
  : list Node -> WalkContext -> bool * WalkContext :=
  fix go (cs : list Node) (ctx : WalkContext) : bool * WalkContext :=
    match cs with
    | [] => (false, ctx)
    | c :: rest =>
        let (r, ctx') := cb c ctx in
        if r then (true, ctx') else go rest ctx'
    end.

(** The callback [cb] of [walk]. *)
Fixpoint cb (node : Node) (ctx : WalkContext) {struct node}
  : bool * WalkContext :=
  if isFunctionDeclaration node || isFunctionExpression node ||
     isClassDeclaration node || isClassExpression node || isArrowFunction node ||
     isMethodDeclaration node || isInterfaceDeclaration node
  then (false, ctx)
  else
    let ctx1 :=
      if isPropertyAccessExpression node || isElementAccessExpression node
      then addFailureAtNode ctx node FAILURE_STRING
      else ctx in
    match node with
    | mkNode _ _ _ cs => forEachChild cb cs ctx1
    end.

Definition walk (ctx : WalkContext) : bool * WalkContext :=
  forEachChild cb (children (root (sourceFile ctx))) ctx.

(** [applyWithFunction(sourceFile, walk)]: run the walker on a fresh
    context and hand back the failures it collected. *)
Definition applyWithFunction (sf : SourceFile)
    (walker : WalkContext -> bool * WalkContext) : list RuleFailure :=
  failures (snd (walker (mkWalkContext sf []))).

(** [Rule.apply], with [ruleArguments] the configured path segments. *)
Definition apply (ruleArguments : list string) (sf : SourceFile)
  : list RuleFailure :=
  if Nat.ltb 0 (List.length ruleArguments) &&
     negb (existsb (fun path => JS.includes (fileName sf) path) ruleArguments)
  then []
  else applyWithFunction sf walk.

(** *** Specification-side vocabulary *)

(** The seven definition constructs whose bodies do not run on load. *)
Definition isOpaque (k : SyntaxKind) : bool :=
  match k with
  | FunctionDeclaration | FunctionExpression | ClassDeclaration
  | ClassExpression | ArrowFunction | MethodDeclaration
  | InterfaceDeclaration => true
  | _ => false
  end.

Definition isAccess (k : SyntaxKind) : bool :=
  match k with
  | PropertyAccessExpression | ElementAccessExpression => true
  | _ => false
  end.

(** The access expressions of a subtree that are not inside an opaque
    definition, in depth-first pre-order. *)
Fixpoint toplevelAccesses (n : Node) : list Node :=
  match n with
  | mkNode k _ _ cs =>
      if isOpaque k then []
      else (if isAccess k then [n] else []) ++ flat_map toplevelAccesses cs
  end.

(** The nodes the walk reaches from a source file: the children of the
    root, and the children of every reached node that is not opaque. *)
Inductive Reached (sf : SourceFile) : Node -> Prop :=
| Reached_top n : In n (children (root sf)) -> Reached sf n
| Reached_child p n :
    Reached sf p -> isOpaque (kind p) = false -> In n (children p) ->
    Reached sf n.

(** A subtree with everything below its opaque definitions erased. *)
Fixpoint prune (n : Node) : Node :=
  match n with
  | mkNode k s e cs =>
      mkNode k s e (if isOpaque k then [] else map prune cs)
  end.

Definition opaqueKinds : list SyntaxKind :=
  [ FunctionDeclaration; FunctionExpression; ClassDeclaration;
    ClassExpression; ArrowFunction; MethodDeclaration; InterfaceDeclaration ].

Definition accessKinds : list SyntaxKind :=
  [ PropertyAccessExpression; ElementAccessExpression ].

(** A source file with the inside of every opaque definition erased. *)
Definition pruneFile (sf : SourceFile) : SourceFile :=
  mkSourceFile (fileName sf)
    (mkNode (kind (root sf)) (getStart (root sf)) (getEnd (root sf))
            (map prune (children (root sf)))).

Definition failureAt (n : Node) : RuleFailure :=
  mkRuleFailure (getStart n) (getEnd n) "Avoid toplevel property access.".

(** The context after failures were added at each of a list of nodes. *)
Definition addAll (ctx : WalkContext) (ns : list Node) : WalkContext :=
  {| sourceFile := sourceFile ctx;
     failures := failures ctx ++ map failureAt ns |}.

(** The nodes below [c] (and [c] itself) that the walk reaches once it is
    at [c]. *)
Inductive ReachedFrom (c : Node) : Node -> Prop :=
| ReachedFrom_here : ReachedFrom c c
| ReachedFrom_child p n :
    ReachedFrom c p -> isOpaque (kind p) = false -> In n (children p) ->
    ReachedFrom c n.

(** [function f() { a.b; }] *)
Definition example_function : SourceFile :=
  mkSourceFile "f.ts"
    (mkNode SourceFileKind 0 21
       [ mkNode FunctionDeclaration 0 21
           [ mkNode Identifier 9 10 [];
             mkNode Block 13 21
               [ mkNode ExpressionStatement 15 19
                   [ mkNode PropertyAccessExpression 15 18
                       [ mkNode Identifier 15 16 [];
                         mkNode Identifier 17 18 [] ] ] ] ];
         mkNode EndOfFileToken 21 21 [] ]).

(** [a.b.c;] *)
Definition example_chain : SourceFile :=
  mkSourceFile "chain.ts"
    (mkNode SourceFileKind 0 6
       [ mkNode ExpressionStatement 0 6
           [ mkNode PropertyAccessExpression 0 5
               [ mkNode PropertyAccessExpression 0 3
                   [ mkNode Identifier 0 1 [];
                     mkNode Identifier 2 3 [] ];
                 mkNode Identifier 4 5 [] ] ];
         mkNode EndOfFileToken 6 6 [] ]).

(** [const obj = {}; obj.prop;] *)
Definition example_single : SourceFile :=
  mkSourceFile "single.ts"
    (mkNode SourceFileKind 0 25
       [ mkNode VariableStatement 0 15
           [ mkNode VariableDeclarationList 0 14
               [ mkNode VariableDeclaration 6 14
                   [ mkNode Identifier 6 9 [];
                     mkNode ObjectLiteralExpression 12 14 [] ] ] ];
         mkNode ExpressionStatement 16 25
           [ mkNode PropertyAccessExpression 16 24
               [ mkNode Identifier 16 19 [];
                 mkNode Identifier 20 24 [] ] ];
         mkNode EndOfFileToken 25 25 [] ]).

End Rule.

(** ** The run-time system: exceptions, the file system, the console *)

Module Sys.

(** What a [throw] carries: the string thrown by the tool itself, or an
    error object raised by Node or by a collaborator. *)
Inductive Exception : Type :=
| ThrownString (message : string)
| SystemError (code : string) (path : string)
| RangeError
| TypeError (message : string)
| ExternalError (message : string).

Inductive Outcome (A : Type) : Type :=
| Ok (value : A)
| Throw (e : Exception).
Arguments Ok {A} value.
Arguments Throw {A} e.

Inductive Entry : Type :=
| File (content : string)
| Dir.

(** The world a run acts on: the file system, as a finite map from
    absolute paths to entries, and the lines written to the console. *)
Record World : Type := mkWorld {
  fs : gmap string Entry;
  console : list string
}.

(** Computations that read and change the world and may throw. *)
Definition M (A : Type) : Type := World -> Outcome A * World.

Definition ret {A : Type} (a : A) : M A := fun w => (Ok a, w).

Definition bind {A B : Type} (m : M A) (k : A -> M B) : M B :=
  fun w =>
    match m w with
    | (Ok a, w') => k a w'
    | (Throw e, w') => (Throw e, w')
    end.

Definition throw {A : Type} (e : Exception) : M A := fun w => (Throw e, w).

Declare Scope sys_scope.
Delimit Scope sys_scope with sys.
Notation "x <- m ;; k" := (bind m (fun x => k))
  (at level 100, m at next level, right associativity) : sys_scope.
Notation "m ;; k" := (bind m (fun _ => k))
  (at level 100, right associativity) : sys_scope.
Open Scope sys_scope.

(** [console.log(line)]. *)
Definition consoleLog (line : string) : M unit :=
  fun w => (Ok tt, {| fs := fs w; console := console w ++ [line] |}).

(** [xs.forEach(f)] for an effectful [f]. *)
Fixpoint forEach {A : Type} (f : A -> M unit) (xs : list A) : M unit :=
  match xs with
  | [] => ret tt
  | x :: rest => f x ;; forEach f rest
  end.

(** [xs.filter(p)] for a predicate [p] that consults the world. *)
Fixpoint filterM {A : Type} (p : A -> M bool) (xs : list A) : M (list A) :=
  match xs with
  | [] => ret []
  | x :: rest =>
      keep <- p x ;;
      kept <- filterM p rest ;;
      ret (if keep then x :: kept else kept)
  end.

(** [for (const x of xs) { acc = body(x, acc) }]: the loop stops at the
    first iteration that throws. *)
Fixpoint forOf {A S : Type} (body : A -> S -> M S) (xs : list A) (acc : S)
  : M S :=
  match xs with
  | [] => ret acc
  | x :: rest => acc' <- body x acc ;; forOf body rest acc'
  end.

(** The parts of Node's [path], [os] and [process] modules the tool
    calls, which are not the tool's own code.  [mkdtempSuffix] is the
    source of the six characters [fs.mkdtempSync] appends to its prefix,
    [stackLimit] the number of nested calls the JavaScript stack
    allows. *)
Class Platform : Type := {
  resolve : string -> string -> string;
  dirname : string -> string;
  pathJoin : string -> string -> string;
  tmpdir : string;
  processCwd : string;
  mkdtempSuffix : World -> string -> string;
  stackLimit : nat
}.

Section FileSystem.
Context `{Platform}.

Definition lookupEntry (w : World) (path : string) : option Entry :=
  fs w !! path.

Definition setFs (w : World) (m : gmap string Entry) : World :=
  {| fs := m; console := console w |}.

(** [fs.existsSync(path)]: true for files and directories alike. *)
Definition exists_ (w : World) (path : string) : bool :=
  match lookupEntry w path with Some _ => true | None => false end.

Definition existsSync (path : string) : M bool :=
  fun w => (Ok (exists_ w path), w).

Definition isDirectory (w : World) (path : string) : bool :=
  match lookupEntry w path with Some Dir => true | _ => false end.

(** [fs.readFileSync(path, 'utf-8')]. *)
Definition readFileSync (path : string) : M string :=
  fun w =>
    match lookupEntry w path with
    | Some (File content) => (Ok content, w)
    | Some Dir => (Throw (SystemError "EISDIR" path), w)
    | None => (Throw (SystemError "ENOENT" path), w)
    end.

(** [fs.writeFileSync(path, data)]: creates or replaces a file in an
    existing directory. *)
Definition writeFileSync (path data : string) : M unit :=
  fun w =>
    match lookupEntry w path with
    | Some Dir => (Throw (SystemError "EISDIR" path), w)
    | _ =>
        if isDirectory w (dirname path)
        then (Ok tt, setFs w (<[path := File data]> (fs w)))
        else (Throw (SystemError "ENOENT" path), w)
    end.

(** [fs.mkdirSync(path)], not recursive. *)
Definition mkdirSync (path : string) : M unit :=
  fun w =>
    if exists_ w path then (Throw (SystemError "EEXIST" path), w)
    else if isDirectory w (dirname path)
    then (Ok tt, setFs w (<[path := Dir]> (fs w)))
    else (Throw (SystemError "ENOENT" path), w).

(** [fs.unlinkSync(path)]. *)
Definition unlinkSync (path : string) : M unit :=
  fun w =>
    match lookupEntry w path with
    | Some (File _) => (Ok tt, setFs w (delete path (fs w)))
    | Some Dir => (Throw (SystemError "EPERM" path), w)
    | None => (Throw (SystemError "ENOENT" path), w)
    end.

(** No entry other than [path] itself lies directly in [path]. *)
Definition isEmptyDirectory (w : World) (path : string) : bool :=
  forallb (fun q => String.eqb q path || negb (String.eqb (dirname q) path))
          (map fst (map_to_list (fs w))).

(** [fs.rmdirSync(path)]: removes an empty directory. *)
Definition rmdirSync (path : string) : M unit :=
  fun w =>
    match lookupEntry w path with
    | Some Dir =>
        if isEmptyDirectory w path
        then (Ok tt, setFs w (delete path (fs w)))
        else (Throw (SystemError "ENOTEMPTY" path), w)
    | Some (File _) => (Throw (SystemError "ENOTDIR" path), w)
    | None => (Throw (SystemError "ENOENT" path), w)
    end.

(** [fs.mkdtempSync(prefix)]: creates the directory named by the prefix
    followed by six generated characters, and returns its path. *)
Definition mkdtempSync (prefix : string) : M string :=
  fun w =>
    let path := prefix +:+ mkdtempSuffix w prefix in
    match mkdirSync path w with
    | (Ok _, w') => (Ok path, w')
    | (Throw e, w') => (Throw e, w')
    end.

End FileSystem.

End Sys.

(** ** The extraction pipeline: [checker.ts] *)

Module Checker.
Import Sys.

(** The slice of terser's [MinifyOptions] the pipeline sets. *)
Record MinifyOptions : Type := mkMinifyOptions {
  mangle : bool;
  compress_defaults : bool;
  compress_global_defs : gmap string string;
  output_comments : bool;
  output_beautify : bool
}.

Inductive Plugin : Type :=
| nodeResolve
| buildOptimizer (sideEffectFreeModules : list string)
| terser (config : MinifyOptions).

Record TreeshakeOptions : Type := mkTreeshakeOptions {
  treeshake_propertyReadSideEffects : bool;
  pureExternalModules : bool;
  annotations : bool
}.

(** Rollup's input options; [onwarn] is kept as whether the no-op
    handler [() => { }] was installed. *)
Record InputOptions : Type := mkInputOptions {
  input : string;
  plugins : list Plugin;
  treeshake : TreeshakeOptions;
  onwarnSilenced : bool
}.

Record OutputOptions : Type := mkOutputOptions {
  file : option string;
  format : string;
  sourcemap : bool
}.

(** An element of a bundle's [output]: a chunk with its code, or an
    emitted asset ([isAsset] is [true]). *)
Inductive OutputItem : Type :=
| OutputChunk (code : string)
| OutputAsset (source : string).

Definition isAsset (item : OutputItem) : bool :=
  match item with OutputAsset _ => true | OutputChunk _ => false end.

(** [chunk.code]; an asset has none, and [join] prints a missing
    element as the empty string. *)
Definition code (item : OutputItem) : string :=
  match item with OutputChunk c => c | OutputAsset _ => "" end.

(** The bundler collaborator (rollup with its plugins): building the
    module graph, the files it visited, writing the bundle and its source
    map to disk, generating it in memory.  Each call may throw and may
    act on the world. *)
Class Bundler : Type := {
  Bundle : Type;
  rollup : InputOptions -> M Bundle;
  watchFiles : Bundle -> list string;
  bundleWrite : Bundle -> OutputOptions -> M unit;
  bundleGenerate : Bundle -> OutputOptions -> M (list OutputItem)
}.

(** [CheckSideEffectsOptions]; an absent optional field is [None]. *)
Record CheckSideEffectsOptions : Type := mkOptions {
  cwd : option string;
  esModules : list string;
  output : option string;
  propertyReadSideEffects : option bool;
  globalDefs : option (gmap string string);
  sideEffectFreeModules : option (list string);
  resolveExternals : option bool;
  printDependencies : option bool;
  useBuildOptimizer : option bool;
  useMinifier : option bool;
  warnings : option bool
}.

Definition missingModulesMessage (missingModules : list string) : string :=
  "Could not find the following modules: " +:+ JS.join "," missingModules +:+ "."
  +:+ JS.LF +:+ "Please provide relative/absolute paths to the ES modules you want to check.".

Definition importStatement (m : string) : string :=
  "import '" +:+ m +:+ "';".

Definition sourceMapInstructions : string :=
  JS.LF
  +:+ "  Open http://sokra.github.io/source-map-visualization/ and drag the" +:+ JS.LF
  +:+ "  output js and js.map to see where the remaining code comes from." +:+ JS.LF.

Section Pipeline.
Context `{Platform} `{Bundler}.

(** The working directory after the default [process.cwd()]. *)
Definition workingDirectory (o : CheckSideEffectsOptions) : string :=
  default processCwd (cwd o).

(** "Resolve provided paths." *)
Definition resolvedEsModules (o : CheckSideEffectsOptions) : list string :=
  map (fun m => JS.replaceBackslashes (resolve (workingDirectory o) m))
      (esModules o).

Definition outputFilePath (o : CheckSideEffectsOptions) : option string :=
  if JS.truthy (output o)
  then Some (resolve (workingDirectory o) (default "" (output o)))
  else None.

(** "Verify the modules exist." *)
Definition verifyModulesExist (resolved : list string) : M unit :=
  missingModules <-
    filterM (fun m => found <- existsSync m ;; ret (negb found)) resolved ;;
  if Nat.ltb 0 (List.length missingModules)
  then throw (ThrownString (missingModulesMessage missingModules))
  else ret tt.

(** "Write a temporary file that imports the module to test."  Returns
    [tmpDir] and [tmpInputFilename]. *)
Definition writeTemporaryInput (resolved : list string)
  : M (string * string) :=
  tmpDir <- mkdtempSync (pathJoin tmpdir "check-side-effects-") ;;
  let tmpInputFilename := resolve tmpDir "./index.js" in
  writeFileSync tmpInputFilename
    (JS.join JS.LF (map importStatement resolved)) ;;
  ret (tmpDir, tmpInputFilename).

Definition terserConfig (o : CheckSideEffectsOptions) : MinifyOptions :=
  {| mangle := false;
     compress_defaults := false;
     compress_global_defs := default ∅ (globalDefs o);
     output_comments := false;
     output_beautify := true |}.

Definition inputOptions (o : CheckSideEffectsOptions)
    (tmpInputFilename : string) : InputOptions :=
  {| input := tmpInputFilename;
     plugins :=
       (if default false (resolveExternals o) then [nodeResolve] else [])
       ++ (if default true (useBuildOptimizer o)
           then [buildOptimizer (default [""] (sideEffectFreeModules o))]
           else [])
       ++ (if default true (useMinifier o) then [terser (terserConfig o)] else []);
     treeshake :=
       {| treeshake_propertyReadSideEffects :=
            default true (propertyReadSideEffects o);
          pureExternalModules := false;
          annotations := true |};
     onwarnSilenced := negb (default false (warnings o)) |}.

Definition outputOptions (o : CheckSideEffectsOptions) : OutputOptions :=
  {| file := outputFilePath o; format := "esm"; sourcemap := true |}.

(** "Return the chunk code." *)
Definition chunkCode (outputs : list OutputItem) : string :=
  JS.join JS.LF (map code (List.filter (fun item => negb (isAsset item)) outputs)).

(** From "Create a bundle." to the end of the function. *)
Definition bundleAndCleanup (o : CheckSideEffectsOptions)
    (tmpDir tmpInputFilename : string) : M JS.Value :=
  bundle <- rollup (inputOptions o tmpInputFilename) ;;
  (if default false (printDependencies o)
   then forEach consoleLog (watchFiles bundle)
   else ret tt) ;;
  outputs <-
    (if JS.truthy (outputFilePath o)
     then bundleWrite bundle (outputOptions o) ;; ret None
     else generated <- bundleGenerate bundle (outputOptions o) ;;
          ret (Some generated)) ;;
  unlinkSync tmpInputFilename ;;
  rmdirSync tmpDir ;;
  (match outputs with
   | None => consoleLog sourceMapInstructions
   | Some _ => ret tt
   end) ;;
  match outputs with
  | Some generated => ret (JS.Str (chunkCode generated))
  | None => ret JS.Undefined
  end.

Definition checkSideEffects (o : CheckSideEffectsOptions) : M JS.Value :=
  verifyModulesExist (resolvedEsModules o) ;;
  tmp <- writeTemporaryInput (resolvedEsModules o) ;;
  bundleAndCleanup o (fst tmp) (snd tmp).

(** The scratch directory an invocation started in world [w] asks
    [mkdtempSync] for, and the entry file inside it. *)
Definition scratchDir (w : World) : string :=
  let prefix := pathJoin tmpdir "check-side-effects-" in
  prefix +:+ mkdtempSuffix w prefix.

Definition scratchFile (w : World) : string :=
  resolve (scratchDir w) "./index.js".

(** The modules of a resolved list that do not exist in a world. *)
Definition missingIn (w : World) (resolved : list string) : list string :=
  List.filter (fun m => negb (exists_ w m)) resolved.

(** The claim that the scratch entries of an invocation are gone whatever
    way the invocation ends: neither the directory asked from
    [mkdtempSync] nor the entry file in it, absent before the call, exists
    after it. *)
Definition ReleasedOnEveryExit (o : CheckSideEffectsOptions) (w : World) : Prop :=
  forall p, p = scratchDir w \/ p = scratchFile w ->
    lookupEntry w p = None ->
    lookupEntry (snd (checkSideEffects o w)) p = None.

End Pipeline.

End Checker.

(** ** The earlier revision of [checker.ts]

    The earlier revision writes its temporary input next to the modules,
    in the working directory, configures the minifier for side-effect
    detection itself, and deletes the temporary input only after writing a
    bundle to disk. *)

Module CheckerEarlier.
Import Sys.

Record MinifyOptions : Type := mkMinifyOptions {
  module_ : bool;
  ecma : nat;
  mangle : bool;
  output_comments : bool;
  output_beautify : bool;
  compress_defaults : bool;
  conditionals : bool;
  unused : bool;
  side_effects : bool;
  pure_getters : bool;
  passes : nat;
  global_defs : gmap string string;
  reduce_vars : bool;
  reduce_funcs : bool;
  evaluate : bool;
  dead_code : bool
}.

Inductive Plugin : Type :=
| nodeResolve
| buildOptimizer (sideEffectFreeModules : list string)
| terser (config : MinifyOptions)
| filesize.

Record InputOptions : Type := mkInputOptions {
  input : string;
  plugins : list Plugin;
  onwarnSilenced : bool
}.

Class Bundler : Type := {
  Bundle : Type;
  rollup : InputOptions -> M Bundle;
  watchFiles : Bundle -> list string;
  bundleWrite : Bundle -> Checker.OutputOptions -> M unit;
  bundleGenerate : Bundle -> Checker.OutputOptions -> M (list Checker.OutputItem)
}.

Record CheckSideEffectsOptions : Type := mkOptions {
  cwd : string;
  esModules : list string;
  outputFilePath : option string;
  pureGetters : option bool;
  globalDefs : option (gmap string string);
  sideEffectFreeModules : option (list string);
  resolveExternals : option bool;
  printDependencies : option bool;
  useBuildOptimizer : option bool;
  warnings : option bool
}.

Section Pipeline.
Context `{Platform} `{Bundler}.

Definition resolvedEsModules (o : CheckSideEffectsOptions) : list string :=
  map (fun m => JS.replaceBackslashes (resolve (cwd o) m)) (esModules o).

(** [outputFilePath] after [if (outputFilePath) { outputFilePath =
    resolve(cwd, outputFilePath); }]. *)
Definition resolvedOutputFilePath (o : CheckSideEffectsOptions) : option string :=
  if JS.truthy (outputFilePath o)
  then Some (resolve (cwd o) (default "" (outputFilePath o)))
  else outputFilePath o.

Definition tmpInputFilename (o : CheckSideEffectsOptions) : string :=
  resolve (cwd o) "./check-side-effects.tmp-input.js".

Definition terserConfig (o : CheckSideEffectsOptions) : MinifyOptions :=
  {| module_ := true;
     ecma := 6;
     mangle := false;
     output_comments := false;
     output_beautify := true;
     compress_defaults := false;
     conditionals := true;
     unused := true;
     side_effects := true;
     pure_getters := default true (pureGetters o);
     passes := 3;
     global_defs := default ∅ (globalDefs o);
     reduce_vars := true;
     reduce_funcs := true;
     evaluate := true;
     dead_code := true |}.

Definition inputOptions (o : CheckSideEffectsOptions) : InputOptions :=
  {| input := tmpInputFilename o;
     plugins :=
       (if default false (resolveExternals o) then [nodeResolve] else [])
       ++ (if default true (useBuildOptimizer o)
           then [buildOptimizer (default [""] (sideEffectFreeModules o))]
           else [])
       ++ [terser (terserConfig o)]
       ++ (if JS.truthy (resolvedOutputFilePath o) then [filesize] else []);
     onwarnSilenced := negb (default false (warnings o)) |}.

Definition outputOptions (o : CheckSideEffectsOptions) : Checker.OutputOptions :=
  {| Checker.file := resolvedOutputFilePath o;
     Checker.format := "esm";
     Checker.sourcemap := true |}.

(** From "Create a bundle." to the end of the function. *)
Definition bundleAndReturn (o : CheckSideEffectsOptions) : M JS.Value :=
  bundle <- rollup (inputOptions o) ;;
  (if default false (printDependencies o)
   then forEach consoleLog (watchFiles bundle)
   else ret tt) ;;
  if JS.truthy (resolvedOutputFilePath o)
  then
    bundleWrite bundle (outputOptions o) ;;
    unlinkSync (tmpInputFilename o) ;;
    consoleLog Checker.sourceMapInstructions ;;
    ret JS.Undefined
  else
    generated <- bundleGenerate bundle (outputOptions o) ;;
    ret (JS.Str (JS.join JS.LF
           (map Checker.code
              (List.filter (fun item => negb (Checker.isAsset item)) generated)))).

Definition checkSideEffects (o : CheckSideEffectsOptions) : M JS.Value :=
  missingModules <-
    filterM (fun m => found <- existsSync m ;; ret (negb found))
            (resolvedEsModules o) ;;
  if Nat.ltb 0 (List.length missingModules)
  then throw (ThrownString (Checker.missingModulesMessage missingModules))
  else
    writeFileSync (tmpInputFilename o)
      (JS.join JS.LF (map Checker.importStatement (resolvedEsModules o))) ;;
    bundleAndReturn o.

End Pipeline.

End CheckerEarlier.

(** ** The command line and the regression harness: [cli.ts] *)

Module Cli.
Import Sys.

Record MainOptions : Type := mkMainOptions {
  args : list string
}.

Record CheckerCLIOptions : Type := mkCheckerCLIOptions {
  cli_cwd : option string;
  cli_output : option string;
  cli_pureGetters : option bool;
  cli_resolveExternals : option bool;
  cli_printDependencies : option bool;
  cli_useBuildOptimizer : option bool;
  cli_useMinifier : option bool;
  cli_warnings : option bool
}.

(** [esModules: string | string[]]. *)
Inductive EsModules : Type :=
| OneModule (m : string)
| ModuleArray (ms : list string).

Record Test : Type := mkTest {
  esModules : EsModules;
  options : option CheckerCLIOptions;
  expectedOutput : string
}.

Record TestJson : Type := mkTestJson {
  tests : list Test
}.

(** What [minimist] hands back; [positional] is its [_] array. *)
Record ParsedCliOptions : Type := mkParsed {
  help : bool;
  cwd : string;
  output : option string;
  test : option string;
  update : bool;
  pureGetters : bool;
  resolveExternals : bool;
  printDependencies : bool;
  useBuildOptimizer : bool;
  useMinifier : bool;
  warnings : bool;
  positional : list string
}.

(** The two parsers [main] relies on: [minimist] with the option table of
    [main], and [JSON.parse] read at type [TestJson]. *)
Class Parsers : Type := {
  minimist : list string -> ParsedCliOptions;
  JSON_parse : string -> Outcome TestJson
}.

Definition TAB : string := String (ascii_of_nat 9) EmptyString.

Definition helpText : string :=
  JS.LF +:+
  "check-side-effects [ES modules to check] [--option-name]" +:+ JS.LF +:+
  JS.LF +:+
  "Checks side effects from importing given ES modules." +:+ JS.LF +:+
  JS.LF +:+
  "Options:" +:+ JS.LF +:+
  "    --help                    Show this message." +:+ JS.LF +:+
  "    --cwd                     Override working directory to run the process in." +:+ JS.LF +:+
  "    --output                  Output the bundle to this path. Useful to trace the sourcemaps." +:+ JS.LF +:+
  "    --pure-getters            Assume there are no side effects from getters. [Default: false]" +:+ JS.LF +:+
  "    --resolve-externals       Resolve external dependencies. [Default: false]" +:+ JS.LF +:+
  "    --print-dependencies      Print all the module dependencies. [Default: false]" +:+ JS.LF +:+
  "    --use-build-optimizer     Run Build Optimizer over all modules. [Default: true]" +:+ JS.LF +:+
  "    --use-minifier" +:+ TAB +:+ "          Run minifier over the final bundle to remove comments. [Default: true]" +:+ JS.LF +:+
  "    --warnings                Show all warnings. [Default: false]" +:+ JS.LF +:+
  "    --test                    Read a series of tests from a JSON file." +:+ JS.LF +:+
  "    --update                  Update the test results. [Default: false]" +:+ JS.LF +:+
  JS.LF +:+
  "Example:" +:+ JS.LF +:+
  "    check-side-effects ./path/to/library/module.js" +:+ JS.LF.

Definition showHelp : M unit := consoleLog helpText.

(** "Check if a given string looks like the node binary." *)
Definition isNodeBinary (str : string) : bool :=
  JS.endsWith str "node" || JS.endsWith str "node.exe".

Definition failedExpectationsDescription (failedExpectations : list string)
  : string :=
  JS.join JS.LF (map (fun s => "  " +:+ s) failedExpectations).

Definition updatedMessage (failedExpectations : list string) : string :=
  "Test expectations updated for modules:" +:+ JS.LF
  +:+ failedExpectationsDescription failedExpectations +:+ JS.LF.

Definition failedMessage (failedExpectations : list string) : string :=
  "Tests failed for modules:" +:+ JS.LF
  +:+ failedExpectationsDescription failedExpectations +:+ JS.LF
  +:+ JS.LF
  +:+ "To update the expectations, run this command again with the --update flag."
  +:+ JS.LF.

Definition unresolvedEsModules (t : Test) : list string :=
  match esModules t with
  | ModuleArray ms => ms
  | OneModule m => [m]
  end.

Definition esModulesDescription (t : Test) : string :=
  JS.join " " (unresolvedEsModules t).

(** [{ esModules, cwd: options.cwd, ...test.options }]: the fields of
    the test's own options, where present, win over the two set first.
    [pureGetters] is carried by the command line but is not a field the
    pipeline reads. *)
Definition testCheckerOptions (cwd0 : string) (resolved : list string)
    (t : Test) : Checker.CheckSideEffectsOptions :=
  let o := options t in
  {| Checker.cwd := Some (default cwd0 (o ≫= cli_cwd));
     Checker.esModules := resolved;
     Checker.output := o ≫= cli_output;
     Checker.propertyReadSideEffects := None;
     Checker.globalDefs := None;
     Checker.sideEffectFreeModules := None;
     Checker.resolveExternals := o ≫= cli_resolveExternals;
     Checker.printDependencies := o ≫= cli_printDependencies;
     Checker.useBuildOptimizer := o ≫= cli_useBuildOptimizer;
     Checker.useMinifier := o ≫= cli_useMinifier;
     Checker.warnings := o ≫= cli_warnings |}.

(** The options assembled from the flags when no test file is given. *)
Definition flagCheckerOptions (opts : ParsedCliOptions)
    (modules : list string) : Checker.CheckSideEffectsOptions :=
  {| Checker.cwd := Some (cwd opts);
     Checker.esModules := modules;
     Checker.output := output opts;
     Checker.propertyReadSideEffects := None;
     Checker.globalDefs := None;
     Checker.sideEffectFreeModules := None;
     Checker.resolveExternals := Some (resolveExternals opts);
     Checker.printDependencies := Some (printDependencies opts);
     Checker.useBuildOptimizer := Some (useBuildOptimizer opts);
     Checker.useMinifier := Some (useMinifier opts);
     Checker.warnings := Some (warnings opts) |}.

(** What one iteration of the test loop knows once the pipeline has run
    and the expectation is loaded. *)
Record Evaluation : Type := mkEvaluation {
  description : string;
  result : JS.Value;
  expectedOutputPath : string;
  expected : string
}.

Section Harness.
Context `{Platform} `{Checker.Bundler} `{Parsers}.

(** [_recursiveMkDir(path)]; [depth] is the number of nested calls still
    available on the stack. *)
Fixpoint _recursiveMkDir (depth : nat) (path : string) : M unit :=
  match depth with
  | 0 => throw RangeError
  | S depth' =>
      found <- existsSync path ;;
      if negb found
      then _recursiveMkDir depth' (dirname path) ;; mkdirSync path
      else ret tt
  end.

(** The loop body up to and including "Load the expected output." *)
Definition evaluateTest (opts : ParsedCliOptions) (testFileDir : string)
    (t : Test) : M Evaluation :=
  let esModules := map (fun esm => resolve testFileDir esm) (unresolvedEsModules t) in
  consoleLog ("Testing " +:+ esModulesDescription t) ;;
  let checkSideEffectsOptions := testCheckerOptions (cwd opts) esModules t in
  result <- Checker.checkSideEffects checkSideEffectsOptions ;;
  let expectedOutputPath := resolve (cwd opts) (expectedOutput t) in
  found <- existsSync expectedOutputPath ;;
  expectedOutput <-
    (if found then readFileSync expectedOutputPath else ret "") ;;
  ret {| description := esModulesDescription t;
         result := result;
         expectedOutputPath := expectedOutputPath;
         expected := expectedOutput |}.

(** "Check against the expectation." *)
Definition checkExpectation (opts : ParsedCliOptions) (ev : Evaluation)
    (failedExpectations : list string) : M (list string) :=
  if JS.looseNeq (result ev) (expected ev)
  then
    let failedExpectations' := (failedExpectations ++ [description ev])%list in
    (if update opts
     then _recursiveMkDir stackLimit (dirname (expectedOutputPath ev)) ;;
          writeFileSync (expectedOutputPath ev) (JS.toString (result ev))
     else ret tt) ;;
    ret failedExpectations'
  else ret failedExpectations.

(** One iteration of [for (const test of testJson.tests)]. *)
Definition runTest (opts : ParsedCliOptions) (testFileDir : string)
    (t : Test) (failedExpectations : list string) : M (list string) :=
  ev <- evaluateTest opts testFileDir t ;;
  checkExpectation opts ev failedExpectations.

Definition runTests (opts : ParsedCliOptions) (testFileDir : string)
    (ts : list Test) (failedExpectations : list string) : M (list string) :=
  forOf (runTest opts testFileDir) ts failedExpectations.

(** From "Print a newline before the results." to the end of the test
    branch. *)
Definition reportTests (opts : ParsedCliOptions)
    (failedExpectations : list string) : M JS.Value :=
  consoleLog "" ;;
  if Nat.ltb 0 (List.length failedExpectations)
  then
    if update opts
    then consoleLog (updatedMessage failedExpectations) ;; ret JS.Undefined
    else throw (ThrownString (failedMessage failedExpectations))
  else consoleLog "All tests passed." ;; ret JS.Undefined.

(** The test branch up to the loop: find, read and parse the test
    file. *)
Definition loadTests (opts : ParsedCliOptions) : M (string * TestJson) :=
  let testFilePath := resolve (cwd opts) (default "" (test opts)) in
  found <- existsSync testFilePath ;;
  if negb found
  then throw (ThrownString ("Could not find the test file: " +:+ testFilePath +:+ "."))
  else
    consoleLog ("Loading tests from " +:+ testFilePath +:+ JS.LF) ;;
    text <- readFileSync testFilePath ;;
    match JSON_parse text with
    | Ok testJson => ret (dirname testFilePath, testJson)
    | Throw e => throw e
    end.

Definition main (rawOpts : MainOptions) : M JS.Value :=
  let opts := minimist (args rawOpts) in
  if help opts then showHelp ;; ret JS.Undefined
  else if JS.truthy (test opts)
  then
    loaded <- loadTests opts ;;
    failedExpectations <- runTests opts (fst loaded) (tests (snd loaded)) [] ;;
    reportTests opts failedExpectations
  else
    match positional opts with
    | [] => throw (TypeError "Cannot read property 'endsWith' of undefined")
    | first :: _ =>
        let esModules :=
          if isNodeBinary first then skipn 2 (positional opts)
          else skipn 1 (positional opts) in
        if Nat.eqb (List.length esModules) 0
        then throw (ThrownString
               "You must provide at least one ES module. Use --help for usage information.")
        else Checker.checkSideEffects (flagCheckerOptions opts esModules)
    end.

(** *** Specification-side vocabulary *)

(** A world with one more line on the console. *)
Definition logged (w : World) (line : string) : World :=
  {| fs := fs w; console := console w ++ [line] |}.

(** The baseline path of a test and the options its pipeline run gets. *)
Definition baselinePath (opts : ParsedCliOptions) (t : Test) : string :=
  resolve (cwd opts) (expectedOutput t).

Definition pipelineOptions (opts : ParsedCliOptions) (testFileDir : string)
    (t : Test) : Checker.CheckSideEffectsOptions :=
  testCheckerOptions (cwd opts)
    (map (fun esm => resolve testFileDir esm) (unresolvedEsModules t)) t.

(** The extraction result of an evaluated case differs from its
    baseline. *)
Definition differs (ev : Evaluation) : bool :=
  JS.looseNeq (result ev) (expected ev).

(** What a run of the loop learned about each test it evaluated, in order;
    the list ends where an iteration throws. *)
Fixpoint evaluations (opts : ParsedCliOptions) (testFileDir : string)
    (ts : list Test) (failedExpectations : list string) (w : World)
  : list Evaluation :=
  match ts with
  | [] => []
  | t :: rest =>
      match evaluateTest opts testFileDir t w with
      | (Ok ev, w1) =>
          ev :: match checkExpectation opts ev failedExpectations w1 with
                | (Ok failedExpectations', w2) =>
                    evaluations opts testFileDir rest failedExpectations' w2
                | (Throw _, _) => []
                end
      | (Throw _, _) => []
      end
  end.

(** The descriptions of the evaluated cases that differ. *)
Definition mismatches (evs : list Evaluation) : list string :=
  map description (List.filter differs evs).

(** [n] missing ancestors: [path] and its next [n - 1] parents do not
    exist, and the parent after them is an existing directory. *)
Fixpoint MissingAncestors (n : nat) (path : string) (w : World) : Prop :=
  match n with
  | 0 => isDirectory w path = true
  | S n' => lookupEntry w path = None /\ MissingAncestors n' (dirname path) w
  end.

(** The baseline at [path] is settled on the value [r]: [r] is a string,
    and a baseline file at [path], or its absence read as the empty
    string, agrees with it. *)
Definition Settled (path : string) (r : JS.Value) (w : World) : Prop :=
  exists s, r = JS.Str s
    /\ (forall c, lookupEntry w path = Some (File c) -> c = s)
    /\ (lookupEntry w path = None -> s = "").

(** From [w] to [w'] nothing happened but the creation of directories at
    paths where nothing was. *)
Definition OnlyNewDirs (w w' : World) : Prop :=
  console w' = console w
  /\ forall q, lookupEntry w' q = lookupEntry w q
             \/ (lookupEntry w q = None /\ lookupEntry w' q = Some Dir).

(** The pipeline run of test [t], whenever it returns, leaves what is at
    [path] as it was. *)
Definition PipelineKeeps (opts : ParsedCliOptions) (testFileDir : string)
    (t : Test) (path : string) : Prop :=
  forall wa r wb,
    Checker.checkSideEffects (pipelineOptions opts testFileDir t) wa = (Ok r, wb) ->
    lookupEntry wb path = lookupEntry wa path.

(** The test asks for no output file: its pipeline run is in memory. *)
Definition InMemory (t : Test) : Prop :=
  JS.truthy (options t ≫= cli_output) = false.

(** The claim that a test run in update mode that returns is followed by a
    passing run without the flag. *)
Definition UpdateThenPass (rawUpdate rawCheck : MainOptions) (w : World) : Prop :=
  forall w1, main rawUpdate w = (Ok JS.Undefined, w1) ->
    fst (main rawCheck w1) = Ok JS.Undefined.

End Harness.

End Cli.

(** ** Concrete platforms, bundlers and worlds for the examples *)

Module Examples.
Import Sys.

(** The part of a path before its last slash, if it has one. *)
Fixpoint beforeLastSlash (s : string) : option string :=
  match s with
  | EmptyString => None
  | String c rest =>
      match beforeLastSlash rest with
      | Some d => Some (String c d)
      | None => if Ascii.eqb c JS.slash then Some EmptyString else None
      end
  end.

(** POSIX [path.dirname] on the normalised absolute paths of the examples. *)
Definition posixDirname (s : string) : string :=
  match beforeLastSlash s with
  | Some EmptyString => "/"
  | Some d => d
  | None => "."
  end.

(** POSIX [path.resolve(from, to)] for an absolute [from] and a [to] that
    is absolute, or relative without [..] segments. *)
Definition posixResolve (from to : string) : string :=
  if JS.startsWith to "/" then to
  else if JS.startsWith to "./" then from +:+ "/" +:+ String.substring 2 (String.length to - 2) to
  else from +:+ "/" +:+ to.

Definition posix : Platform :=
  {| resolve := posixResolve;
     dirname := posixDirname;
     pathJoin := fun a b => a +:+ "/" +:+ b;
     tmpdir := "/tmp";
     processCwd := "/proj";
     mkdtempSuffix := fun _ _ => "Ab3dE9";
     stackLimit := 64 |}.

(** A bundler that finds nothing to remove: the bundle is the text of the
    entry file, emitted as one chunk next to a source-map asset. *)
Definition echoBundler : Checker.Bundler :=
  {| Checker.Bundle := string;
     Checker.rollup := fun io => @readFileSync (Checker.input io);
     Checker.watchFiles := fun _ => [];
     Checker.bundleWrite := fun b oo =>
       match Checker.file oo with
       | Some f => @writeFileSync posix f b
       | None => throw (TypeError "You must specify output.file")
       end;
     Checker.bundleGenerate := fun b _ =>
       ret [Checker.OutputChunk b; Checker.OutputAsset "{}"] |}.

(** A bundler whose graph build raises. *)
Definition failingBundler : Checker.Bundler :=
  {| Checker.Bundle := unit;
     Checker.rollup := fun _ => throw (ExternalError "Could not resolve entry module");
     Checker.watchFiles := fun _ => [];
     Checker.bundleWrite := fun _ _ => ret tt;
     Checker.bundleGenerate := fun _ _ => ret [] |}.

(** The same two bundlers for the earlier revision. *)
Definition earlierEchoBundler : CheckerEarlier.Bundler :=
  {| CheckerEarlier.Bundle := string;
     CheckerEarlier.rollup := fun io => @readFileSync (CheckerEarlier.input io);
     CheckerEarlier.watchFiles := fun _ => [];
     CheckerEarlier.bundleWrite := fun b oo =>
       match Checker.file oo with
       | Some f => @writeFileSync posix f b
       | None => throw (TypeError "You must specify output.file")
       end;
     CheckerEarlier.bundleGenerate := fun b _ =>
       ret [Checker.OutputChunk b; Checker.OutputAsset "{}"] |}.

Definition earlierOptions (modules : list string) (out : option string)
  : CheckerEarlier.CheckSideEffectsOptions :=
  {| CheckerEarlier.cwd := "/proj";
     CheckerEarlier.esModules := modules;
     CheckerEarlier.outputFilePath := out;
     CheckerEarlier.pureGetters := None;
     CheckerEarlier.globalDefs := None;
     CheckerEarlier.sideEffectFreeModules := None;
     CheckerEarlier.resolveExternals := None;
     CheckerEarlier.printDependencies := None;
     CheckerEarlier.useBuildOptimizer := None;
     CheckerEarlier.warnings := None |}.

Definition projectFs : gmap string Entry :=
  <["/" := Dir]> (<["/tmp" := Dir]> (<["/proj" := Dir]>
  (<["/proj/a.js" := File "export const a = 1;"]>
  (<["/proj/b.js" := File "console.log(1);"]> ∅)))).

Definition projectWorld : World := {| fs := projectFs; console := [] |}.

Definition checkOptions (modules : list string) (out : option string)
  : Checker.CheckSideEffectsOptions :=
  {| Checker.cwd := Some "/proj";
     Checker.esModules := modules;
     Checker.output := out;
     Checker.propertyReadSideEffects := None;
     Checker.globalDefs := None;
     Checker.sideEffectFreeModules := None;
     Checker.resolveExternals := None;
     Checker.printDependencies := None;
     Checker.useBuildOptimizer := None;
     Checker.useMinifier := None;
     Checker.warnings := None |}.

Definition cliOptions (updateFlag : bool) : Cli.ParsedCliOptions :=
  {| Cli.help := false;
     Cli.cwd := "/proj";
     Cli.output := None;
     Cli.test := Some "tests.json";
     Cli.update := updateFlag;
     Cli.pureGetters := false;
     Cli.resolveExternals := false;
     Cli.printDependencies := false;
     Cli.useBuildOptimizer := true;
     Cli.useMinifier := true;
     Cli.warnings := false;
     Cli.positional := ["node"; "cli.js"] |}.

Definition caseOf (module baseline : string) : Cli.Test :=
  {| Cli.esModules := Cli.OneModule module;
     Cli.options := None;
     Cli.expectedOutput := baseline |}.

(** A command-line parser that knows one flag, and a JSON parser that
    knows one suite. *)
Definition parsersFor (suite : list Cli.Test) : Cli.Parsers :=
  {| Cli.minimist := fun args =>
       cliOptions (existsb (String.eqb "--update") args);
     Cli.JSON_parse := fun _ => Ok (Cli.mkTestJson suite) |}.

Definition withUpdate : Cli.MainOptions :=
  Cli.mkMainOptions ["node"; "cli.js"; "--test"; "tests.json"; "--update"].

Definition withoutUpdate : Cli.MainOptions :=
  Cli.mkMainOptions ["node"; "cli.js"; "--test"; "tests.json"].

(** A suite of two cases with a baseline each: the first baseline holds
    what the pipeline yields, the second is missing, in a directory that is
    missing too. *)
Definition twoCases : list Cli.Test :=
  [ caseOf "a.js" "expected/a.txt"; caseOf "b.js" "fresh/out/b.txt" ].

(** A suite whose two cases name the same baseline file. *)
Definition sharedBaseline : list Cli.Test :=
  [ caseOf "a.js" "expected/shared.txt"; caseOf "b.js" "expected/shared.txt" ].

(** A suite whose only case asks the pipeline for a bundle on disk. *)
Definition onDiskCase : list Cli.Test :=
  [ {| Cli.esModules := Cli.ModuleArray ["a.js"];
       Cli.options :=
         Some {| Cli.cli_cwd := None;
                 Cli.cli_output := Some "out.js";
                 Cli.cli_pureGetters := None;
                 Cli.cli_resolveExternals := None;
                 Cli.cli_printDependencies := None;
                 Cli.cli_useBuildOptimizer := None;
                 Cli.cli_useMinifier := None;
                 Cli.cli_warnings := None |};
       Cli.expectedOutput := "expected/disk.txt" |} ].

Definition suiteFs : gmap string Entry :=
  <["/proj/tests.json" := File "{ tests }"]>
  (<["/proj/expected" := Dir]>
  (<["/proj/expected/a.txt" := File "import '/proj/a.js';"]> projectFs)).

Definition suiteWorld : World := {| fs := suiteFs; console := [] |}.

(** The worlds the example runs pass through. *)
Definition entryWorld : World :=
  snd (@Checker.writeTemporaryInput posix ["/proj/a.js"; "/proj/b.js"] projectWorld).

Definition loadedWorld (updateFlag : bool) (suite : list Cli.Test) (w : World) : World :=
  snd (@Cli.loadTests posix (parsersFor suite) (cliOptions updateFlag) w).

Definition finishedWorld (updateFlag : bool) (suite : list Cli.Test) (w : World) : World :=
  snd (@Cli.runTests posix echoBundler (cliOptions updateFlag) "/proj" suite []
         (loadedWorld updateFlag suite w)).

End Examples.

(** ** The entry point: [bin/check-side-effects] and the tail of [cli.ts]

    [main({ args: process.argv }).then(output => !!output ?
    console.log(output) : null).catch(e => { console.error(e.msg ? e.msg :
    e); process.exitCode = 1; })]. *)

Module Runner.
Import Sys.

(** [!!output] for the [string | undefined] that [main] resolves to. *)
Definition truthyValue (v : JS.Value) : bool :=
  match v with
  | JS.Str s => negb (String.eqb s "")
  | JS.Undefined => false
  end.

(** How the process ends: the world it leaves, what went to
    [console.error], and the exit status. *)
Record Exit : Type := mkExit {
  finalWorld : World;
  stderr : list Exception;
  exitCode : nat
}.

Section Run.
Context `{Platform} `{Checker.Bundler} `{Cli.Parsers}.

(** Neither a thrown string nor an error object has a [msg] property, so
    [e.msg ? e.msg : e] is the thrown value itself. *)
Definition run (argv : list string) (w : World) : Exit :=
  match Cli.main (Cli.mkMainOptions argv) w with
  | (Ok output, w') =>
      {| finalWorld :=
           if truthyValue output then Cli.logged w' (JS.toString output) else w';
         stderr := [];
         exitCode := 0 |}
  | (Throw e, w') =>
      {| finalWorld := w'; stderr := [e]; exitCode := 1 |}
  end.

End Run.

End Runner.

(** ** The revision of [cli.ts] with expectations written in the test file

    Each test carries its expected text; nothing is read from or written to
    baseline files, and there is no update mode. *)

Module CliInline.
Import Sys.

Record Test : Type := mkTest {
  esModules : list string;
  options : option Cli.CheckerCLIOptions;
  expected : string
}.

Record TestJson : Type := mkTestJson {
  tests : list Test
}.

Class Parsers : Type := {
  minimist : list string -> Cli.ParsedCliOptions;
  JSON_parse : string -> Outcome TestJson
}.

Definition helpText : string :=
  JS.LF +:+
  "check-side-effects [ES modules to check] [--option-name]" +:+ JS.LF +:+
  JS.LF +:+
  "Checks side effects from importing given ES modules." +:+ JS.LF +:+
  JS.LF +:+
  "Options:" +:+ JS.LF +:+
  "    --help                    Show this message." +:+ JS.LF +:+
  "    --cwd                     Override working directory to run the process in." +:+ JS.LF +:+
  "    --output                  Output the bundle to this path. Useful to trace the sourcemaps." +:+ JS.LF +:+
  "    --pure-getters            Assume there are no side effects from getters. [Default: true]" +:+ JS.LF +:+
  "    --resolve-externals       Resolve external dependencies. [Default: false]" +:+ JS.LF +:+
  "    --print-dependencies      Print all the module dependencies. [Default: false]" +:+ JS.LF +:+
  "    --use-build-optimizer     Run Build Optimizer over all modules. [Default: true]" +:+ JS.LF +:+
  "    --use-minifier" +:+ Cli.TAB +:+ "          Run minifier over the final bundle to remove comments. [Default: true]" +:+ JS.LF +:+
  "    --warnings                Show all warnings. [Default: false]" +:+ JS.LF +:+
  "    --test                    Read a series of tests from a JSON file. [Default: false]" +:+ JS.LF +:+
  JS.LF +:+
  "Example:" +:+ JS.LF +:+
  "    check-side-effects ./path/to/library/module.js" +:+ JS.LF.

Definition showHelp : M unit := consoleLog helpText.

Definition failedMessage (failedExpectations : list string) : string :=
  "Tests failed for modules:" +:+ JS.LF
  +:+ JS.join JS.LF failedExpectations
  +:+ JS.LF +:+ JS.LF
  +:+ "Run 'check-side-effects path-to-modules' individually to check results."
  +:+ JS.LF.

(** [{ esModules: test.esModules, cwd: parsedArgs.cwd, ...test.options }]. *)
Definition testCheckerOptions (cwd0 : string) (t : Test)
  : Checker.CheckSideEffectsOptions :=
  let o := options t in
  {| Checker.cwd := Some (default cwd0 (o ≫= Cli.cli_cwd));
     Checker.esModules := esModules t;
     Checker.output := o ≫= Cli.cli_output;
     Checker.propertyReadSideEffects := None;
     Checker.globalDefs := None;
     Checker.sideEffectFreeModules := None;
     Checker.resolveExternals := o ≫= Cli.cli_resolveExternals;
     Checker.printDependencies := o ≫= Cli.cli_printDependencies;
     Checker.useBuildOptimizer := o ≫= Cli.cli_useBuildOptimizer;
     Checker.useMinifier := o ≫= Cli.cli_useMinifier;
     Checker.warnings := o ≫= Cli.cli_warnings |}.

Section Harness.
Context `{Platform} `{Checker.Bundler} `{Parsers}.

(** One iteration of [for (const test of testJson.tests)]. *)
Definition runTest (parsedArgs : Cli.ParsedCliOptions) (t : Test)
    (failedExpectations : list string) : M (list string) :=
  result <- Checker.checkSideEffects (testCheckerOptions (Cli.cwd parsedArgs) t) ;;
  if JS.looseNeq result (expected t)
  then ret (failedExpectations ++ [JS.join " " (esModules t)])
  else ret failedExpectations.

Definition main (opts : Cli.MainOptions) : M JS.Value :=
  let parsedArgs := minimist (Cli.args opts) in
  if Cli.help parsedArgs then showHelp ;; ret JS.Undefined
  else if JS.truthy (Cli.test parsedArgs)
  then
    let testFile :=
      resolve (Cli.cwd parsedArgs) (default "" (Cli.test parsedArgs)) in
    found <- existsSync testFile ;;
    if negb found
    then throw (ThrownString ("Could not find the test file: " +:+ testFile +:+ "."))
    else
      text <- readFileSync testFile ;;
      match JSON_parse text with
      | Throw e => throw e
      | Ok testJson =>
          failedExpectations <- forOf (runTest parsedArgs) (tests testJson) [] ;;
          if Nat.ltb 0 (List.length failedExpectations)
          then throw (ThrownString (failedMessage failedExpectations))
          else consoleLog "All tests passed." ;; ret JS.Undefined
      end
  else
    match Cli.positional parsedArgs with
    | [] => throw (TypeError "Cannot read property 'endsWith' of undefined")
    | first :: _ =>
        let modules :=
          if Cli.isNodeBinary first then skipn 2 (Cli.positional parsedArgs)
          else skipn 1 (Cli.positional parsedArgs) in
        Checker.checkSideEffects (Cli.flagCheckerOptions parsedArgs modules)
    end.

(** *** Specification-side vocabulary *)

(** The tests a run of the loop got a result for, each with its result;
    the list ends where a pipeline run throws. *)
Fixpoint outcomes (parsedArgs : Cli.ParsedCliOptions) (ts : list Test)
    (w : World) : list (Test * JS.Value) :=
  match ts with
  | [] => []
  | t :: rest =>
      match Checker.checkSideEffects (testCheckerOptions (Cli.cwd parsedArgs) t) w with
      | (Ok r, w1) => (t, r) :: outcomes parsedArgs rest w1
      | (Throw _, _) => []
      end
  end.

Definition differs (outcome : Test * JS.Value) : bool :=
  JS.looseNeq (snd outcome) (expected (fst outcome)).

Definition describe (outcome : Test * JS.Value) : string :=
  JS.join " " (esModules (fst outcome)).

End Harness.

End CliInline.

(** ** The first revision of [cli.ts] with [--update]

    It differs from the latest one in that the module references of a test
    go to the pipeline as they are written, and that an update writes the
    baseline without creating directories. *)

Module CliNoMkdir.
Import Sys.

Definition helpText : string :=
  JS.LF +:+
  "check-side-effects [ES modules to check] [--option-name]" +:+ JS.LF +:+
  JS.LF +:+
  "Checks side effects from importing given ES modules." +:+ JS.LF +:+
  JS.LF +:+
  "Options:" +:+ JS.LF +:+
  "    --help                    Show this message." +:+ JS.LF +:+
  "    --cwd                     Override working directory to run the process in." +:+ JS.LF +:+
  "    --output                  Output the bundle to this path. Useful to trace the sourcemaps." +:+ JS.LF +:+
  "    --pure-getters            Assume there are no side effects from getters. [Default: true]" +:+ JS.LF +:+
  "    --resolve-externals       Resolve external dependencies. [Default: false]" +:+ JS.LF +:+
  "    --print-dependencies      Print all the module dependencies. [Default: false]" +:+ JS.LF +:+
  "    --use-build-optimizer     Run Build Optimizer over all modules. [Default: true]" +:+ JS.LF +:+
  "    --use-minifier" +:+ Cli.TAB +:+ "          Run minifier over the final bundle to remove comments. [Default: true]" +:+ JS.LF +:+
  "    --warnings                Show all warnings. [Default: false]" +:+ JS.LF +:+
  "    --test                    Read a series of tests from a JSON file." +:+ JS.LF +:+
  "    --update                  Update the test results. [Default: false]" +:+ JS.LF +:+
  JS.LF +:+
  "Example:" +:+ JS.LF +:+
  "    check-side-effects ./path/to/library/module.js" +:+ JS.LF.

Definition showHelp : M unit := consoleLog helpText.

Definition updatedMessage (failedExpectations : list string) : string :=
  "Tests updated for modules:" +:+ JS.LF
  +:+ Cli.failedExpectationsDescription failedExpectations +:+ JS.LF.

Section Harness.
Context `{Platform} `{Checker.Bundler} `{Cli.Parsers}.

(** The loop body up to and including "Load the expected output." *)
Definition evaluateTest (opts : Cli.ParsedCliOptions) (t : Cli.Test)
  : M Cli.Evaluation :=
  let esModules := Cli.unresolvedEsModules t in
  consoleLog ("Testing " +:+ Cli.esModulesDescription t) ;;
  let checkSideEffectsOptions := Cli.testCheckerOptions (Cli.cwd opts) esModules t in
  result <- Checker.checkSideEffects checkSideEffectsOptions ;;
  let expectedOutputPath := resolve (Cli.cwd opts) (Cli.expectedOutput t) in
  found <- existsSync expectedOutputPath ;;
  expectedOutput <-
    (if found then readFileSync expectedOutputPath else ret "") ;;
  ret {| Cli.description := Cli.esModulesDescription t;
         Cli.result := result;
         Cli.expectedOutputPath := expectedOutputPath;
         Cli.expected := expectedOutput |}.

(** "Check against the expectation." *)
Definition checkExpectation (opts : Cli.ParsedCliOptions) (ev : Cli.Evaluation)
    (failedExpectations : list string) : M (list string) :=
  if JS.looseNeq (Cli.result ev) (Cli.expected ev)
  then
    let failedExpectations' := (failedExpectations ++ [Cli.description ev])%list in
    (if Cli.update opts
     then writeFileSync (Cli.expectedOutputPath ev) (JS.toString (Cli.result ev))
     else ret tt) ;;
    ret failedExpectations'
  else ret failedExpectations.

Definition runTest (opts : Cli.ParsedCliOptions) (t : Cli.Test)
    (failedExpectations : list string) : M (list string) :=
  ev <- evaluateTest opts t ;;
  checkExpectation opts ev failedExpectations.

Definition main (rawOpts : Cli.MainOptions) : M JS.Value :=
  let opts := Cli.minimist (Cli.args rawOpts) in
  if Cli.help opts then showHelp ;; ret JS.Undefined
  else if JS.truthy (Cli.test opts)
  then
    let testPath := resolve (Cli.cwd opts) (default "" (Cli.test opts)) in
    found <- existsSync testPath ;;
    if negb found
    then throw (ThrownString ("Could not find the test file: " +:+ testPath +:+ "."))
    else
      consoleLog ("Loading tests from " +:+ testPath +:+ JS.LF) ;;
      text <- readFileSync testPath ;;
      match Cli.JSON_parse text with
      | Throw e => throw e
      | Ok testJson =>
          failedExpectations <- forOf (runTest opts) (Cli.tests testJson) [] ;;
          consoleLog "" ;;
          if Nat.ltb 0 (List.length failedExpectations)
          then
            if Cli.update opts
            then consoleLog (updatedMessage failedExpectations) ;; ret JS.Undefined
            else throw (ThrownString (Cli.failedMessage failedExpectations))
          else consoleLog "All tests passed." ;; ret JS.Undefined
      end
  else
    match Cli.positional opts with
    | [] => throw (TypeError "Cannot read property 'endsWith' of undefined")
    | first :: _ =>
        let esModules :=
          if Cli.isNodeBinary first then skipn 2 (Cli.positional opts)
          else skipn 1 (Cli.positional opts) in
        if Nat.eqb (List.length esModules) 0
        then throw (ThrownString "You must provide at least one ES module.")
        else Checker.checkSideEffects (Cli.flagCheckerOptions opts esModules)
    end.

End Harness.

End CliNoMkdir.

(** ** More concrete inputs *)

Module MoreExamples.
Import Sys Examples.

(** A command line without [--test]: every argument is positional. *)
Definition flagOptions (arguments : list string) : Cli.ParsedCliOptions :=
  {| Cli.help := false;
     Cli.cwd := "/proj";
     Cli.output := None;
     Cli.test := None;
     Cli.update := false;
     Cli.pureGetters := false;
     Cli.resolveExternals := false;
     Cli.printDependencies := true;
     Cli.useBuildOptimizer := true;
     Cli.useMinifier := true;
     Cli.warnings := false;
     Cli.positional := arguments |}.

Definition flagParsers : Cli.Parsers :=
  {| Cli.minimist := flagOptions;
     Cli.JSON_parse := fun _ => Throw (ExternalError "Unexpected token") |}.

(** Parsers for a test file that does not parse. *)
Definition brokenJsonParsers : Cli.Parsers :=
  {| Cli.minimist := fun _ => cliOptions false;
     Cli.JSON_parse := fun _ => Throw (ExternalError "Unexpected end of JSON input") |}.

(** A bundler that builds its graph from two files and fails to
    generate. *)
Definition generateFailingBundler : Checker.Bundler :=
  {| Checker.Bundle := unit;
     Checker.rollup := fun _ => ret tt;
     Checker.watchFiles := fun _ => ["/proj/a.js"; "/proj/b.js"];
     Checker.bundleWrite := fun _ _ => ret tt;
     Checker.bundleGenerate := fun _ _ => throw (ExternalError "Unexpected token (1:0)") |}.

(** A bundler that reports the entry file and one module as dependencies
    and removes all code. *)
Definition shakingBundler : Checker.Bundler :=
  {| Checker.Bundle := string;
     Checker.rollup := fun io => ret (Checker.input io);
     Checker.watchFiles := fun entry => [entry; "/proj/a.js"];
     Checker.bundleWrite := fun _ _ => ret tt;
     Checker.bundleGenerate := fun _ _ => ret [Checker.OutputChunk ""] |}.

(** A world without the temporary directory. *)
Definition noTmpWorld : World :=
  {| fs := delete "/tmp" projectFs; console := [] |}.

(** A suite whose second test names a module that is not there. *)
Definition faultySuite : list Cli.Test :=
  [ caseOf "b.js" "expected/b.txt";
    caseOf "gone.js" "expected/gone.txt";
    caseOf "a.js" "expected/a.txt" ].

Definition inlineSuite : list CliInline.Test :=
  [ {| CliInline.esModules := ["a.js"];
       CliInline.options := None;
       CliInline.expected := "import '/proj/a.js';" |};
    {| CliInline.esModules := ["b.js"; "a.js"];
       CliInline.options := None;
       CliInline.expected := "" |} ].

Definition inlineParsers : CliInline.Parsers :=
  {| CliInline.minimist := fun _ => cliOptions false;
     CliInline.JSON_parse := fun _ => Ok (CliInline.mkTestJson inlineSuite) |}.

End MoreExamples.

(** * Properties of the lint rule *)

Module RuleFacts.
Import Rule.

(** Structural induction on syntax trees, with the hypothesis available
    for every child. *)
Lemma Node_ind (P : Node -> Prop) :
  (forall k s e cs, Forall P cs -> P (mkNode k s e cs)) ->
  forall n, P n.
Proof.
  intros step.
  fix IH 1.
  intros [k s e cs]. apply step.
  induction cs as [|c cs IHcs]; constructor; [apply IH | exact IHcs].
Qed.

Lemma opaque_test (n : Node) :
  (isFunctionDeclaration n || isFunctionExpression n ||
   isClassDeclaration n || isClassExpression n || isArrowFunction n ||
   isMethodDeclaration n || isInterfaceDeclaration n) = isOpaque (kind n).
Proof. destruct n as [k s e cs]; destruct k; reflexivity. Qed.

Lemma access_test (n : Node) :
  (isPropertyAccessExpression n || isElementAccessExpression n)
  = isAccess (kind n).
Proof. destruct n as [k s e cs]; destruct k; reflexivity. Qed.

Lemma cb_unfold (n : Node) (ctx : WalkContext) :
  cb n ctx =
  if isOpaque (kind n) then (false, ctx)
  else forEachChild cb (children n)
         (if isAccess (kind n) then addFailureAtNode ctx n FAILURE_STRING
          else ctx).
Proof.
  rewrite <- opaque_test, <- access_test.
  destruct n as [k s e cs]; reflexivity.
Qed.

Lemma addAll_nil ctx : addAll ctx [] = ctx.
Proof. destruct ctx; unfold addAll; simpl. by rewrite app_nil_r. Qed.

Lemma addAll_app ctx xs ys : addAll (addAll ctx xs) ys = addAll ctx (xs ++ ys).
Proof. unfold addAll; simpl. by rewrite map_app, app_assoc. Qed.

Lemma forEachChild_all (cs : list Node) :
  Forall (fun c => forall ctx, cb c ctx = (false, addAll ctx (toplevelAccesses c))) cs ->
  forall ctx,
    forEachChild cb cs ctx = (false, addAll ctx (flat_map toplevelAccesses cs)).
Proof.
  induction 1 as [|c cs Hc _ IH]; intros ctx; simpl.
  - by rewrite addAll_nil.
  - rewrite Hc, IH, addAll_app. reflexivity.
Qed.

(** The callback never answers with a truthy value, so no sibling is
    ever skipped, and it records one failure per access expression
    outside the opaque definitions of its subtree. *)
Lemma cb_spec (n : Node) :
  forall ctx, cb n ctx = (false, addAll ctx (toplevelAccesses n)).
Proof.
  induction n as [k s e cs IH] using Node_ind; intros ctx.
  rewrite cb_unfold. simpl.
  destruct (isOpaque k) eqn:Hop.
  - by rewrite addAll_nil.
  - rewrite (forEachChild_all cs IH).
    destruct (isAccess k); [|reflexivity].
    f_equal. unfold addAll, addFailureAtNode; simpl.
    by rewrite <- app_assoc.
Qed.

Lemma walk_spec (ctx : WalkContext) :
  walk ctx =
  (false, addAll ctx (flat_map toplevelAccesses (children (root (sourceFile ctx))))).
Proof.
  unfold walk. apply forEachChild_all, Forall_forall.
  intros c _. apply cb_spec.
Qed.

Lemma toplevelAccesses_failures_prune (n : Node) :
  map failureAt (toplevelAccesses (prune n)) = map failureAt (toplevelAccesses n).
Proof.
  induction n as [k s e cs IH] using Node_ind. simpl.
  destruct (isOpaque k) eqn:Hop; [reflexivity|].
  rewrite !map_app. f_equal.
  - destruct (isAccess k); reflexivity.
  - induction IH as [|c cs Hc _ IHcs]; simpl; [reflexivity|].
    by rewrite !map_app, Hc, IHcs.
Qed.

Lemma applyWithFunction_walk (sf : SourceFile) :
  applyWithFunction sf walk
  = map failureAt (flat_map toplevelAccesses (children (root sf))).
Proof. unfold applyWithFunction. rewrite walk_spec. reflexivity. Qed.

Lemma ReachedFrom_step c d n :
  isOpaque (kind c) = false -> In d (children c) ->
  ReachedFrom d n -> ReachedFrom c n.
Proof.
  intros Hop Hin Hr. induction Hr as [|p n Hp IH Hp' Hn].
  - eapply ReachedFrom_child; [constructor|done|done].
  - eapply ReachedFrom_child; eauto.
Qed.

Lemma ReachedFrom_inv c n :
  ReachedFrom c n ->
  n = c \/ (isOpaque (kind c) = false /\
            exists d, In d (children c) /\ ReachedFrom d n).
Proof.
  induction 1 as [|p n Hp IH Hop Hin]; [by left|right].
  destruct IH as [->|(Hc & d & Hd & Hdp)].
  - split; [done|]. exists n. split; [done|constructor].
  - split; [done|]. exists d. split; [done|].
    eapply ReachedFrom_child; eauto.
Qed.

Lemma toplevelAccesses_reached (c n : Node) :
  In n (toplevelAccesses c) <->
  ReachedFrom c n /\ isOpaque (kind n) = false /\ isAccess (kind n) = true.
Proof.
  revert n. induction c as [k s e cs IH] using Node_ind. intros n.
  simpl. split.
  - destruct (isOpaque k) eqn:Hop; [intros []|].
    rewrite in_app_iff, in_flat_map. intros [Hn|(d & Hd & Hn)].
    + destruct (isAccess k) eqn:Hacc; [|destruct Hn].
      destruct Hn as [<-|[]]. simpl. repeat split; [constructor|done|done].
    + rewrite Forall_forall in IH.
      apply (IH d (proj2 (list_elem_of_In _ _) Hd)) in Hn as (Hr & Hn1 & Hn2).
      repeat split; [|done|done].
      eapply ReachedFrom_step; [exact Hop|exact Hd|exact Hr].
  - intros (Hr & Hn1 & Hn2).
    apply ReachedFrom_inv in Hr as [->|(Hop & d & Hd & Hr)].
    + simpl in *. rewrite Hn1, Hn2. by left.
    + simpl in *. rewrite Hop. rewrite in_app_iff, in_flat_map.
      right. exists d. split; [done|].
      rewrite Forall_forall in IH.
      apply (IH d (proj2 (list_elem_of_In _ _) Hd)). done.
Qed.

Lemma Reached_ReachedFrom (sf : SourceFile) (n : Node) :
  Reached sf n <-> exists c, In c (children (root sf)) /\ ReachedFrom c n.
Proof.
  split.
  - induction 1 as [n Hn|p n Hp (c & Hc & Hr) Hop Hin].
    + exists n. split; [done|constructor].
    + exists c. split; [done|]. eapply ReachedFrom_child; eauto.
  - intros (c & Hc & Hr). induction Hr as [|p n Hp IH Hop Hin].
    + by constructor.
    + eapply Reached_child; eauto.
Qed.

Lemma access_not_opaque k : isAccess k = true -> isOpaque k = false.
Proof. destruct k; simpl; congruence. Qed.

(** *** The rule on small sources *)

Example single_access :
  apply [] example_single
  = [ mkRuleFailure 16 24 "Avoid toplevel property access." ].
Proof. reflexivity. Qed.

Example other_path_skipped :
  apply ["src/"; "lib/"] example_chain = [].
Proof. reflexivity. Qed.

Example listed_path_checked :
  List.length (apply ["src/"; "chain"] example_chain) = 2.
Proof. reflexivity. Qed.

(** C3. The walk stops at each of the seven kinds of opaque definition
    (the callback returns at once, leaving the failures as they were,
    whatever the subtree holds); erasing everything below the opaque
    definitions of a source file therefore leaves the failures of the
    rule unchanged; and [function f() { a.b; }] yields no failure. *)
Theorem walk_stops_at_definitions :
  Forall (fun k => forall s e cs ctx, cb (mkNode k s e cs) ctx = (false, ctx))
         opaqueKinds
  /\ (forall sf, applyWithFunction (pruneFile sf) walk = applyWithFunction sf walk)
  /\ apply [] example_function = [].
Proof.
  split; [|split].
  - repeat constructor.
  - intros sf. rewrite !applyWithFunction_walk. simpl.
    generalize (children (root sf)) as cs.
    induction cs as [|c cs IH]; simpl; [reflexivity|].
    rewrite !map_app, IH, toplevelAccesses_failures_prune. reflexivity.
  - reflexivity.
Qed.

(** C4. The failures of the rule are, in depth-first pre-order, one
    failure per property-access or element-access node that the walk
    reaches (a node below the root none of whose ancestors below the root
    is an opaque definition), each at the node's span and with the message
    "Avoid toplevel property access."; after recording the failure the
    callback goes on into the children of the access node; and [a.b.c;]
    yields two failures, the outer access first. *)
Theorem toplevel_access_failures :
  (forall sf,
      apply [] sf
      = map (fun n => mkRuleFailure (getStart n) (getEnd n)
                        "Avoid toplevel property access.")
            (flat_map toplevelAccesses (children (root sf))))
  /\ (forall sf n,
        In n (flat_map toplevelAccesses (children (root sf)))
        <-> Reached sf n /\ In (kind n) accessKinds)
  /\ Forall (fun k => forall s e cs ctx,
                cb (mkNode k s e cs) ctx
                = forEachChild cb cs
                    (addFailureAtNode ctx (mkNode k s e cs) FAILURE_STRING))
            accessKinds
  /\ FAILURE_STRING = "Avoid toplevel property access."
  /\ apply [] example_chain
     = [ mkRuleFailure 0 5 "Avoid toplevel property access.";
         mkRuleFailure 0 3 "Avoid toplevel property access." ].
Proof.
  split; [|split; [|split; [|split]]].
  - intros sf. unfold apply. simpl. apply applyWithFunction_walk.
  - intros sf n. rewrite in_flat_map, Reached_ReachedFrom. split.
    + intros (c & Hc & Hn). apply toplevelAccesses_reached in Hn as (Hr & _ & Hacc).
      split; [eauto|]. destruct (kind n); simpl in *; try discriminate; auto.
    + intros ((c & Hc & Hr) & Hk). exists c. split; [done|].
      apply toplevelAccesses_reached.
      assert (isAccess (kind n) = true) as Hacc.
      { destruct Hk as [<-|[<-|[]]]; reflexivity. }
      split; [done|]. split; [by apply access_not_opaque|done].
  - repeat constructor.
  - reflexivity.
  - reflexivity.
Qed.

End RuleFacts.

(** * Properties of the extraction pipeline *)

Module CheckerFacts.
Import Sys Checker.

Section Monad.
Context {A B : Type}.

Lemma bind_Ok (m : M A) (k : A -> M B) (w w' : World) (b : B) :
  bind m k w = (Ok b, w') ->
  exists a w1, m w = (Ok a, w1) /\ k a w1 = (Ok b, w').
Proof.
  unfold bind. destruct (m w) as [[a|e] w1]; [eauto|discriminate].
Qed.

Lemma bind_step (m : M A) (k : A -> M B) (w w1 : World) (a : A) :
  m w = (Ok a, w1) -> bind m k w = k a w1.
Proof. unfold bind. by intros ->. Qed.

Lemma bind_Throw (m : M A) (k : A -> M B) (w w1 : World) (e : Exception) :
  m w = (Throw e, w1) -> bind m k w = (Throw e, w1).
Proof. unfold bind. by intros ->. Qed.

End Monad.

Ltac bind_inv H a w Hstep :=
  apply bind_Ok in H as (a & w & Hstep & H).

(** *** Strings *)

Lemma startsWith_refl (s : string) : JS.startsWith s s = true.
Proof. induction s as [|c s IH]; simpl; [done|]. by rewrite Ascii.eqb_refl. Qed.

Lemma startsWith_app (s p t : string) :
  JS.startsWith s p = true -> JS.startsWith (s +:+ t) p = true.
Proof.
  revert s. induction p as [|a p IH]; intros [|b s]; simpl; try done.
  destruct (Ascii.eqb a b); simpl; [apply IH|done].
Qed.

Lemma includes_eq (s sub : string) :
  JS.includes s sub =
  JS.startsWith s sub ||
  match s with EmptyString => false | String _ s' => JS.includes s' sub end.
Proof. destruct s; reflexivity. Qed.

Lemma includes_here (s sub : string) :
  JS.startsWith s sub = true -> JS.includes s sub = true.
Proof. intros Hs. by rewrite includes_eq, Hs. Qed.

Lemma includes_app_r (a s sub : string) :
  JS.includes s sub = true -> JS.includes (a +:+ s) sub = true.
Proof.
  intros Hs. induction a as [|c a IH]; simpl; [done|].
  rewrite IH. apply orb_true_r.
Qed.

Lemma includes_app_l (s t sub : string) :
  JS.includes s sub = true -> JS.includes (s +:+ t) sub = true.
Proof.
  induction s as [|c s IH]; rewrite includes_eq.
  - rewrite orb_false_r. destruct sub; [|discriminate].
    intros _. apply includes_here. by destruct t.
  - rewrite orb_true_iff. intros [Hs|Hs].
    + apply includes_here. by apply startsWith_app.
    + change (String c s +:+ t) with (String c (s +:+ t)).
      rewrite includes_eq, IH; [|done]. apply orb_true_r.
Qed.

Lemma includes_refl (s : string) : JS.includes s s = true.
Proof. apply includes_here, startsWith_refl. Qed.

Lemma includes_join (sep x : string) (xs : list string) :
  In x xs -> JS.includes (JS.join sep xs) x = true.
Proof.
  induction xs as [|y ys IH]; [intros []|].
  intros [->|Hin].
  - destruct ys as [|z zs]; simpl; [apply includes_refl|].
    apply includes_app_l, includes_refl.
  - destruct ys as [|z zs]; [destruct Hin|].
    change (JS.join sep (y :: z :: zs)) with (y +:+ sep +:+ JS.join sep (z :: zs)).
    apply includes_app_r, includes_app_r, IH, Hin.
Qed.

Lemma replaceBackslashes_get (s : string) (i : nat) :
  String.get i (JS.replaceBackslashes s)
  = (fun c => if Ascii.eqb c JS.backslash then JS.slash else c) <$> String.get i s.
Proof.
  revert i. induction s as [|c s IH]; intros [|i]; simpl; try done.
Qed.

Lemma replaceBackslashes_clean (s : string) (i : nat) :
  String.get i (JS.replaceBackslashes s) <> Some JS.backslash.
Proof.
  rewrite replaceBackslashes_get.
  destruct (String.get i s) as [c|]; simpl; [|done].
  destruct (Ascii.eqb c JS.backslash) eqn:Hc; [done|].
  intros [= ->]. by rewrite Ascii.eqb_refl in Hc.
Qed.

Lemma replaceBackslashes_length (s : string) :
  String.length (JS.replaceBackslashes s) = String.length s.
Proof. induction s as [|c s IH]; simpl; [done|]. by rewrite IH. Qed.

Example join_commas : JS.join "," ["a"; "b"; "c"] = "a,b,c".
Proof. reflexivity. Qed.

Example join_empty : JS.join "," [] = "".
Proof. reflexivity. Qed.

Example windows_path :
  JS.replaceBackslashes "C:\proj\src\a.js" = "C:/proj/src/a.js".
Proof. reflexivity. Qed.

Example undefined_differs_from_text :
  JS.looseNeq JS.Undefined "undefined" = true
  /\ JS.looseNeq JS.Undefined "" = true
  /\ JS.looseNeq (JS.Str "") "" = false.
Proof. repeat split. Qed.

(** *** The phases of the pipeline *)

Section Phases.
Context `{Platform} `{Bundler}.

Lemma filterM_missing (resolved : list string) (w : World) :
  filterM (fun m => found <- existsSync m ;; ret (negb found)) resolved w
  = (Ok (missingIn w resolved), w).
Proof.
  induction resolved as [|m ms IH]; simpl; [done|].
  unfold bind at 1. unfold bind at 1. unfold existsSync at 1. simpl.
  unfold bind at 1. rewrite IH. simpl. unfold ret.
  by destruct (exists_ w m).
Qed.

Lemma verifyModulesExist_spec (resolved : list string) (w : World) :
  verifyModulesExist resolved w =
  match missingIn w resolved with
  | [] => (Ok tt, w)
  | missing => (Throw (ThrownString (missingModulesMessage missing)), w)
  end.
Proof.
  unfold verifyModulesExist.
  rewrite (bind_step _ _ _ _ _ (filterM_missing resolved w)).
  by destruct (missingIn w resolved).
Qed.

Lemma missingIn_nil (w : World) (resolved : list string) :
  missingIn w resolved = [] <-> (forall m, In m resolved -> exists_ w m = true).
Proof.
  unfold missingIn. induction resolved as [|m ms IH]; simpl.
  - split; [intros _ ? []|done].
  - destruct (exists_ w m) eqn:Hm; simpl.
    + rewrite IH. split; [intros Hms x [<-|Hx]; auto|auto].
    + split; [done|]. intros Hall. specialize (Hall m (or_introl eq_refl)). congruence.
Qed.

Lemma lookup_setFs (w : World) (m : gmap string Entry) (p : string) :
  lookupEntry (setFs w m) p = m !! p.
Proof. reflexivity. Qed.

Lemma mkdirSync_Ok (path : string) (w w' : World) (u : unit) :
  mkdirSync path w = (Ok u, w') ->
  lookupEntry w path = None /\ isDirectory w (dirname path) = true
  /\ w' = setFs w (<[path := Dir]> (fs w)).
Proof.
  unfold mkdirSync, exists_.
  destruct (lookupEntry w path) eqn:Hp; [discriminate|].
  destruct (isDirectory w (dirname path)); [|discriminate].
  by intros [= _ <-].
Qed.

Lemma mkdtempSync_Ok (prefix : string) (w w' : World) (path : string) :
  mkdtempSync prefix w = (Ok path, w') ->
  path = prefix +:+ mkdtempSuffix w prefix
  /\ lookupEntry w path = None
  /\ w' = setFs w (<[path := Dir]> (fs w)).
Proof.
  unfold mkdtempSync.
  destruct (mkdirSync _ w) as [[u|e] w1] eqn:Hmk; [|discriminate].
  intros [= <- <-]. apply mkdirSync_Ok in Hmk as (? & _ & ?). done.
Qed.

Lemma writeFileSync_Ok (path data : string) (w w' : World) (u : unit) :
  writeFileSync path data w = (Ok u, w') ->
  w' = setFs w (<[path := File data]> (fs w)).
Proof.
  unfold writeFileSync.
  destruct (lookupEntry w path) as [[c|]|]; try discriminate;
    destruct (isDirectory w (dirname path)); try discriminate;
    by intros [= _ <-].
Qed.

Lemma unlinkSync_Ok (path : string) (w w' : World) (u : unit) :
  unlinkSync path w = (Ok u, w') -> w' = setFs w (delete path (fs w)).
Proof.
  unfold unlinkSync.
  destruct (lookupEntry w path) as [[c|]|]; try discriminate.
  by intros [= _ <-].
Qed.

Lemma rmdirSync_Ok (path : string) (w w' : World) (u : unit) :
  rmdirSync path w = (Ok u, w') -> w' = setFs w (delete path (fs w)).
Proof.
  unfold rmdirSync.
  destruct (lookupEntry w path) as [[c|]|]; try discriminate.
  destruct (isEmptyDirectory w path); [|discriminate].
  by intros [= _ <-].
Qed.

Lemma consoleLog_fs (line : string) (w : World) :
  consoleLog line w = (Ok tt, {| fs := fs w; console := console w ++ [line] |}).
Proof. reflexivity. Qed.

Lemma writeFileSync_Ok_not_dir (path data : string) (w w' : World) (u : unit) :
  writeFileSync path data w = (Ok u, w') -> lookupEntry w path <> Some Dir.
Proof.
  unfold writeFileSync.
  destruct (lookupEntry w path) as [[c|]|]; try discriminate; done.
Qed.

Lemma writeTemporaryInput_distinct (resolved : list string) (w w1 : World)
    (tmpDir tmpInput : string) :
  writeTemporaryInput resolved w = (Ok (tmpDir, tmpInput), w1) ->
  tmpInput <> tmpDir.
Proof.
  unfold writeTemporaryInput. intros Hrun.
  bind_inv Hrun dir w2 Hdir. apply mkdtempSync_Ok in Hdir as (_ & _ & ->).
  bind_inv Hrun u w3 Hwrite. apply writeFileSync_Ok_not_dir in Hwrite.
  injection Hrun as <- <- _. intros Heq. apply Hwrite.
  by rewrite Heq, lookup_setFs, lookup_insert_eq.
Qed.

Lemma writeTemporaryInput_Ok (resolved : list string) (w w1 : World)
    (tmpDir tmpInput : string) :
  writeTemporaryInput resolved w = (Ok (tmpDir, tmpInput), w1) ->
  tmpDir = scratchDir w /\ tmpInput = scratchFile w
  /\ lookupEntry w tmpDir = None
  /\ fs w1 = <[tmpInput := File (JS.join JS.LF (map importStatement resolved))]>
               (<[tmpDir := Dir]> (fs w)).
Proof.
  unfold writeTemporaryInput. intros Hrun.
  bind_inv Hrun dir w2 Hdir. apply mkdtempSync_Ok in Hdir as (Ha & Hfresh & ->).
  bind_inv Hrun u w3 Hwrite. apply writeFileSync_Ok in Hwrite as ->.
  injection Hrun as <- <- <-. subst dir.
  repeat split; done.
Qed.

(** What the last phase leaves when it returns: the entry file and its
    directory are gone, and the value is decided by the output mode. *)
Lemma bundleAndCleanup_Ok (o : CheckSideEffectsOptions)
    (tmpDir tmpInput : string) (w w' : World) (r : JS.Value) :
  bundleAndCleanup o tmpDir tmpInput w = (Ok r, w') ->
  lookupEntry w' tmpDir = None /\ lookupEntry w' tmpInput = None
  /\ (if JS.truthy (outputFilePath o) then r = JS.Undefined
      else exists bundle wa outputs wb,
          bundleGenerate bundle (outputOptions o) wa = (Ok outputs, wb)
          /\ r = JS.Str (chunkCode outputs)).
Proof.
  unfold bundleAndCleanup. intros Hrun.
  bind_inv Hrun bundle w1 Hbundle.
  bind_inv Hrun u1 w2 Hdeps.
  bind_inv Hrun outputs wo Hout.
  bind_inv Hrun u2 w3 Hunlink. apply unlinkSync_Ok in Hunlink as ->.
  bind_inv Hrun u3 w4 Hrmdir. apply rmdirSync_Ok in Hrmdir as ->.
  bind_inv Hrun u4 w5 Hlog.
  assert (Hfs : fs w' = delete tmpDir (delete tmpInput (fs wo))).
  { destruct outputs as [generated|]; simpl in *.
    - injection Hlog as _ <-. by injection Hrun as _ <-.
    - injection Hlog as _ <-. by injection Hrun as _ <-. }
  unfold lookupEntry. rewrite Hfs. split; [apply lookup_delete_eq|]. split.
  - destruct (decide (tmpDir = tmpInput)) as [->|Hne]; [apply lookup_delete_eq|].
    rewrite lookup_delete_ne by done. apply lookup_delete_eq.
  - destruct (JS.truthy (outputFilePath o)).
    + bind_inv Hout u5 w6 Hwrite. injection Hout as <- _.
      by injection Hrun as <- _.
    + bind_inv Hout generated w6 Hgen. injection Hout as <- <-.
      injection Hrun as <- _. eauto 10.
Qed.

Lemma checkSideEffects_verified (o : CheckSideEffectsOptions) (w : World) :
  missingIn w (resolvedEsModules o) = [] ->
  checkSideEffects o w =
  bind (writeTemporaryInput (resolvedEsModules o))
       (fun tmp => bundleAndCleanup o (fst tmp) (snd tmp)) w.
Proof.
  intros Hnone. unfold checkSideEffects. unfold bind at 1.
  by rewrite verifyModulesExist_spec, Hnone.
Qed.

Lemma checkSideEffects_missing (o : CheckSideEffectsOptions) (w : World) :
  missingIn w (resolvedEsModules o) <> [] ->
  checkSideEffects o w =
  (Throw (ThrownString (missingModulesMessage (missingIn w (resolvedEsModules o)))), w).
Proof.
  intros Hsome. unfold checkSideEffects. unfold bind at 1.
  rewrite verifyModulesExist_spec.
  by destruct (missingIn w (resolvedEsModules o)).
Qed.

(** The value of a run that returns, by output mode. *)
Lemma checkSideEffects_value (o : CheckSideEffectsOptions) (w w' : World)
    (r : JS.Value) :
  checkSideEffects o w = (Ok r, w') ->
  if JS.truthy (outputFilePath o) then r = JS.Undefined
  else exists bundle wa outputs wb,
      bundleGenerate bundle (outputOptions o) wa = (Ok outputs, wb)
      /\ r = JS.Str (chunkCode outputs).
Proof.
  intros Hrun.
  destruct (missingIn w (resolvedEsModules o)) eqn:Hmiss.
  - rewrite checkSideEffects_verified in Hrun by done.
    bind_inv Hrun tmp w1 Htmp.
    apply bundleAndCleanup_Ok in Hrun as (_ & _ & Hr). exact Hr.
  - rewrite checkSideEffects_missing in Hrun; [discriminate|].
    by rewrite Hmiss.
Qed.

Lemma forEach_consoleLog_fs (lines : list string) :
  forall (w w' : World) (u : unit),
    forEach consoleLog lines w = (Ok u, w') -> fs w' = fs w.
Proof.
  induction lines as [|l ls IH]; intros w w' u Hrun.
  - by injection Hrun as _ <-.
  - simpl in Hrun. bind_inv Hrun u1 w1 Hlog. injection Hlog as _ <-.
    by apply IH in Hrun.
Qed.

(** With a bundler that only reads, an in-memory run that returns has
    changed nothing outside its two scratch paths. *)
Lemma checkSideEffects_in_memory_frame (o : CheckSideEffectsOptions)
    (w w' : World) (r : JS.Value) (p : string) :
  JS.truthy (outputFilePath o) = false ->
  (forall io wa b wb, rollup io wa = (Ok b, wb) -> fs wb = fs wa) ->
  (forall b oo wa outs wb, bundleGenerate b oo wa = (Ok outs, wb) -> fs wb = fs wa) ->
  checkSideEffects o w = (Ok r, w') ->
  p <> scratchDir w -> p <> scratchFile w ->
  lookupEntry w' p = lookupEntry w p.
Proof.
  intros Hmode Hreads Hgen Hrun Hdir Hfile.
  destruct (missingIn w (resolvedEsModules o)) eqn:Hmiss.
  2:{ rewrite checkSideEffects_missing in Hrun; [discriminate|].
      by rewrite Hmiss. }
  rewrite checkSideEffects_verified in Hrun by done.
  bind_inv Hrun tmp w1 Htmp. destruct tmp as [tmpDir tmpInput].
  apply writeTemporaryInput_Ok in Htmp as (-> & -> & _ & Hfs1).
  simpl in Hrun. unfold bundleAndCleanup in Hrun. rewrite Hmode in Hrun.
  bind_inv Hrun bundle w2 Hbundle. apply Hreads in Hbundle.
  bind_inv Hrun u1 w3 Hdeps.
  assert (Hfs3 : fs w3 = fs w2).
  { destruct (default false (printDependencies o)).
    - by apply forEach_consoleLog_fs in Hdeps.
    - by injection Hdeps as _ <-. }
  bind_inv Hrun outputs w4 Hout.
  bind_inv Hout generated w5 Hg. apply Hgen in Hg. injection Hout as <- <-.
  bind_inv Hrun u2 w6 Hunlink. apply unlinkSync_Ok in Hunlink as ->.
  bind_inv Hrun u3 w7 Hrmdir. apply rmdirSync_Ok in Hrmdir as ->.
  bind_inv Hrun u4 w8 Hlog. injection Hlog as _ <-. injection Hrun as _ <-.
  unfold lookupEntry. simpl.
  rewrite lookup_delete_ne, lookup_delete_ne by done.
  rewrite Hg, Hfs3, Hbundle, Hfs1.
  by rewrite lookup_insert_ne, lookup_insert_ne by done.
Qed.

(** A fault of the graph build reaches the caller as it is, and so does
    the world the bundler left: no step of the pipeline runs after it. *)
Lemma bundler_fault_propagates (o : CheckSideEffectsOptions) (w w1 w2 : World)
    (tmpDir tmpInput : string) (e : Exception) :
  (forall p, In p (resolvedEsModules o) -> exists_ w p = true) ->
  writeTemporaryInput (resolvedEsModules o) w = (Ok (tmpDir, tmpInput), w1) ->
  rollup (inputOptions o tmpInput) w1 = (Throw e, w2) ->
  checkSideEffects o w = (Throw e, w2)
  /\ lookupEntry w1 tmpDir = Some Dir
  /\ exists text, lookupEntry w1 tmpInput = Some (File text).
Proof.
  intros Hall Hwrite Hfault. split; [|split].
  - rewrite checkSideEffects_verified by (by apply missingIn_nil).
    rewrite (bind_step _ _ _ _ _ Hwrite). simpl.
    unfold bundleAndCleanup. by apply bind_Throw.
  - pose proof (writeTemporaryInput_distinct _ _ _ _ _ Hwrite) as Hne.
    apply writeTemporaryInput_Ok in Hwrite as (_ & _ & _ & Hfs).
    unfold lookupEntry. rewrite Hfs.
    by rewrite lookup_insert_ne, lookup_insert_eq.
  - apply writeTemporaryInput_Ok in Hwrite as (_ & _ & _ & Hfs).
    unfold lookupEntry. rewrite Hfs, lookup_insert_eq. eauto.
Qed.

End Phases.

Section Claims.
Context `{Platform} `{Bundler}.

(** C1, as amended.  When [checkSideEffects] returns, in either output
    mode, the scratch directory it created (absent before the call) and the
    entry file in it no longer exist; when it throws because a module is
    missing, the world is as it was, so nothing was created.  Nothing is
    promised when the bundler, or a step after it, throws. *)
Theorem scratch_released_on_return (o : CheckSideEffectsOptions) (w : World) :
  match checkSideEffects o w with
  | (Ok r, w') =>
      lookupEntry w (scratchDir w) = None
      /\ lookupEntry w' (scratchDir w) = None
      /\ lookupEntry w' (scratchFile w) = None
  | (Throw e, w') =>
      missingIn w (resolvedEsModules o) <> [] -> w' = w
  end.
Proof.
  destruct (checkSideEffects o w) as [[r|e] w'] eqn:Hrun.
  - destruct (missingIn w (resolvedEsModules o)) eqn:Hmiss.
    + rewrite checkSideEffects_verified in Hrun by done.
      bind_inv Hrun tmp w1 Htmp. destruct tmp as [tmpDir tmpInput].
      apply writeTemporaryInput_Ok in Htmp as (-> & -> & Hfresh & _).
      apply bundleAndCleanup_Ok in Hrun as (Hdir & Hfile & _). done.
    + rewrite checkSideEffects_missing in Hrun; [discriminate|].
      by rewrite Hmiss.
  - intros Hmiss. rewrite checkSideEffects_missing in Hrun by done.
    by injection Hrun as _ <-.
Qed.

(** C2. If some module reference resolves to a path that does not exist,
    [checkSideEffects] throws one string, leaves the world exactly as it
    found it (so no temporary directory or file was created), and the
    message carries, joined by commas, every resolved path that does not
    exist: each of them occurs in the message. *)
Theorem missing_modules_reported_together
    (o : CheckSideEffectsOptions) (w : World) (m : string) :
  In m (esModules o) ->
  exists_ w (JS.replaceBackslashes (resolve (workingDirectory o) m)) = false ->
  let missing := missingIn w (resolvedEsModules o) in
  let message :=
    "Could not find the following modules: " +:+ JS.join "," missing +:+ "."
    +:+ JS.LF
    +:+ "Please provide relative/absolute paths to the ES modules you want to check." in
  checkSideEffects o w = (Throw (ThrownString message), w)
  /\ (forall p, In p missing <-> In p (resolvedEsModules o) /\ exists_ w p = false)
  /\ (forall p, In p (resolvedEsModules o) -> exists_ w p = false ->
                JS.includes message p = true).
Proof.
  intros Hm Hgone missing message.
  assert (Hchar : forall p, In p missing <->
                            In p (resolvedEsModules o) /\ exists_ w p = false).
  { intros p. unfold missing, missingIn. rewrite filter_In, negb_true_iff. done. }
  assert (Hin : In (JS.replaceBackslashes (resolve (workingDirectory o) m)) missing).
  { apply Hchar. split; [|done]. unfold resolvedEsModules.
    apply in_map_iff. eauto. }
  split; [|split; [exact Hchar|]].
  - rewrite checkSideEffects_missing; [reflexivity|].
    fold missing. by destruct missing.
  - intros p Hp Hgone'. unfold message.
    apply includes_app_r, includes_app_l, includes_join, Hchar. done.
Qed.

(** C8. When the temporary input is written, the file at the path handed
    to the bundler holds exactly one [import '<path>';] statement per module
    reference, in the order given, joined by line feeds, where [<path>] is
    the resolved reference with every backslash turned into a forward
    slash; the conversion changes no other character and leaves no
    backslash. *)
Theorem synthetic_entry_content
    (o : CheckSideEffectsOptions) (w w1 : World) (tmpDir tmpInput : string) :
  (forall p, In p (resolvedEsModules o) -> exists_ w p = true) ->
  writeTemporaryInput (resolvedEsModules o) w = (Ok (tmpDir, tmpInput), w1) ->
  lookupEntry w1 tmpInput
  = Some (File (JS.join JS.LF
            (map (fun m => "import '"
                           +:+ JS.replaceBackslashes (resolve (workingDirectory o) m)
                           +:+ "';")
                 (esModules o))))
  /\ checkSideEffects o w = bundleAndCleanup o tmpDir tmpInput w1
  /\ input (inputOptions o tmpInput) = tmpInput
  /\ (forall s i, String.get i (JS.replaceBackslashes s)
                  = (fun c => if Ascii.eqb c JS.backslash then JS.slash else c)
                      <$> String.get i s)
  /\ (forall s i, String.get i (JS.replaceBackslashes s) <> Some JS.backslash).
Proof.
  intros Hall Hwrite.
  split; [|split; [|split; [|split]]].
  - apply writeTemporaryInput_Ok in Hwrite as (_ & _ & _ & Hfs).
    unfold lookupEntry. rewrite Hfs, lookup_insert_eq.
    unfold resolvedEsModules. rewrite map_map. reflexivity.
  - rewrite checkSideEffects_verified by (by apply missingIn_nil).
    by rewrite (bind_step _ _ _ _ _ Hwrite).
  - reflexivity.
  - apply replaceBackslashes_get.
  - apply replaceBackslashes_clean.
Qed.


End Claims.

(** C1 as stated fails: with a bundler whose graph build raises, the
    invocation ends with the scratch directory and its entry file, both
    created by that invocation, still in place. *)
Lemma scratch_survives_bundler_failure :
  ~ @ReleasedOnEveryExit Examples.posix Examples.failingBundler
      (Examples.checkOptions ["a.js"] None) Examples.projectWorld.
Proof.
  intros Hreleased.
  specialize (Hreleased "/tmp/check-side-effects-Ab3dE9" (or_introl eq_refl) eq_refl).
  vm_compute in Hreleased. discriminate.
Qed.

(** A failing and a returning run of the pipeline, evaluated. *)
Example bundler_failure_run :
  let '(res, w') := @checkSideEffects Examples.posix Examples.failingBundler
                      (Examples.checkOptions ["a.js"] None) Examples.projectWorld in
  res = Throw (ExternalError "Could not resolve entry module")
  /\ lookupEntry w' "/tmp/check-side-effects-Ab3dE9" = Some Dir
  /\ lookupEntry w' "/tmp/check-side-effects-Ab3dE9/index.js"
     = Some (File "import '/proj/a.js';").
Proof. vm_compute. done. Qed.

Example in_memory_run :
  @checkSideEffects Examples.posix Examples.echoBundler
    (Examples.checkOptions ["a.js"; "./b.js"] None) Examples.projectWorld
  = (Ok (JS.Str ("import '/proj/a.js';" +:+ JS.LF +:+ "import '/proj/b.js';")),
     Examples.projectWorld).
Proof.
  vm_compute. reflexivity.
Qed.

End CheckerFacts.

(** * The same properties of the earlier revision of the pipeline *)

Module CheckerEarlierFacts.
Import Sys CheckerFacts.
Import CheckerEarlier.

Section Earlier.
Context `{Platform} `{Bundler}.

Lemma earlier_checkSideEffects_eq (o : CheckSideEffectsOptions) (w : World) :
  checkSideEffects o w =
  match Checker.missingIn w (resolvedEsModules o) with
  | [] =>
      bind (writeFileSync (tmpInputFilename o)
              (JS.join JS.LF (map Checker.importStatement (resolvedEsModules o))))
           (fun _ => bundleAndReturn o) w
  | missing => (Throw (ThrownString (Checker.missingModulesMessage missing)), w)
  end.
Proof.
  unfold checkSideEffects. unfold bind at 1.
  rewrite filterM_missing.
  by destruct (Checker.missingIn w (resolvedEsModules o)).
Qed.

(** X7. A missing module makes the earlier revision fail in the same way:
    one message with every missing path, and an untouched world. *)
Lemma earlier_missing_modules (o : CheckSideEffectsOptions) (w : World) (m : string) :
  In m (esModules o) ->
  exists_ w (JS.replaceBackslashes (resolve (cwd o) m)) = false ->
  let missing := Checker.missingIn w (resolvedEsModules o) in
  checkSideEffects o w
  = (Throw (ThrownString (Checker.missingModulesMessage missing)), w)
  /\ (forall p, In p (resolvedEsModules o) -> exists_ w p = false ->
                JS.includes (Checker.missingModulesMessage missing) p = true).
Proof.
  intros Hm Hgone missing.
  assert (Hchar : forall p, In p missing <->
                            In p (resolvedEsModules o) /\ exists_ w p = false).
  { intros p. unfold missing, Checker.missingIn.
    rewrite filter_In, negb_true_iff. done. }
  assert (Hin : In (JS.replaceBackslashes (resolve (cwd o) m)) missing).
  { apply Hchar. split; [|done]. apply in_map_iff. eauto. }
  split.
  - rewrite earlier_checkSideEffects_eq. fold missing. by destruct missing.
  - intros p Hp Hgone'. unfold Checker.missingModulesMessage.
    apply includes_app_r, includes_app_l, includes_join, Hchar. done.
Qed.

(** The temporary input of the earlier revision has the same content. *)
Lemma earlier_entry_content (o : CheckSideEffectsOptions) (w w1 : World) :
  (forall p, In p (resolvedEsModules o) -> exists_ w p = true) ->
  writeFileSync (tmpInputFilename o)
    (JS.join JS.LF (map Checker.importStatement (resolvedEsModules o))) w
  = (Ok tt, w1) ->
  lookupEntry w1 (tmpInputFilename o)
  = Some (File (JS.join JS.LF
            (map (fun m => "import '"
                           +:+ JS.replaceBackslashes (resolve (cwd o) m) +:+ "';")
                 (esModules o))))
  /\ checkSideEffects o w = bundleAndReturn o w1.
Proof.
  intros Hall Hwrite. split.
  - apply writeFileSync_Ok in Hwrite as ->.
    rewrite lookup_setFs, lookup_insert_eq.
    unfold resolvedEsModules. by rewrite map_map.
  - rewrite earlier_checkSideEffects_eq.
    apply missingIn_nil in Hall. rewrite Hall.
    unfold bind. by rewrite Hwrite.
Qed.


End Earlier.

(** An in-memory run of the earlier revision returns and leaves its
    temporary input in the working directory. *)
Example earlier_in_memory_keeps_input :
  let '(res, w') := @checkSideEffects Examples.posix Examples.earlierEchoBundler
                      (Examples.earlierOptions ["a.js"] None) Examples.projectWorld in
  res = Ok (JS.Str "import '/proj/a.js';")
  /\ lookupEntry Examples.projectWorld "/proj/check-side-effects.tmp-input.js" = None
  /\ lookupEntry w' "/proj/check-side-effects.tmp-input.js"
     = Some (File "import '/proj/a.js';").
Proof. vm_compute. done. Qed.

End CheckerEarlierFacts.

(** * Properties of the regression harness *)

Module CliFacts.
Import Sys Checker Cli CheckerFacts.

Section Steps.
Context `{Platform} `{Bundler} `{Parsers}.

(** One iteration up to the loaded expectation, as a function of what the
    pipeline returns and of what lies at the baseline path afterwards. *)
Lemma evaluateTest_eq (opts : ParsedCliOptions) (dir : string) (t : Test) (w : World) :
  evaluateTest opts dir t w =
  match checkSideEffects (pipelineOptions opts dir t)
          (logged w ("Testing " +:+ esModulesDescription t)) with
  | (Ok r, w1) =>
      match lookupEntry w1 (baselinePath opts t) with
      | Some (File c) =>
          (Ok (mkEvaluation (esModulesDescription t) r (baselinePath opts t) c), w1)
      | None =>
          (Ok (mkEvaluation (esModulesDescription t) r (baselinePath opts t) ""), w1)
      | Some Dir => (Throw (SystemError "EISDIR" (baselinePath opts t)), w1)
      end
  | (Throw e, w1) => (Throw e, w1)
  end.
Proof.
  unfold evaluateTest, pipelineOptions, baselinePath.
  unfold bind at 1. simpl. fold (logged w ("Testing " +:+ esModulesDescription t)).
  unfold bind at 1.
  destruct (checkSideEffects _ _) as [[r|e] w1]; [|reflexivity].
  unfold bind at 1. unfold existsSync at 1, exists_.
  unfold bind, readFileSync, ret.
  destruct (lookupEntry w1 (resolve (cwd opts) (expectedOutput t))) as [[c|]|] eqn:Hbase;
    simpl; rewrite ?Hbase; reflexivity.
Qed.

Lemma evaluateTest_Ok (opts : ParsedCliOptions) (dir : string) (t : Test)
    (w w1 : World) (ev : Evaluation) :
  evaluateTest opts dir t w = (Ok ev, w1) ->
  checkSideEffects (pipelineOptions opts dir t)
    (logged w ("Testing " +:+ esModulesDescription t)) = (Ok (result ev), w1)
  /\ description ev = esModulesDescription t
  /\ expectedOutputPath ev = baselinePath opts t
  /\ match lookupEntry w1 (baselinePath opts t) with
     | Some (File c) => expected ev = c
     | None => expected ev = ""
     | Some Dir => False
     end.
Proof.
  rewrite evaluateTest_eq.
  destruct (checkSideEffects _ _) as [[r|e] wa]; [|discriminate].
  destruct (lookupEntry wa _) as [[c|]|] eqn:Hbase; [| discriminate |];
    intros [= <- <-]; simpl; rewrite Hbase; done.
Qed.

Lemma checkExpectation_same (opts : ParsedCliOptions) (ev : Evaluation)
    (failed : list string) (w : World) :
  differs ev = false -> checkExpectation opts ev failed w = (Ok failed, w).
Proof. unfold checkExpectation, differs. by intros ->. Qed.

Lemma checkExpectation_record (opts : ParsedCliOptions) (ev : Evaluation)
    (failed : list string) (w : World) :
  differs ev = true -> update opts = false ->
  checkExpectation opts ev failed w = (Ok (failed ++ [description ev]), w).
Proof. unfold checkExpectation, differs. by intros -> ->. Qed.

Lemma checkExpectation_update (opts : ParsedCliOptions) (ev : Evaluation)
    (failed : list string) (w : World) :
  differs ev = true -> update opts = true ->
  checkExpectation opts ev failed w =
  match _recursiveMkDir stackLimit (dirname (expectedOutputPath ev)) w with
  | (Ok _, w1) =>
      match writeFileSync (expectedOutputPath ev) (JS.toString (result ev)) w1 with
      | (Ok _, w2) => (Ok (failed ++ [description ev]), w2)
      | (Throw e, w2) => (Throw e, w2)
      end
  | (Throw e, w1) => (Throw e, w1)
  end.
Proof.
  unfold checkExpectation, differs. intros -> ->. unfold bind.
  destruct (_recursiveMkDir _ _ w) as [[u|e] w1]; [|reflexivity].
  destruct (writeFileSync _ _ w1) as [[u'|e] w2]; reflexivity.
Qed.

(** Whatever the mode, a check that returns has appended the description
    of the case exactly when the case differs. *)
Lemma checkExpectation_Ok (opts : ParsedCliOptions) (ev : Evaluation)
    (failed failed' : list string) (w w' : World) :
  checkExpectation opts ev failed w = (Ok failed', w') ->
  failed' = failed ++ (if differs ev then [description ev] else []).
Proof.
  destruct (differs ev) eqn:Hd.
  - destruct (update opts) eqn:Hu.
    + rewrite checkExpectation_update by done.
      destruct (_recursiveMkDir _ _ w) as [[u|e] w1]; [|discriminate].
      destruct (writeFileSync _ _ w1) as [[u'|e] w2]; [|discriminate].
      by intros [= <- _].
    + rewrite checkExpectation_record by done. by intros [= <- _].
  - rewrite checkExpectation_same by done. intros [= <- _].
    by rewrite app_nil_r.
Qed.

Lemma runTests_nil (opts : ParsedCliOptions) (dir : string)
    (failed : list string) (w : World) :
  runTests opts dir [] failed w = (Ok failed, w).
Proof. reflexivity. Qed.

Lemma runTests_cons_Ok (opts : ParsedCliOptions) (dir : string) (t : Test)
    (ts : list Test) (failed failed' : list string) (w w' : World) :
  runTests opts dir (t :: ts) failed w = (Ok failed', w') ->
  exists ev w1 failed1 w2,
    evaluateTest opts dir t w = (Ok ev, w1)
    /\ checkExpectation opts ev failed w1 = (Ok failed1, w2)
    /\ runTests opts dir ts failed1 w2 = (Ok failed', w')
    /\ evaluations opts dir (t :: ts) failed w
       = ev :: evaluations opts dir ts failed1 w2.
Proof.
  unfold runTests. simpl. intros Hrun.
  bind_inv Hrun failed1 w2 Hstep. unfold runTest in Hstep.
  bind_inv Hstep ev w1 Hev.
  exists ev, w1, failed1, w2. rewrite Hev, Hstep. done.
Qed.

(** A loop that returns evaluated every test, in order, and collected the
    descriptions of exactly those that differ. *)
Lemma runTests_Ok (opts : ParsedCliOptions) (dir : string) (ts : list Test) :
  forall (failed failed' : list string) (w w' : World),
    runTests opts dir ts failed w = (Ok failed', w') ->
    failed' = failed ++ mismatches (evaluations opts dir ts failed w)
    /\ map description (evaluations opts dir ts failed w)
       = map esModulesDescription ts.
Proof.
  induction ts as [|t ts IH]; intros failed failed' w w' Hrun.
  - injection Hrun as <- _. simpl. by rewrite app_nil_r.
  - apply runTests_cons_Ok in Hrun as (ev & w1 & failed1 & w2 & Hev & Hck & Hrest & ->).
    apply IH in Hrest as (-> & Hdesc).
    apply checkExpectation_Ok in Hck as ->.
    apply evaluateTest_Ok in Hev as (_ & Hd & _).
    split.
    + unfold mismatches. simpl. destruct (differs ev); simpl.
      * by rewrite <- app_assoc.
      * by rewrite app_nil_r.
    + cbn [map]. f_equal; assumption.
Qed.

Lemma reportTests_eq (opts : ParsedCliOptions) (failed : list string) (w : World) :
  reportTests opts failed w =
  match failed with
  | [] => (Ok JS.Undefined, logged (logged w "") "All tests passed.")
  | _ :: _ =>
      if update opts
      then (Ok JS.Undefined, logged (logged w "") (updatedMessage failed))
      else (Throw (ThrownString (failedMessage failed)), logged w "")
  end.
Proof.
  unfold reportTests. unfold bind at 1. simpl. fold (logged w "").
  destruct failed as [|d ds]; simpl; [reflexivity|].
  destruct (update opts); reflexivity.
Qed.

Lemma loadTests_Ok (opts : ParsedCliOptions) (w wl : World) (dir : string)
    (suite : TestJson) :
  loadTests opts w = (Ok (dir, suite), wl) -> fs wl = fs w.
Proof.
  unfold loadTests. intros Hrun.
  bind_inv Hrun found w1 Hfound. injection Hfound as <- <-.
  destruct (exists_ w _); simpl in Hrun; [|discriminate].
  bind_inv Hrun u w2 Hlog. injection Hlog as _ <-.
  bind_inv Hrun text w3 Hread. unfold readFileSync in Hread.
  destruct (lookupEntry _ _) as [[c|]|]; try discriminate.
  injection Hread as _ <-.
  destruct (JSON_parse text); [|discriminate]. by injection Hrun as _ _ <-.
Qed.

Lemma main_test_branch (raw : MainOptions) (w wl : World) (dir : string)
    (suite : TestJson) :
  help (minimist (args raw)) = false ->
  JS.truthy (test (minimist (args raw))) = true ->
  loadTests (minimist (args raw)) w = (Ok (dir, suite), wl) ->
  main raw w =
  match runTests (minimist (args raw)) dir (tests suite) [] wl with
  | (Ok failed, w') => reportTests (minimist (args raw)) failed w'
  | (Throw e, w') => (Throw e, w')
  end.
Proof.
  intros Hhelp Htest Hload. unfold main. rewrite Hhelp, Htest.
  unfold bind at 1. rewrite Hload. reflexivity.
Qed.

Example node_binary :
  isNodeBinary "/usr/local/bin/node" = true
  /\ isNodeBinary "C:/node/node.exe" = true
  /\ isNodeBinary "check-side-effects" = false.
Proof. repeat split. Qed.

Lemma runTest_eq (opts : ParsedCliOptions) (dir : string) (t : Test)
    (failed : list string) (w w1 : World) (ev : Evaluation) :
  evaluateTest opts dir t w = (Ok ev, w1) ->
  runTest opts dir t failed w = checkExpectation opts ev failed w1.
Proof. intros Hev. unfold runTest. by rewrite (bind_step _ _ _ _ _ Hev). Qed.

Lemma filter_nil_existsb {A : Type} (f : A -> bool) (l : list A) :
  existsb f l = false <-> List.filter f l = [].
Proof.
  induction l as [|x l IH]; simpl; [done|].
  destruct (f x); simpl; [split; discriminate|exact IH].
Qed.

(** *** Creating the directories of a baseline *)

Lemma OnlyNewDirs_refl (w : World) : OnlyNewDirs w w.
Proof. split; [done|]. intros q. by left. Qed.

Lemma OnlyNewDirs_trans (w1 w2 w3 : World) :
  OnlyNewDirs w1 w2 -> OnlyNewDirs w2 w3 -> OnlyNewDirs w1 w3.
Proof.
  intros [Hc1 H12] [Hc2 H23]. split; [congruence|]. intros q.
  destruct (H12 q) as [E12|[N1 D2]], (H23 q) as [E23|[N2 D3]].
  - left. congruence.
  - right. split; congruence.
  - right. split; congruence.
  - congruence.
Qed.

Lemma mkdirSync_OnlyNewDirs (path : string) (w w' : World) (u : unit) :
  mkdirSync path w = (Ok u, w') ->
  OnlyNewDirs w w' /\ lookupEntry w' path = Some Dir.
Proof.
  intros Hmk. apply mkdirSync_Ok in Hmk as (Hnone & _ & ->).
  split; [split; [done|]|].
  - intros q. rewrite lookup_setFs.
    destruct (decide (path = q)) as [<-|Hne].
    + right. by rewrite lookup_insert_eq.
    + left. by rewrite lookup_insert_ne.
  - by rewrite lookup_setFs, lookup_insert_eq.
Qed.

Lemma recursiveMkDir_Ok (n : nat) :
  forall (path : string) (w w' : World) (u : unit),
    _recursiveMkDir n path w = (Ok u, w') -> OnlyNewDirs w w'.
Proof.
  induction n as [|n IH]; intros path w w' u Hrun; [discriminate|].
  simpl in Hrun. bind_inv Hrun found w0 Hfound. injection Hfound as <- <-.
  destruct (exists_ w path); simpl in Hrun.
  - injection Hrun as _ <-. apply OnlyNewDirs_refl.
  - bind_inv Hrun u1 w1 Hrec. apply IH in Hrec.
    apply mkdirSync_OnlyNewDirs in Hrun as [Hmk _].
    eapply OnlyNewDirs_trans; eauto.
Qed.

Lemma MissingAncestors_iter (n : nat) :
  forall (path : string) (w : World),
    MissingAncestors n path w ->
    (forall j, j < n -> lookupEntry w (Nat.iter j dirname path) = None)
    /\ isDirectory w (Nat.iter n dirname path) = true.
Proof.
  induction n as [|n IH]; intros path w Hm; simpl in Hm.
  - split; [lia|exact Hm].
  - destruct Hm as [Hnone Hrest]. apply IH in Hrest as [Hlow Hdir]. split.
    + intros [|j] Hj; [exact Hnone|].
      rewrite Nat.iter_succ_r. apply Hlow. lia.
    + by rewrite Nat.iter_succ_r.
Qed.

(** A chain of missing ancestors that ends in a directory does not come
    back to where it starts. *)
Lemma MissingAncestors_acyclic (n j : nat) (path : string) (w : World) :
  MissingAncestors (S n) path w -> j < n ->
  path <> Nat.iter (S j) dirname path.
Proof.
  intros Hm Hj Hcycle.
  apply MissingAncestors_iter in Hm as [Hlow Hdir].
  assert (Hshift : Nat.iter (n - j) dirname path = Nat.iter (S n) dirname path).
  { replace (S n) with ((n - j) + S j) by lia.
    rewrite Nat.iter_add, <- Hcycle. reflexivity. }
  specialize (Hlow (n - j) ltac:(lia)). rewrite Hshift in Hlow.
  unfold isDirectory in Hdir. by rewrite Hlow in Hdir.
Qed.

(** With enough stack, [_recursiveMkDir] returns, having created exactly
    the missing ancestors. *)
Lemma recursiveMkDir_creates (k : nat) :
  forall (n : nat) (path : string) (w : World),
    MissingAncestors k path w -> k < n ->
    exists w',
      _recursiveMkDir n path w = (Ok tt, w')
      /\ OnlyNewDirs w w'
      /\ (forall q, lookupEntry w' q <> lookupEntry w q ->
                    exists j, j < k /\ q = Nat.iter j dirname path)
      /\ (forall j, j <= k -> isDirectory w' (Nat.iter j dirname path) = true).
Proof.
  induction k as [|k IH]; intros n path w Hm Hn.
  - destruct n as [|n]; [lia|]. simpl in Hm. exists w. split; [|split; [|split]].
    + simpl. unfold bind, existsSync, exists_.
      unfold isDirectory in Hm. by destruct (lookupEntry w path) as [[c|]|].
    + apply OnlyNewDirs_refl.
    + intros q Hq. done.
    + intros j Hj. replace j with 0 by lia. exact Hm.
  - destruct n as [|n]; [lia|].
    pose proof Hm as [Hnone Hrest].
    destruct (IH n (dirname path) w Hrest ltac:(lia))
      as (w1 & Hrec & Hnew1 & Hchanged & Hdirs).
    assert (Hfresh : lookupEntry w1 path = None).
    { destruct (proj2 Hnew1 path) as [->|[_ Hdir]]; [done|].
      assert (Hne : lookupEntry w1 path <> lookupEntry w path) by congruence.
      apply Hchanged in Hne as (j & Hj & Hcycle).
      rewrite <- Nat.iter_succ_r in Hcycle.
      by apply (MissingAncestors_acyclic k j path w) in Hcycle. }
    assert (Hparent : isDirectory w1 (dirname path) = true).
    { apply (Hdirs 0). lia. }
    exists (setFs w1 (<[path := Dir]> (fs w1))).
    assert (Hmk : mkdirSync path w1
                  = (Ok tt, setFs w1 (<[path := Dir]> (fs w1)))).
    { unfold mkdirSync, exists_. by rewrite Hfresh, Hparent. }
    split; [|split; [|split]].
    + simpl. unfold bind at 1. unfold existsSync, exists_. rewrite Hnone. simpl.
      unfold bind. by rewrite Hrec.
    + eapply OnlyNewDirs_trans; [exact Hnew1|].
      by apply mkdirSync_OnlyNewDirs in Hmk as [? _].
    + intros q Hq. destruct (decide (path = q)) as [<-|Hne].
      * exists 0. split; [lia|done].
      * rewrite lookup_setFs, lookup_insert_ne in Hq by done.
        apply Hchanged in Hq as (j & Hj & ->).
        exists (S j). split; [lia|]. by rewrite Nat.iter_succ_r.
    + intros j Hj. unfold isDirectory. rewrite lookup_setFs.
      destruct (decide (path = Nat.iter j dirname path)) as [<-|Hne].
      * by rewrite lookup_insert_eq.
      * rewrite lookup_insert_ne by done.
        destruct j as [|j]; [done|].
        rewrite Nat.iter_succ_r. apply Hdirs. lia.
Qed.

(** *** Writing a baseline, and what a run leaves of the others *)

Lemma Forall2_impl_In {A B : Type} (P Q : A -> B -> Prop) (l : list A) (k : list B) :
  Forall2 P l k -> (forall x y, In x l -> P x y -> Q x y) -> Forall2 Q l k.
Proof.
  induction 1 as [|x y l k Hxy _ IH]; intros Himpl; constructor.
  - apply Himpl; [by left|done].
  - apply IH. intros x' y' Hx'. apply Himpl. by right.
Qed.

Lemma Settled_lookup (p : string) (r : JS.Value) (w w' : World) :
  lookupEntry w' p = lookupEntry w p -> Settled p r w -> Settled p r w'.
Proof. intros Heq (s & -> & Hfile & Hnone). exists s. by rewrite Heq. Qed.

Lemma Settled_OnlyNewDirs (p : string) (r : JS.Value) (w w' : World) :
  OnlyNewDirs w w' -> Settled p r w -> Settled p r w'.
Proof.
  intros [_ Hnew] (s & -> & Hfile & Hnone). exists s. split; [done|].
  destruct (Hnew p) as [->|[_ ->]]; [done|]. split; [intros c [=]|done].
Qed.

(** An update that returns wrote the result at the baseline path, after
    nothing but directory creations. *)
Lemma checkExpectation_update_Ok (opts : ParsedCliOptions) (ev : Evaluation)
    (failed failed' : list string) (w w' : World) :
  differs ev = true -> update opts = true ->
  checkExpectation opts ev failed w = (Ok failed', w') ->
  failed' = failed ++ [description ev]
  /\ exists w1, OnlyNewDirs w w1
       /\ w' = setFs w1 (<[expectedOutputPath ev := File (JS.toString (result ev))]> (fs w1)).
Proof.
  intros Hd Hu. rewrite checkExpectation_update by done.
  destruct (_recursiveMkDir _ _ w) as [[u|e] w1] eqn:Hmk; [|discriminate].
  destruct (writeFileSync _ _ w1) as [[u'|e] w2] eqn:Hwr; [|discriminate].
  intros [= <- <-]. split; [done|]. exists w1. split.
  - by apply recursiveMkDir_Ok in Hmk.
  - by apply writeFileSync_Ok in Hwr.
Qed.

Lemma checkExpectation_keeps (opts : ParsedCliOptions) (ev : Evaluation)
    (failed failed' : list string) (w w' : World) (p : string) (r : JS.Value) :
  checkExpectation opts ev failed w = (Ok failed', w') ->
  expectedOutputPath ev <> p -> Settled p r w -> Settled p r w'.
Proof.
  intros Hck Hne Hs. destruct (differs ev) eqn:Hd.
  - destruct (update opts) eqn:Hu.
    + apply checkExpectation_update_Ok in Hck as (_ & w1 & Hnew & ->); [|done|done].
      apply (Settled_lookup p r w1).
      * by rewrite lookup_setFs, lookup_insert_ne.
      * by apply (Settled_OnlyNewDirs p r w).
    + rewrite checkExpectation_record in Hck by done. by injection Hck as _ <-.
  - rewrite checkExpectation_same in Hck by done. by injection Hck as _ <-.
Qed.

Lemma lookup_logged (w : World) (line p : string) :
  lookupEntry (logged w line) p = lookupEntry w p.
Proof. reflexivity. Qed.

Lemma runTests_keeps_settled (opts : ParsedCliOptions) (dir p : string)
    (r : JS.Value) (ts : list Test) :
  forall (failed failed' : list string) (w w' : World),
    runTests opts dir ts failed w = (Ok failed', w') ->
    (forall t, In t ts -> baselinePath opts t <> p) ->
    (forall t, In t ts -> PipelineKeeps opts dir t p) ->
    Settled p r w -> Settled p r w'.
Proof.
  induction ts as [|t ts IH]; intros failed failed' w w' Hrun Hne Hkeep Hs.
  - by injection Hrun as _ <-.
  - apply runTests_cons_Ok in Hrun
      as (ev & w1 & failed1 & w2 & Hev & Hck & Hrest & _).
    apply evaluateTest_Ok in Hev as (Hpipe & _ & Hpath & _).
    apply (Hkeep t (or_introl eq_refl)) in Hpipe. rewrite lookup_logged in Hpipe.
    apply (IH _ _ _ _ Hrest); [auto with datatypes..|].
    apply (checkExpectation_keeps _ _ _ _ _ _ _ _ Hck).
    + rewrite Hpath. apply Hne. by left.
    + by apply (Settled_lookup p r w).
Qed.

Lemma pipeline_in_memory (opts : ParsedCliOptions) (dir : string) (t : Test)
    (w w' : World) (r : JS.Value) :
  InMemory t ->
  checkSideEffects (pipelineOptions opts dir t) w = (Ok r, w') ->
  exists s, r = JS.Str s.
Proof.
  intros Hmem Hrun. apply checkSideEffects_value in Hrun.
  unfold outputFilePath, pipelineOptions in Hrun. simpl in Hrun.
  unfold InMemory in Hmem. rewrite Hmem in Hrun. simpl in Hrun.
  destruct Hrun as (? & ? & outs & ? & _ & ->). eauto.
Qed.

(** After an update run over tests with distinct baselines whose pipeline
    runs are in memory and keep the baselines, each baseline is settled on
    the result the run obtained for its test. *)
Lemma update_run_settles (opts : ParsedCliOptions) (dir : string)
    (suite : list Test) :
  update opts = true ->
  (forall t t', In t suite -> In t' suite ->
                PipelineKeeps opts dir t (baselinePath opts t')) ->
  (forall t, In t suite -> InMemory t) ->
  forall (ts : list Test) (failed failed' : list string) (w w' : World),
    incl ts suite ->
    NoDup (map (baselinePath opts) ts) ->
    runTests opts dir ts failed w = (Ok failed', w') ->
    Forall2 (fun t ev => Settled (baselinePath opts t) (result ev) w')
            ts (evaluations opts dir ts failed w).
Proof.
  intros Hupd Hkeep Hmem.
  induction ts as [|t ts IH]; intros failed failed' w w' Hincl Hnodup Hrun.
  - constructor.
  - apply NoDup_cons in Hnodup as [Hfresh Hnodup].
    assert (Hin : In t suite) by (apply Hincl; by left).
    assert (Hincl' : incl ts suite) by (intros x Hx; apply Hincl; by right).
    apply runTests_cons_Ok in Hrun
      as (ev & w1 & failed1 & w2 & Hev & Hck & Hrest & ->).
    constructor; [|by eapply IH].
    apply (runTests_keeps_settled _ _ _ _ _ _ _ _ _ Hrest).
    { intros t' Ht' Heq. apply Hfresh. rewrite <- Heq.
      apply list_elem_of_In, in_map, Ht'. }
    { intros t' Ht'. apply Hkeep; auto. }
    apply evaluateTest_Ok in Hev as (Hpipe & _ & Hpath & Hexp).
    destruct (pipeline_in_memory _ _ _ _ _ _ (Hmem t Hin) Hpipe) as [s Hs].
    exists s. split; [done|].
    destruct (differs ev) eqn:Hd.
    + apply checkExpectation_update_Ok in Hck as (_ & wm & _ & ->); [|done|done].
      rewrite lookup_setFs, Hpath, lookup_insert_eq, Hs. simpl.
      split; [by intros c [= <-]|done].
    + rewrite checkExpectation_same in Hck by done. injection Hck as _ <-.
      unfold differs in Hd. rewrite Hs in Hd. simpl in Hd.
      apply negb_false_iff, String.eqb_eq in Hd.
      destruct (lookupEntry w1 (baselinePath opts t)) as [[c|]|];
        [|done|]; (split; [intros c' [=]|intros; try done]); congruence.
Qed.

(** A run outside update mode over tests whose baselines are settled on
    the results it obtains records no failure. *)
Lemma settled_run_passes (opts : ParsedCliOptions) (dir : string)
    (suite : list Test) :
  (forall t t', In t suite -> In t' suite ->
                PipelineKeeps opts dir t (baselinePath opts t')) ->
  forall (ts : list Test) (before : list Evaluation)
         (failed failed' : list string) (w w' : World),
    incl ts suite ->
    Forall2 (fun t ev => Settled (baselinePath opts t) (result ev) w) ts before ->
    map result (evaluations opts dir ts failed w) = map result before ->
    runTests opts dir ts failed w = (Ok failed', w') ->
    failed' = failed.
Proof.
  intros Hkeep.
  induction ts as [|t ts IH]; intros before failed failed' w w' Hincl Hset Hsame Hrun.
  - by injection Hrun as <- _.
  - assert (Hin : In t suite) by (apply Hincl; by left).
    assert (Hincl' : incl ts suite) by (intros x Hx; apply Hincl; by right).
    apply runTests_cons_Ok in Hrun
      as (ev & w1 & failed1 & w2 & Hev & Hck & Hrest & Hevs).
    rewrite Hevs in Hsame.
    inversion Hset as [|t0 ev0 ts0 before0 Hhead Htail]; subst.
    injection Hsame as Hres Hsame.
    apply evaluateTest_Ok in Hev as (Hpipe & _ & _ & Hexp).
    assert (Hframe : forall t', In t' suite ->
              lookupEntry w1 (baselinePath opts t') = lookupEntry w (baselinePath opts t')).
    { intros t' Ht'. exact (Hkeep t t' Hin Ht' _ _ _ Hpipe). }
    assert (Hd : differs ev = false).
    { destruct Hhead as (s & Hs & Hfile & Hnone).
      rewrite <- (Hframe t Hin) in Hfile, Hnone.
      unfold differs. rewrite Hres, Hs. simpl.
      apply negb_false_iff, String.eqb_eq.
      destruct (lookupEntry w1 (baselinePath opts t)) as [[c|]|]; [|done|].
      - rewrite Hexp. symmetry. by apply Hfile.
      - rewrite Hexp. by apply Hnone. }
    rewrite checkExpectation_same in Hck by done. injection Hck as <- <-.
    apply (IH before0 _ _ _ _ Hincl') in Hrest; [done| |done].
    eapply Forall2_impl_In; [exact Htail|].
    intros t' ev' Ht' Hs. apply (Settled_lookup _ _ w); [|done].
    apply Hframe, Hincl', Ht'.
Qed.

(** In update mode, with enough stack, a case that differs gets its
    baseline written whenever the chain of missing directories above the
    baseline ends in an existing directory and the baseline path is not
    itself a directory: the missing directories are created, then the
    file. *)
Lemma checkExpectation_update_creates (opts : ParsedCliOptions)
    (ev : Evaluation) (failed : list string) (w : World) (k : nat) :
  differs ev = true -> update opts = true ->
  MissingAncestors k (dirname (expectedOutputPath ev)) w ->
  k < stackLimit ->
  lookupEntry w (expectedOutputPath ev) <> Some Dir ->
  exists w',
    checkExpectation opts ev failed w = (Ok (failed ++ [description ev]), w')
    /\ lookupEntry w' (expectedOutputPath ev)
       = Some (File (JS.toString (result ev)))
    /\ (forall j, j <= k ->
          isDirectory w' (Nat.iter j dirname (dirname (expectedOutputPath ev))) = true)
    /\ (forall q, q <> expectedOutputPath ev ->
          lookupEntry w' q = lookupEntry w q
          \/ (lookupEntry w q = None /\ lookupEntry w' q = Some Dir)).
Proof.
  intros Hd Hu Hm Hk Hnotdir.
  set (path := expectedOutputPath ev) in *.
  destruct (recursiveMkDir_creates k stackLimit (dirname path) w Hm Hk)
    as (w1 & Hrec & Hnew & Hchanged & Hdirs).
  assert (Hsame : lookupEntry w1 path = lookupEntry w path).
  { destruct (proj2 Hnew path) as [->|[Hnone Hdir]]; [done|].
    assert (Hne : lookupEntry w1 path <> lookupEntry w path) by congruence.
    apply Hchanged in Hne as (j & Hj & Hcycle).
    rewrite <- Nat.iter_succ_r in Hcycle.
    apply (MissingAncestors_acyclic k j path w) in Hcycle; [done| |done].
    by split. }
  assert (Hwrite : writeFileSync path (JS.toString (result ev)) w1
                   = (Ok tt, setFs w1 (<[path := File (JS.toString (result ev))]> (fs w1)))).
  { pose proof (Hdirs 0 ltac:(lia)) as Hparent. simpl in Hparent.
    unfold writeFileSync. rewrite Hparent, Hsame.
    by destruct (lookupEntry w path) as [[c|]|]. }
  exists (setFs w1 (<[path := File (JS.toString (result ev))]> (fs w1))).
  split; [|split; [|split]].
  - rewrite checkExpectation_update by done. fold path. by rewrite Hrec, Hwrite.
  - by rewrite lookup_setFs, lookup_insert_eq.
  - intros j Hj. specialize (Hdirs j Hj). unfold isDirectory in *.
    rewrite lookup_setFs.
    destruct (decide (path = Nat.iter j dirname (dirname path))) as [Heq|Hne].
    + rewrite <- Heq, Hsame in Hdirs.
      by destruct (lookupEntry w path) as [[c|]|].
    + by rewrite lookup_insert_ne.
  - intros q Hq. rewrite lookup_setFs, lookup_insert_ne by done.
    apply (proj2 Hnew).
Qed.

Lemma baselinePath_cwd (o1 o2 : ParsedCliOptions) (t : Test) :
  cwd o1 = cwd o2 -> baselinePath o1 t = baselinePath o2 t.
Proof. unfold baselinePath. by intros ->. Qed.

Lemma pipelineOptions_cwd (o1 o2 : ParsedCliOptions) (dir : string) (t : Test) :
  cwd o1 = cwd o2 -> pipelineOptions o1 dir t = pipelineOptions o2 dir t.
Proof. unfold pipelineOptions. by intros ->. Qed.

End Steps.

Section Claims.
Context `{Platform} `{Bundler} `{Parsers}.


(** C7. When, after the pipeline has run for a test, nothing exists at
    the test's baseline path, the iteration does not throw: the expected
    output is the empty string, and the comparison goes on against it; so
    outside update mode the case is recorded as failed exactly when the
    result is not the empty string, and in any mode the iteration continues
    with the check that, in update mode, writes the baseline. *)
Theorem missing_baseline_reads_empty (opts : ParsedCliOptions) (dir : string)
    (t : Test) (w w1 : World) (r : JS.Value) :
  checkSideEffects (pipelineOptions opts dir t)
    (logged w ("Testing " +:+ esModulesDescription t)) = (Ok r, w1) ->
  exists_ w1 (resolve (cwd opts) (expectedOutput t)) = false ->
  let ev := {| description := esModulesDescription t;
               result := r;
               expectedOutputPath := resolve (cwd opts) (expectedOutput t);
               expected := "" |} in
  evaluateTest opts dir t w = (Ok ev, w1)
  /\ (forall failed,
        runTest opts dir t failed w = checkExpectation opts ev failed w1)
  /\ (forall failed, update opts = false ->
        runTest opts dir t failed w
        = (Ok (failed ++ (if JS.looseNeq r "" then [esModulesDescription t] else [])),
           w1)).
Proof.
  intros Hrun Hgone ev.
  assert (Hev : evaluateTest opts dir t w = (Ok ev, w1)).
  { rewrite evaluateTest_eq, Hrun. unfold exists_, baselinePath in *.
    destruct (lookupEntry w1 _); [discriminate|reflexivity]. }
  split; [exact Hev|]. split.
  - intros failed. by apply runTest_eq.
  - intros failed Hupd. rewrite (runTest_eq _ _ _ _ _ _ _ Hev).
    destruct (JS.looseNeq r "") eqn:Hd.
    + by apply checkExpectation_record.
    + rewrite app_nil_r. by apply checkExpectation_same.
Qed.

(** C10. Once a test is evaluated, a case whose result equals the
    expected text ends the iteration at once: the list of failures and the
    world, hence every baseline file, are left as the evaluation found
    them.  Conversely an iteration changes the file system after the
    evaluation only for a case that differs, and only in update mode. *)
Theorem matching_baseline_untouched (opts : ParsedCliOptions) (dir : string)
    (t : Test) (failed : list string) (w w1 : World) (ev : Evaluation) :
  evaluateTest opts dir t w = (Ok ev, w1) ->
  (JS.looseNeq (result ev) (expected ev) = false ->
     runTest opts dir t failed w = (Ok failed, w1))
  /\ (forall res w2,
        runTest opts dir t failed w = (res, w2) -> fs w2 <> fs w1 ->
        JS.looseNeq (result ev) (expected ev) = true /\ update opts = true).
Proof.
  intros Hev. rewrite (runTest_eq _ _ _ _ _ _ _ Hev). split.
  - apply checkExpectation_same.
  - intros res w2 Hck Hchanged.
    destruct (JS.looseNeq (result ev) (expected ev)) eqn:Hd.
    + split; [done|]. destruct (update opts) eqn:Hupd; [done|].
      rewrite checkExpectation_record in Hck by done.
      injection Hck as _ <-. done.
    + rewrite checkExpectation_same in Hck by done.
      injection Hck as _ <-. done.
Qed.

(** C6, as amended.  For a suite run in update mode whose loop returns:
    [main] does not throw, and prints the "Test expectations updated"
    message listing exactly the cases whose result differs from the
    baseline (or "All tests passed." when there is none).  The check of a
    case that differs creates the missing directories above the baseline
    path, one level after the other, and then writes the result there,
    provided the chain of missing directories ends in an existing directory
    within the stack limit and the baseline path is not a directory.  A
    following run without the flag over the same suite, on the file system
    the update run left, returns with "All tests passed." provided every
    case runs in memory, the baseline paths are pairwise distinct, the
    pipeline runs leave the baseline paths alone and yield the results they
    yielded in the update run, and the loop of the second run returns. *)
Theorem update_writes_then_rerun_passes (rawU rawC : MainOptions)
    (w wl w1 : World) (dir : string) (suite : TestJson) (failed : list string) :
  help (minimist (args rawU)) = false ->
  JS.truthy (test (minimist (args rawU))) = true ->
  update (minimist (args rawU)) = true ->
  loadTests (minimist (args rawU)) w = (Ok (dir, suite), wl) ->
  runTests (minimist (args rawU)) dir (tests suite) [] wl = (Ok failed, w1) ->
  let evs := evaluations (minimist (args rawU)) dir (tests suite) [] wl in
  main rawU w
  = (Ok JS.Undefined,
     logged (logged w1 "")
       (match failed with
        | [] => "All tests passed."
        | _ :: _ =>
            "Test expectations updated for modules:" +:+ JS.LF
            +:+ JS.join JS.LF (map (fun s => "  " +:+ s) failed) +:+ JS.LF
        end))
  /\ failed = map description (List.filter differs evs)
  /\ (forall ev failed0 wa k,
        differs ev = true ->
        MissingAncestors k (dirname (expectedOutputPath ev)) wa ->
        k < stackLimit ->
        lookupEntry wa (expectedOutputPath ev) <> Some Dir ->
        exists wb,
          checkExpectation (minimist (args rawU)) ev failed0 wa
          = (Ok (failed0 ++ [description ev]), wb)
          /\ lookupEntry wb (expectedOutputPath ev)
             = Some (File (JS.toString (result ev)))
          /\ (forall j, j <= k ->
                isDirectory wb (Nat.iter j dirname (dirname (expectedOutputPath ev)))
                = true))
  /\ (forall wl2 failed2 w2,
        help (minimist (args rawC)) = false ->
        JS.truthy (test (minimist (args rawC))) = true ->
        update (minimist (args rawC)) = false ->
        cwd (minimist (args rawC)) = cwd (minimist (args rawU)) ->
        loadTests (minimist (args rawC)) (snd (main rawU w)) = (Ok (dir, suite), wl2) ->
        runTests (minimist (args rawC)) dir (tests suite) [] wl2 = (Ok failed2, w2) ->
        (forall t, In t (tests suite) -> InMemory t) ->
        NoDup (map (baselinePath (minimist (args rawU))) (tests suite)) ->
        (forall t t', In t (tests suite) -> In t' (tests suite) ->
           PipelineKeeps (minimist (args rawU)) dir t
             (baselinePath (minimist (args rawU)) t')) ->
        map result (evaluations (minimist (args rawC)) dir (tests suite) [] wl2)
        = map result evs ->
        failed2 = []
        /\ main rawC (snd (main rawU w))
           = (Ok JS.Undefined, logged (logged w2 "") "All tests passed.")).
Proof.
  intros Hhelp Htest Hupd Hload Hrun evs.
  pose proof (runTests_Ok _ _ _ _ _ _ _ Hrun) as [Hfailed _].
  simpl in Hfailed. fold evs in Hfailed.
  assert (Hmain : main rawU w
    = (Ok JS.Undefined,
       logged (logged w1 "")
         (match failed with
          | [] => "All tests passed."
          | _ :: _ => updatedMessage failed
          end))).
  { rewrite (main_test_branch rawU w wl dir suite) by done.
    rewrite Hrun, reportTests_eq, Hupd. by destruct failed. }
  split; [exact Hmain|]. split; [exact Hfailed|]. split.
  - intros ev failed0 wa k Hd Hm Hk Hnotdir.
    destruct (checkExpectation_update_creates (minimist (args rawU))
                ev failed0 wa k Hd Hupd Hm Hk Hnotdir)
      as (wb & Hck & Hfile & Hdirs & _).
    eauto.
  - intros wl2 failed2 w2 Hhelp2 Htest2 Hupd2 Hcwd Hload2 Hrun2
           Hmem Hnodup Hkeep Hsame.
    assert (Hfs : forall p, lookupEntry wl2 p = lookupEntry w1 p).
    { intros p. unfold lookupEntry. apply loadTests_Ok in Hload2.
      rewrite Hload2, Hmain. reflexivity. }
    assert (Hset : Forall2
              (fun t ev => Settled (baselinePath (minimist (args rawC)) t)
                             (result ev) wl2)
              (tests suite) evs).
    { eapply Forall2_impl.
      - apply (update_run_settles (minimist (args rawU)) dir (tests suite)
                 Hupd Hkeep Hmem (tests suite) [] failed wl w1);
          [by intros x|done|done].
      - intros t ev Hs. simpl in Hs.
        rewrite (baselinePath_cwd _ (minimist (args rawU))) by done.
        by apply (Settled_lookup _ _ w1). }
    assert (Hkeep2 : forall t t', In t (tests suite) -> In t' (tests suite) ->
              PipelineKeeps (minimist (args rawC)) dir t
                (baselinePath (minimist (args rawC)) t')).
    { intros t t' Ht Ht'. unfold PipelineKeeps.
      rewrite (pipelineOptions_cwd _ (minimist (args rawU))) by done.
      rewrite (baselinePath_cwd _ (minimist (args rawU))) by done.
      by apply Hkeep. }
    assert (Hnone : failed2 = []).
    { apply (settled_run_passes (minimist (args rawC)) dir (tests suite) Hkeep2
               (tests suite) evs [] failed2 wl2 w2); [by intros x|done|done|done]. }
    split; [exact Hnone|].
    rewrite (main_test_branch rawC _ wl2 dir suite) by done.
    by rewrite Hrun2, reportTests_eq, Hnone.
Qed.

End Claims.

(** C6 as stated fails: for a suite whose two cases name the same baseline
    file, the update run returns, and the run without the flag that follows
    it throws "Tests failed". *)
Lemma shared_baseline_rerun_fails :
  ~ @UpdateThenPass Examples.posix Examples.echoBundler
      (Examples.parsersFor Examples.sharedBaseline)
      Examples.withUpdate Examples.withoutUpdate Examples.suiteWorld.
Proof.
  intros Hclaim.
  pose (w1 := snd (@main Examples.posix Examples.echoBundler
                     (Examples.parsersFor Examples.sharedBaseline)
                     Examples.withUpdate Examples.suiteWorld)).
  assert (Hrun : @main Examples.posix Examples.echoBundler
                   (Examples.parsersFor Examples.sharedBaseline)
                   Examples.withUpdate Examples.suiteWorld
                 = (Ok JS.Undefined, w1)) by (vm_compute; reflexivity).
  apply Hclaim in Hrun. vm_compute in Hrun. discriminate.
Qed.

(** Another input on which C6 as stated fails: a case that sets the
    [output] option.  Its result is [undefined], the update writes that
    value's string form, and no baseline text equals [undefined]. *)
Example on_disk_case_rerun_fails :
  ~ @UpdateThenPass Examples.posix Examples.echoBundler
      (Examples.parsersFor Examples.onDiskCase)
      Examples.withUpdate Examples.withoutUpdate Examples.suiteWorld.
Proof.
  intros Hclaim.
  pose (w1 := snd (@main Examples.posix Examples.echoBundler
                     (Examples.parsersFor Examples.onDiskCase)
                     Examples.withUpdate Examples.suiteWorld)).
  assert (Hrun : @main Examples.posix Examples.echoBundler
                   (Examples.parsersFor Examples.onDiskCase)
                   Examples.withUpdate Examples.suiteWorld
                 = (Ok JS.Undefined, w1)) by (vm_compute; reflexivity).
  apply Hclaim in Hrun. vm_compute in Hrun. discriminate.
Qed.

End CliFacts.

(** * The theorems at concrete inputs *)

Module Witnesses.
Import Sys Checker Cli CheckerFacts CliFacts Examples.

(** Three references, two of them missing: one failure names both. *)
Lemma missing_modules_witness :
  In "c.js" ["a.js"; "c.js"; "d.js"]
  /\ @exists_ projectWorld "/proj/c.js" = false
  /\ @checkSideEffects posix echoBundler
       (checkOptions ["a.js"; "c.js"; "d.js"] None) projectWorld
     = (Throw (ThrownString
          ("Could not find the following modules: /proj/c.js,/proj/d.js."
           +:+ JS.LF
           +:+ "Please provide relative/absolute paths to the ES modules you want to check.")),
        projectWorld).
Proof.
  split; [simpl; tauto|]. split; [vm_compute; reflexivity|].
  refine (proj1 (@missing_modules_reported_together posix echoBundler
                   (checkOptions ["a.js"; "c.js"; "d.js"] None) projectWorld
                   "c.js" _ _)).
  - simpl; tauto.
  - vm_compute; reflexivity.
Defined.

(** Two references, one written with a leading [./]. *)
Lemma synthetic_entry_witness :
  lookupEntry entryWorld "/tmp/check-side-effects-Ab3dE9/index.js"
  = Some (File ("import '/proj/a.js';" +:+ JS.LF +:+ "import '/proj/b.js';")).
Proof.
  refine (proj1 (@synthetic_entry_content posix echoBundler
                   (checkOptions ["a.js"; "./b.js"] None) projectWorld entryWorld
                   "/tmp/check-side-effects-Ab3dE9"
                   "/tmp/check-side-effects-Ab3dE9/index.js" _ _)).
  - intros p [<-|[<-|[]]]; vm_compute; reflexivity.
  - vm_compute; reflexivity.
Defined.



(** The second case of the suite has no baseline yet. *)
Lemma missing_baseline_witness :
  @evaluateTest posix echoBundler (cliOptions false) "/proj"
    (caseOf "b.js" "fresh/out/b.txt") suiteWorld
  = (Ok {| description := "b.js";
           result := JS.Str "import '/proj/b.js';";
           expectedOutputPath := "/proj/fresh/out/b.txt";
           expected := "" |},
     logged suiteWorld "Testing b.js").
Proof.
  refine (proj1 (@missing_baseline_reads_empty posix echoBundler
    (cliOptions false) "/proj" (caseOf "b.js" "fresh/out/b.txt")
    suiteWorld (logged suiteWorld "Testing b.js")
    (JS.Str "import '/proj/b.js';") _ _)); vm_compute; reflexivity.
Defined.

(** The first case of the suite matches its baseline, in update mode. *)
Lemma matching_baseline_witness :
  @runTest posix echoBundler (cliOptions true) "/proj"
    (caseOf "a.js" "expected/a.txt") [] suiteWorld
  = (Ok [], logged suiteWorld "Testing a.js").
Proof.
  refine (proj1 (@matching_baseline_untouched posix echoBundler
    (cliOptions true) "/proj" (caseOf "a.js" "expected/a.txt") []
    suiteWorld (logged suiteWorld "Testing a.js")
    {| description := "a.js";
       result := JS.Str "import '/proj/a.js';";
       expectedOutputPath := "/proj/expected/a.txt";
       expected := "import '/proj/a.js';" |} _) _); vm_compute; reflexivity.
Defined.

Lemma echoBundler_keeps (suite : list Test) (t : Test) (p : string) :
  InMemory t ->
  p <> "/tmp/check-side-effects-Ab3dE9" ->
  p <> "/tmp/check-side-effects-Ab3dE9/index.js" ->
  @PipelineKeeps posix echoBundler (cliOptions true) "/proj" t p.
Proof.
  intros Hmem Hdir Hfile wa r wb Hrun.
  apply (@checkSideEffects_in_memory_frame posix echoBundler _ _ _ _ p) in Hrun;
    [done| | | |done|done].
  - unfold outputFilePath, pipelineOptions. simpl.
    unfold InMemory in Hmem. by rewrite Hmem.
  - intros io wa' b wb' Hread. simpl in Hread. unfold readFileSync in Hread.
    destruct (lookupEntry wa' _) as [[c|]|]; try discriminate.
    by injection Hread as _ <-.
  - intros b oo wa' outs wb' Hgen. by injection Hgen as _ <-.
Qed.

(** The two-case suite in update mode, then again without the flag: the
    update creates [/proj/fresh] and [/proj/fresh/out] and writes the
    second baseline; the second run passes. *)
Lemma update_then_rerun_witness :
  @main posix echoBundler (parsersFor twoCases) withUpdate suiteWorld
  = (Ok JS.Undefined,
     logged (logged (finishedWorld true twoCases suiteWorld) "")
       ("Test expectations updated for modules:" +:+ JS.LF +:+ "  b.js" +:+ JS.LF))
  /\ lookupEntry (finishedWorld true twoCases suiteWorld) "/proj/fresh/out/b.txt"
     = Some (File "import '/proj/b.js';")
  /\ isDirectory (finishedWorld true twoCases suiteWorld) "/proj/fresh/out" = true
  /\ isDirectory (finishedWorld true twoCases suiteWorld) "/proj/fresh" = true
  /\ (exists wb,
        @checkExpectation posix (cliOptions true)
          {| description := "b.js";
             result := JS.Str "import '/proj/b.js';";
             expectedOutputPath := "/proj/fresh/out/b.txt";
             expected := "" |} [] suiteWorld
        = (Ok ["b.js"], wb)
        /\ lookupEntry wb "/proj/fresh/out/b.txt" = Some (File "import '/proj/b.js';")
        /\ (forall j, j <= 2 ->
              isDirectory wb (Nat.iter j posixDirname "/proj/fresh/out") = true))
  /\ @main posix echoBundler (parsersFor twoCases) withoutUpdate
       (snd (@main posix echoBundler (parsersFor twoCases) withUpdate suiteWorld))
     = (Ok JS.Undefined,
        logged (logged
          (finishedWorld false twoCases
             (snd (@main posix echoBundler (parsersFor twoCases) withUpdate suiteWorld)))
          "") "All tests passed.").
Proof.
  destruct (@update_writes_then_rerun_passes posix echoBundler (parsersFor twoCases)
              withUpdate withoutUpdate suiteWorld
              (loadedWorld true twoCases suiteWorld)
              (finishedWorld true twoCases suiteWorld)
              "/proj" (mkTestJson twoCases) ["b.js"]
              eq_refl eq_refl eq_refl
              ltac:(vm_compute; reflexivity) ltac:(vm_compute; reflexivity))
    as (Hmain & _ & Hwrite & Hrerun).
  split; [exact Hmain|].
  split; [vm_compute; reflexivity|].
  split; [vm_compute; reflexivity|].
  split; [vm_compute; reflexivity|].
  split.
  { refine (Hwrite
      {| description := "b.js";
         result := JS.Str "import '/proj/b.js';";
         expectedOutputPath := "/proj/fresh/out/b.txt";
         expected := "" |} [] suiteWorld 2 eq_refl _ _ _).
    - repeat split; vm_compute; reflexivity.
    - simpl; lia.
    - vm_compute; discriminate. }
  refine (proj2 (Hrerun
    (loadedWorld false twoCases
       (snd (@main posix echoBundler (parsersFor twoCases) withUpdate suiteWorld)))
    []
    (finishedWorld false twoCases
       (snd (@main posix echoBundler (parsersFor twoCases) withUpdate suiteWorld)))
    eq_refl eq_refl eq_refl eq_refl _ _ _ _ _ _)).
  - vm_compute; reflexivity.
  - vm_compute; reflexivity.
  - intros t [<-|[<-|[]]]; reflexivity.
  - apply (bool_decide_unpack _). vm_compute. reflexivity.
  - intros t t' Ht Ht'.
    apply (echoBundler_keeps twoCases).
    + destruct Ht as [<-|[<-|[]]]; reflexivity.
    + destruct Ht' as [<-|[<-|[]]]; vm_compute; discriminate.
    + destruct Ht' as [<-|[<-|[]]]; vm_compute; discriminate.
  - vm_compute; reflexivity.
Defined.

End Witnesses.

(** * Further properties: strings and the lint rule *)

Module RuleMore.
Import Rule RuleFacts CheckerFacts.

(** *** What the string tests decide *)

Lemma startsWith_iff (s p : string) :
  JS.startsWith s p = true <-> exists t, s = p +:+ t.
Proof.
  split.
  - revert s. induction p as [|a p IH]; intros s Hs; [by exists s|].
    destruct s as [|b s]; [discriminate|]. simpl in Hs.
    destruct (Ascii.eqb_spec a b) as [->|]; [|discriminate].
    destruct (IH s Hs) as [t ->]. by exists t.
  - intros [t ->]. apply startsWith_app, startsWith_refl.
Qed.

Lemma includes_iff (s sub : string) :
  JS.includes s sub = true <-> exists a b, s = a +:+ sub +:+ b.
Proof.
  split.
  - induction s as [|c s IH]; rewrite includes_eq, orb_true_iff.
    + intros [Hs|]; [|discriminate]. apply startsWith_iff in Hs as [t ->].
      by exists "", t.
    + intros [Hs|Hs].
      * apply startsWith_iff in Hs as [t ->]. by exists "", t.
      * destruct (IH Hs) as (a & b & ->). by exists (String c a), b.
  - intros (a & b & ->). apply includes_app_r, includes_app_l, includes_refl.
Qed.

Lemma endsWith_eq (s suffix : string) :
  JS.endsWith s suffix =
  String.eqb s suffix ||
  match s with EmptyString => false | String _ s' => JS.endsWith s' suffix end.
Proof. destruct s; reflexivity. Qed.

Lemma endsWith_iff (s suffix : string) :
  JS.endsWith s suffix = true <-> exists a, s = a +:+ suffix.
Proof.
  split.
  - induction s as [|c s IH]; rewrite endsWith_eq, orb_true_iff.
    + intros [Hs|]; [|discriminate]. apply String.eqb_eq in Hs as <-. by exists "".
    + intros [Hs|Hs].
      * apply String.eqb_eq in Hs as <-. by exists "".
      * destruct (IH Hs) as [a ->]. by exists (String c a).
  - intros [a ->]. induction a as [|c a IH]; rewrite endsWith_eq.
    + simpl. by rewrite String.eqb_refl.
    + simpl. rewrite IH. apply orb_true_r.
Qed.

Lemma existsb_includes (name : string) (segments : list string) :
  existsb (fun path => JS.includes name path) segments = true
  <-> exists seg a b, In seg segments /\ name = a +:+ seg +:+ b.
Proof.
  rewrite existsb_exists. split.
  - intros (seg & Hin & Hinc). apply includes_iff in Hinc as (a & b & ->). eauto.
  - intros (seg & a & b & Hin & ->). exists seg. split; [done|].
    apply includes_iff. eauto.
Qed.

(** X1. The path segments given to the rule select the files it examines:
    with no segment, or when some segment occurs somewhere in the file
    name, the rule reports what the walk finds; when segments are given and
    none of them occurs in the file name, it reports nothing, whatever the
    file holds.  An empty segment occurs in every name. *)
Theorem apply_path_filter (ruleArguments : list string) (sf : SourceFile) :
  (ruleArguments = []
   \/ (exists seg a b, In seg ruleArguments /\ fileName sf = a +:+ seg +:+ b) ->
   apply ruleArguments sf = applyWithFunction sf walk)
  /\ (ruleArguments <> [] ->
      (forall seg a b, In seg ruleArguments -> fileName sf <> a +:+ seg +:+ b) ->
      apply ruleArguments sf = [])
  /\ (In "" ruleArguments -> apply ruleArguments sf = applyWithFunction sf walk).
Proof.
  assert (Hchecked : ruleArguments = []
            \/ (exists seg a b, In seg ruleArguments /\ fileName sf = a +:+ seg +:+ b) ->
            apply ruleArguments sf = applyWithFunction sf walk).
  { unfold apply. intros [->|Hocc]; [reflexivity|].
    apply existsb_includes in Hocc. rewrite Hocc. simpl.
    by rewrite andb_false_r. }
  split; [exact Hchecked|]. split.
  - intros Hne Hnone. unfold apply.
    destruct ruleArguments as [|x xs]; [done|]. simpl Nat.ltb.
    destruct (existsb _ (x :: xs)) eqn:Hex; [|reflexivity].
    apply existsb_includes in Hex as (seg & a & b & Hin & Heq).
    by apply Hnone in Heq.
  - intros Hin. apply Hchecked. right. exists "", "", (fileName sf). done.
Qed.

(** X2. The walk treats the top-level statements one after the other and
    independently: the failures of a file whose statements are [cs1]
    followed by [cs2] are those of [cs1] followed by those of [cs2]; and a
    walk started on a context that already holds failures keeps them, in
    front of the ones it adds. *)
Theorem walk_statementwise (name : string) (k : SyntaxKind) (s e : nat)
    (cs1 cs2 : list Node) (earlier : list RuleFailure) :
  applyWithFunction (mkSourceFile name (mkNode k s e (cs1 ++ cs2))) walk
  = applyWithFunction (mkSourceFile name (mkNode k s e cs1)) walk
    ++ applyWithFunction (mkSourceFile name (mkNode k s e cs2)) walk
  /\ failures (snd (walk (mkWalkContext (mkSourceFile name (mkNode k s e cs1)) earlier)))
     = earlier ++ applyWithFunction (mkSourceFile name (mkNode k s e cs1)) walk.
Proof.
  split.
  - rewrite !applyWithFunction_walk. simpl. by rewrite flat_map_app, map_app.
  - rewrite applyWithFunction_walk, walk_spec. reflexivity.
Qed.

End RuleMore.

(** * Further properties of the extraction pipeline *)

Module CheckerMore.
Import Sys Checker CheckerFacts.

Lemma replaceBackslashes_fixed (s : string) :
  JS.replaceBackslashes s = s <-> forall i, String.get i s <> Some JS.backslash.
Proof.
  split.
  - intros Heq i. rewrite <- Heq. apply replaceBackslashes_clean.
  - induction s as [|c s IH]; intros Hclean; simpl; [done|].
    destruct (Ascii.eqb_spec c JS.backslash) as [->|Hc].
    + by specialize (Hclean 0).
    + f_equal. apply IH. intros i. apply (Hclean (S i)).
Qed.

(** X3. Turning backslashes into forward slashes keeps the length of a
    path, is the identity exactly on the paths that hold no backslash (so
    a POSIX path is imported as resolved), and doing it twice is doing it
    once. *)
Theorem replaceBackslashes_normalises (s : string) :
  String.length (JS.replaceBackslashes s) = String.length s
  /\ (JS.replaceBackslashes s = s
      <-> forall i, String.get i s <> Some JS.backslash)
  /\ JS.replaceBackslashes (JS.replaceBackslashes s) = JS.replaceBackslashes s.
Proof.
  split; [apply replaceBackslashes_length|]. split; [apply replaceBackslashes_fixed|].
  apply replaceBackslashes_fixed. apply replaceBackslashes_clean.
Qed.

Section More.
Context `{Platform} `{Bundler}.

Lemma forEach_consoleLog (lines : list string) :
  forall w : World,
    forEach consoleLog lines w
    = (Ok tt, {| fs := fs w; console := console w ++ lines |}).
Proof.
  induction lines as [|l ls IH]; intros w; simpl.
  - destruct w. simpl. by rewrite app_nil_r.
  - unfold bind. simpl. rewrite IH. simpl. by rewrite <- app_assoc.
Qed.

(** The world left by an in-memory run with a bundler whose graph build
    and generation return the world as they found it. *)
Lemma pure_in_memory_world (o : CheckSideEffectsOptions) (w w' : World)
    (r : JS.Value) :
  JS.truthy (outputFilePath o) = false ->
  (forall io wa b wb, rollup io wa = (Ok b, wb) -> wb = wa) ->
  (forall b oo wa outs wb, bundleGenerate b oo wa = (Ok outs, wb) -> wb = wa) ->
  lookupEntry w (scratchFile w) = None ->
  checkSideEffects o w = (Ok r, w') ->
  exists bundle outputs,
    r = JS.Str (chunkCode outputs)
    /\ fs w' = fs w
    /\ console w' = console w
         ++ (if default false (printDependencies o) then watchFiles bundle else []).
Proof.
  intros Hmode Hroll Hgen Hfree Hrun.
  destruct (missingIn w (resolvedEsModules o)) eqn:Hmiss.
  2:{ rewrite checkSideEffects_missing in Hrun; [discriminate|]. by rewrite Hmiss. }
  rewrite checkSideEffects_verified in Hrun by done.
  bind_inv Hrun tmp w1 Htmp. destruct tmp as [tmpDir tmpInput].
  pose proof (writeTemporaryInput_distinct _ _ _ _ _ Htmp) as Hne.
  pose proof Htmp as Hw1. unfold writeTemporaryInput in Hw1.
  bind_inv Hw1 dir wd Hdir. apply mkdtempSync_Ok in Hdir as (_ & _ & ->).
  bind_inv Hw1 u0 we Hwr. apply writeFileSync_Ok in Hwr as ->.
  injection Hw1 as _ _ Hw1.
  apply writeTemporaryInput_Ok in Htmp as (-> & -> & Hnodir & Hfs1).
  simpl in Hrun. unfold bundleAndCleanup in Hrun. rewrite Hmode in Hrun.
  bind_inv Hrun bundle w2 Hbundle. apply Hroll in Hbundle as ->.
  bind_inv Hrun u1 w3 Hdeps.
  assert (Hw3 : w3 = {| fs := fs w1;
                        console := console w1
                          ++ (if default false (printDependencies o)
                              then watchFiles bundle else []) |}).
  { destruct (default false (printDependencies o)).
    - rewrite forEach_consoleLog in Hdeps. by injection Hdeps as <-.
    - injection Hdeps as _ <-. destruct w1. simpl. by rewrite app_nil_r. }
  bind_inv Hrun outputs w4 Hout.
  bind_inv Hout generated w5 Hg. apply Hgen in Hg as ->. injection Hout as <- <-.
  bind_inv Hrun u2 w6 Hunlink. apply unlinkSync_Ok in Hunlink as ->.
  bind_inv Hrun u3 w7 Hrmdir. apply rmdirSync_Ok in Hrmdir as ->.
  bind_inv Hrun u4 w8 Hlog. injection Hlog as _ <-. injection Hrun as <- <-.
  exists bundle, generated. split; [done|]. subst w3. simpl.
  assert (Hcon : console w1 = console w) by (by rewrite <- Hw1).
  split; [|by rewrite Hcon].
  rewrite Hfs1. apply map_eq. intros p.
  destruct (decide (p = scratchDir w)) as [->|Hp1].
  { by rewrite lookup_delete_eq. }
  rewrite lookup_delete_ne by done.
  destruct (decide (p = scratchFile w)) as [->|Hp2].
  { by rewrite lookup_delete_eq. }
  rewrite lookup_delete_ne by done.
  by rewrite lookup_insert_ne, lookup_insert_ne by done.
Qed.


(** X5. When every module exists but the directory that is to hold the
    scratch directory is not there, the call throws the file-system error
    for the scratch path and leaves the world as it was: nothing is
    written and the bundler is not reached. *)
Theorem scratch_directory_failure (o : CheckSideEffectsOptions) (w : World) :
  (forall p, In p (resolvedEsModules o) -> exists_ w p = true) ->
  isDirectory w (dirname (scratchDir w)) = false ->
  exists code,
    checkSideEffects o w = (Throw (SystemError code (scratchDir w)), w).
Proof.
  intros Hall Hparent.
  rewrite checkSideEffects_verified by (by apply missingIn_nil).
  unfold bind, writeTemporaryInput, bind, mkdtempSync, mkdirSync.
  fold (scratchDir w).
  destruct (exists_ w (scratchDir w)) eqn:Hex; [eauto|].
  rewrite Hparent. eauto.
Qed.

(** X6. A fault of a bundler step after the graph build (writing the
    bundle to disk, or generating it in memory) reaches the caller as it
    is, with the world as that step left it: neither the deletion of the
    scratch entries nor any later step runs. *)
Theorem bundler_step_fault_propagates (o : CheckSideEffectsOptions)
    (w w1 w2 w4 : World) (tmpDir tmpInput : string) (bundle : Bundle)
    (e : Exception) :
  (forall p, In p (resolvedEsModules o) -> exists_ w p = true) ->
  writeTemporaryInput (resolvedEsModules o) w = (Ok (tmpDir, tmpInput), w1) ->
  rollup (inputOptions o tmpInput) w1 = (Ok bundle, w2) ->
  (if JS.truthy (outputFilePath o)
   then bundleWrite bundle (outputOptions o)
          {| fs := fs w2;
             console := console w2
               ++ (if default false (printDependencies o)
                   then watchFiles bundle else []) |}
        = (Throw e, w4)
   else bundleGenerate bundle (outputOptions o)
          {| fs := fs w2;
             console := console w2
               ++ (if default false (printDependencies o)
                   then watchFiles bundle else []) |}
        = (Throw e, w4)) ->
  checkSideEffects o w = (Throw e, w4).
Proof.
  intros Hall Hwrite Hbundle Hstep.
  rewrite checkSideEffects_verified by (by apply missingIn_nil).
  rewrite (bind_step _ _ _ _ _ Hwrite). simpl. unfold bundleAndCleanup.
  rewrite (bind_step _ _ _ _ _ Hbundle).
  assert (Hdeps : (if default false (printDependencies o)
                   then forEach consoleLog (watchFiles bundle) else ret tt) w2
            = (Ok tt, {| fs := fs w2;
                         console := console w2
                           ++ (if default false (printDependencies o)
                               then watchFiles bundle else []) |})).
  { destruct (default false (printDependencies o)).
    - apply forEach_consoleLog.
    - unfold ret. destruct w2. simpl. by rewrite app_nil_r. }
  rewrite (bind_step _ _ _ _ _ Hdeps).
  apply bind_Throw.
  destruct (JS.truthy (outputFilePath o)); by apply bind_Throw.
Qed.

End More.

End CheckerMore.

(** * A further property of the earlier revision of the pipeline *)

Module CheckerEarlierMore.
Import Sys CheckerFacts CheckerEarlierFacts.
Import CheckerEarlier.

Section More.
Context `{Platform} `{Bundler}.

(** X9. In memory, the earlier revision never deletes its temporary
    input: with a bundler whose graph build and generation leave that path
    alone, a run that returns leaves [check-side-effects.tmp-input.js] in
    the working directory, holding the import statements, whatever lay at
    that path before. *)
Theorem earlier_in_memory_leaves_input (o : CheckSideEffectsOptions)
    (w w' : World) (r : JS.Value) :
  JS.truthy (resolvedOutputFilePath o) = false ->
  (forall io wa b wb, rollup io wa = (Ok b, wb) ->
     lookupEntry wb (tmpInputFilename o) = lookupEntry wa (tmpInputFilename o)) ->
  (forall b oo wa outs wb, bundleGenerate b oo wa = (Ok outs, wb) ->
     lookupEntry wb (tmpInputFilename o) = lookupEntry wa (tmpInputFilename o)) ->
  checkSideEffects o w = (Ok r, w') ->
  tmpInputFilename o = resolve (cwd o) "./check-side-effects.tmp-input.js"
  /\ lookupEntry w' (tmpInputFilename o)
     = Some (File (JS.join JS.LF
               (map (fun m => "import '"
                              +:+ JS.replaceBackslashes (resolve (cwd o) m) +:+ "';")
                    (esModules o)))).
Proof.
  intros Hmode Hroll Hgen Hrun. split; [reflexivity|].
  rewrite earlier_checkSideEffects_eq in Hrun.
  destruct (Checker.missingIn w (resolvedEsModules o)); [|discriminate].
  bind_inv Hrun u w1 Hwrite. apply writeFileSync_Ok in Hwrite as ->.
  unfold bundleAndReturn in Hrun. rewrite Hmode in Hrun.
  bind_inv Hrun bundle w2 Hbundle. apply Hroll in Hbundle.
  bind_inv Hrun u2 w3 Hdeps.
  assert (Hfs3 : fs w3 = fs w2).
  { destruct (default false (printDependencies o)).
    - by apply forEach_consoleLog_fs in Hdeps.
    - by injection Hdeps as _ <-. }
  bind_inv Hrun generated w4 Hg. apply Hgen in Hg. injection Hrun as _ <-.
  rewrite Hg. unfold lookupEntry at 1. rewrite Hfs3.
  fold (lookupEntry w2 (tmpInputFilename o)). rewrite Hbundle.
  rewrite lookup_setFs, lookup_insert_eq.
  unfold resolvedEsModules. by rewrite map_map.
Qed.

End More.

End CheckerEarlierMore.

(** * Further properties of the command line and the harness *)

Module CliMore.
Import Sys Checker Cli CheckerFacts CliFacts.

Section More.
Context `{Platform} `{Bundler} `{Parsers}.

Lemma runTests_app (opts : ParsedCliOptions) (dir : string) (ts1 ts2 : list Test) :
  forall (failed : list string) (w : World),
    runTests opts dir (ts1 ++ ts2) failed w =
    match runTests opts dir ts1 failed w with
    | (Ok failed1, w1) => runTests opts dir ts2 failed1 w1
    | (Throw e, w1) => (Throw e, w1)
    end.
Proof.
  unfold runTests. induction ts1 as [|t ts1 IH]; intros failed w; simpl; [done|].
  unfold bind.
  destruct (runTest opts dir t failed w) as [[failed1|e] w1]; [apply IH|done].
Qed.

Lemma isNodeBinary_iff (str : string) :
  isNodeBinary str = true
  <-> exists p, str = p +:+ "node" \/ str = p +:+ "node.exe".
Proof.
  unfold isNodeBinary. rewrite orb_true_iff, !RuleMore.endsWith_iff.
  split.
  - intros [[p ->]|[p ->]]; eauto.
  - intros [p [->| ->]]; eauto.
Qed.

Lemma loadTests_eq (opts : ParsedCliOptions) (w : World) :
  loadTests opts w =
  let testFilePath := resolve (cwd opts) (default "" (test opts)) in
  match lookupEntry w testFilePath with
  | None =>
      (Throw (ThrownString
         ("Could not find the test file: " +:+ testFilePath +:+ ".")), w)
  | Some Dir =>
      (Throw (SystemError "EISDIR" testFilePath),
       logged w ("Loading tests from " +:+ testFilePath +:+ JS.LF))
  | Some (File text) =>
      match JSON_parse text with
      | Ok testJson =>
          (Ok (dirname testFilePath, testJson),
           logged w ("Loading tests from " +:+ testFilePath +:+ JS.LF))
      | Throw e =>
          (Throw e, logged w ("Loading tests from " +:+ testFilePath +:+ JS.LF))
      end
  end.
Proof.
  unfold loadTests, bind, existsSync, exists_, readFileSync, consoleLog,
    throw, ret, logged, lookupEntry. simpl.
  destruct (fs w !! resolve (cwd opts) (default "" (test opts))) as [[text|]|] eqn:Hp;
    simpl; rewrite ?Hp; try reflexivity.
  by destruct (JSON_parse text).
Qed.

(** X10. Without [--help] and without a test file, [main] drops the
    leading arguments (two when the first one ends in [node] or
    [node.exe], one otherwise) and runs the pipeline once on what remains,
    with the flags as options; when nothing remains it throws the usage
    message, and with no argument at all a type error, in both cases before
    anything is read, written or printed. *)
Theorem main_module_arguments (rawOpts : MainOptions) (w : World) :
  help (minimist (args rawOpts)) = false ->
  JS.truthy (test (minimist (args rawOpts))) = false ->
  (forall str, isNodeBinary str = true
     <-> exists p, str = p +:+ "node" \/ str = p +:+ "node.exe")
  /\ main rawOpts w =
     match positional (minimist (args rawOpts)) with
     | [] => (Throw (TypeError "Cannot read property 'endsWith' of undefined"), w)
     | first :: rest =>
         match (if isNodeBinary first then tl rest else rest) with
         | [] =>
             (Throw (ThrownString
                "You must provide at least one ES module. Use --help for usage information."),
              w)
         | m :: ms =>
             checkSideEffects
               {| Checker.cwd := Some (cwd (minimist (args rawOpts)));
                  Checker.esModules := m :: ms;
                  Checker.output := output (minimist (args rawOpts));
                  Checker.propertyReadSideEffects := None;
                  Checker.globalDefs := None;
                  Checker.sideEffectFreeModules := None;
                  Checker.resolveExternals :=
                    Some (resolveExternals (minimist (args rawOpts)));
                  Checker.printDependencies :=
                    Some (printDependencies (minimist (args rawOpts)));
                  Checker.useBuildOptimizer :=
                    Some (useBuildOptimizer (minimist (args rawOpts)));
                  Checker.useMinifier := Some (useMinifier (minimist (args rawOpts)));
                  Checker.warnings := Some (warnings (minimist (args rawOpts))) |} w
         end
     end.
Proof.
  intros Hhelp Htest. split; [exact isNodeBinary_iff|].
  unfold main. rewrite Hhelp, Htest.
  destruct (positional (minimist (args rawOpts))) as [|first rest]; [reflexivity|].
  destruct (isNodeBinary first); simpl.
  - destruct rest as [|second rest]; [reflexivity|].
    destruct rest as [|m ms]; reflexivity.
  - destruct rest as [|m ms]; reflexivity.
Qed.

(** X11. With a test file named, [main] reads the suite before anything
    else: if nothing exists at the resolved path it throws "Could not find
    the test file" naming that path, having printed nothing; if the path is
    a directory, or the text does not parse, the error of the read or of
    the parser is thrown after the "Loading tests" line.  In all three
    cases the file system is untouched and no pipeline runs. *)
Theorem test_file_faults (rawOpts : MainOptions) (w : World) :
  help (minimist (args rawOpts)) = false ->
  JS.truthy (test (minimist (args rawOpts))) = true ->
  let testFilePath :=
    resolve (cwd (minimist (args rawOpts)))
            (default "" (test (minimist (args rawOpts)))) in
  (lookupEntry w testFilePath = None ->
     main rawOpts w
     = (Throw (ThrownString
          ("Could not find the test file: " +:+ testFilePath +:+ ".")), w))
  /\ (lookupEntry w testFilePath = Some Dir ->
        main rawOpts w
        = (Throw (SystemError "EISDIR" testFilePath),
           logged w ("Loading tests from " +:+ testFilePath +:+ JS.LF)))
  /\ (forall text e,
        lookupEntry w testFilePath = Some (File text) ->
        JSON_parse text = Throw e ->
        main rawOpts w
        = (Throw e, logged w ("Loading tests from " +:+ testFilePath +:+ JS.LF))).
Proof.
  intros Hhelp Htest path. unfold main. rewrite Hhelp, Htest.
  split; [|split].
  - intros Hnone. apply bind_Throw. rewrite loadTests_eq.
    unfold path in *. cbv zeta. by rewrite Hnone.
  - intros Hdir. apply bind_Throw. rewrite loadTests_eq.
    unfold path in *. cbv zeta. by rewrite Hdir.
  - intros text e Hfile Hparse. apply bind_Throw. rewrite loadTests_eq.
    unfold path in *. cbv zeta. by rewrite Hfile, Hparse.
Qed.

(** X12. A suite with no test passes, with or without [--update]: once
    the test file is read, [main] prints an empty line and "All tests
    passed.", returns, and has run no pipeline and touched no file. *)
Theorem empty_suite_passes (rawOpts : MainOptions) (w wl : World)
    (dir : string) (suite : TestJson) :
  help (minimist (args rawOpts)) = false ->
  JS.truthy (test (minimist (args rawOpts))) = true ->
  loadTests (minimist (args rawOpts)) w = (Ok (dir, suite), wl) ->
  tests suite = [] ->
  main rawOpts w = (Ok JS.Undefined, logged (logged wl "") "All tests passed.")
  /\ fs (snd (main rawOpts w)) = fs w.
Proof.
  intros Hhelp Htest Hload Hempty.
  assert (Hmain : main rawOpts w
            = (Ok JS.Undefined, logged (logged wl "") "All tests passed.")).
  { rewrite (main_test_branch rawOpts w wl dir suite) by done.
    rewrite Hempty, runTests_nil, reportTests_eq. reflexivity. }
  split; [exact Hmain|]. rewrite Hmain. simpl. by apply loadTests_Ok in Hload.
Qed.

(** X13. A fault of the pipeline in one test ends the batch there: when
    the tests before it ran and its pipeline run throws, [main] throws
    that same value with the world as the pipeline left it.  The tests
    after it do not run, no result line is printed, and the failures
    collected so far are not reported. *)
Theorem pipeline_fault_aborts_batch (rawOpts : MainOptions) (w wl w1 w2 : World)
    (dir : string) (suite : TestJson) (ts1 ts2 : list Test) (t : Test)
    (failed1 : list string) (e : Exception) :
  help (minimist (args rawOpts)) = false ->
  JS.truthy (test (minimist (args rawOpts))) = true ->
  loadTests (minimist (args rawOpts)) w = (Ok (dir, suite), wl) ->
  tests suite = ts1 ++ t :: ts2 ->
  runTests (minimist (args rawOpts)) dir ts1 [] wl = (Ok failed1, w1) ->
  checkSideEffects (pipelineOptions (minimist (args rawOpts)) dir t)
    (logged w1 ("Testing " +:+ esModulesDescription t)) = (Throw e, w2) ->
  main rawOpts w = (Throw e, w2).
Proof.
  intros Hhelp Htest Hload Hsuite Hbefore Hfault.
  rewrite (main_test_branch rawOpts w wl dir suite) by done.
  rewrite Hsuite, runTests_app, Hbefore.
  unfold runTests. simpl. unfold bind at 1. unfold runTest, bind at 1.
  by rewrite evaluateTest_eq, Hfault.
Qed.

(** X14. The module references of a test are resolved against the
    directory of the test file, and the result once more against the
    working directory of the run, before their existence is checked: a
    test naming a module that is not there ends the iteration with the
    missing-module message, which lists the doubly resolved path, right
    after the "Testing" line. *)
Theorem test_with_missing_module (opts : ParsedCliOptions) (dir : string)
    (t : Test) (failed : list string) (w : World) (m : string) :
  let workingDir := default (cwd opts) (options t ≫= cli_cwd) in
  let resolved :=
    map (fun esm => JS.replaceBackslashes (resolve workingDir (resolve dir esm)))
        (unresolvedEsModules t) in
  In m (unresolvedEsModules t) ->
  exists_ w (JS.replaceBackslashes (resolve workingDir (resolve dir m))) = false ->
  runTest opts dir t failed w
  = (Throw (ThrownString (missingModulesMessage (missingIn w resolved))),
     logged w ("Testing " +:+ esModulesDescription t))
  /\ JS.includes (missingModulesMessage (missingIn w resolved))
       (JS.replaceBackslashes (resolve workingDir (resolve dir m))) = true.
Proof.
  intros workingDir resolved Hm Hgone.
  assert (Hres : resolvedEsModules (pipelineOptions opts dir t) = resolved).
  { unfold resolvedEsModules, pipelineOptions, workingDirectory. simpl.
    by rewrite map_map. }
  assert (Hin : In (JS.replaceBackslashes (resolve workingDir (resolve dir m)))
                   (missingIn w resolved)).
  { unfold missingIn. apply filter_In. split.
    - unfold resolved. apply in_map_iff. eauto.
    - by rewrite Hgone. }
  split.
  - unfold runTest. unfold bind at 1. rewrite evaluateTest_eq.
    rewrite checkSideEffects_missing; rewrite Hres.
    + reflexivity.
    + intros Hnil. change (missingIn (logged w _) resolved)
        with (missingIn w resolved) in Hnil. by rewrite Hnil in Hin.
  - unfold missingModulesMessage.
    apply includes_app_r, includes_app_l, includes_join, Hin.
Qed.

Lemma recursiveMkDir_exists (n : nat) :
  forall (path : string) (w w' : World) (u : unit),
    _recursiveMkDir n path w = (Ok u, w') -> exists_ w' path = true.
Proof.
  destruct n as [|n]; intros path w w' u Hrun; [discriminate|].
  simpl in Hrun. bind_inv Hrun found w0 Hfound. injection Hfound as <- <-.
  destruct (exists_ w path) eqn:Hex; simpl in Hrun.
  - by injection Hrun as _ <-.
  - bind_inv Hrun u1 w1 Hrec.
    apply mkdirSync_OnlyNewDirs in Hrun as [_ Hdir].
    unfold exists_. by rewrite Hdir.
Qed.

(** X15. A call of [_recursiveMkDir] that returns has only created
    directories where nothing was (no existing entry is changed, nothing is
    printed), the path exists afterwards, and calling it again on the
    result does nothing. *)
Theorem recursiveMkDir_idempotent (n m : nat) (path : string) (w w' : World)
    (u : unit) :
  _recursiveMkDir n path w = (Ok u, w') ->
  console w' = console w
  /\ (forall q, lookupEntry w' q = lookupEntry w q
                \/ (lookupEntry w q = None /\ lookupEntry w' q = Some Dir))
  /\ exists_ w' path = true
  /\ _recursiveMkDir (S m) path w' = (Ok tt, w').
Proof.
  intros Hrun.
  pose proof (recursiveMkDir_Ok _ _ _ _ _ Hrun) as [Hcon Hnew].
  pose proof (recursiveMkDir_exists _ _ _ _ _ Hrun) as Hex.
  repeat split; try done.
  simpl. unfold bind, existsSync. by rewrite Hex.
Qed.


End More.

End CliMore.

(** * Properties of the entry point *)

Module RunnerFacts.
Import Sys Checker Cli CheckerFacts CliFacts Runner.

Section Facts.
Context `{Platform} `{Bundler} `{Parsers}.

Lemma main_flags_eq (argv : list string) (w : World) (first : string)
    (rest : list string) :
  help (minimist argv) = false ->
  JS.truthy (test (minimist argv)) = false ->
  positional (minimist argv) = first :: rest ->
  main (mkMainOptions argv) w =
  match (if isNodeBinary first then tl rest else rest) with
  | [] =>
      (Throw (ThrownString
         "You must provide at least one ES module. Use --help for usage information."),
       w)
  | m :: ms => checkSideEffects (flagCheckerOptions (minimist argv) (m :: ms)) w
  end.
Proof.
  intros Hhelp Htest Hpos. unfold main. simpl. rewrite Hhelp, Htest, Hpos.
  destruct (isNodeBinary first); simpl.
  - destruct rest as [|second rest]; [reflexivity|].
    destruct rest as [|m ms]; reflexivity.
  - destruct rest as [|m ms]; reflexivity.
Qed.

(** X17. From the command line, a module that is not there ends the
    process with status 1: the one thing written to the error stream is
    the missing-module message, which lists every missing path resolved
    against [--cwd]; nothing is printed on the console and the file system
    is as it was. *)
Theorem missing_module_exit (argv : list string) (w : World) (first m : string)
    (rest : list string) :
  help (minimist argv) = false ->
  JS.truthy (test (minimist argv)) = false ->
  positional (minimist argv) = first :: rest ->
  let modules := if isNodeBinary first then tl rest else rest in
  In m modules ->
  exists_ w (JS.replaceBackslashes (resolve (cwd (minimist argv)) m)) = false ->
  run argv w =
  {| finalWorld := w;
     stderr :=
       [ThrownString
          (missingModulesMessage
             (missingIn w
                (map (fun m => JS.replaceBackslashes (resolve (cwd (minimist argv)) m))
                     modules)))];
     exitCode := 1 |}.
Proof.
  intros Hhelp Htest Hpos modules Hm Hgone. unfold run.
  rewrite (main_flags_eq argv w first rest) by done. fold modules.
  destruct modules as [|m0 ms] eqn:Hmods; [destruct Hm|].
  rewrite checkSideEffects_missing; [reflexivity|].
  intros Hnil.
  assert (Hin : In (JS.replaceBackslashes (resolve (cwd (minimist argv)) m))
                   (missingIn w (resolvedEsModules
                                   (flagCheckerOptions (minimist argv) (m0 :: ms))))).
  { unfold missingIn. apply filter_In. split.
    - unfold resolvedEsModules. apply in_map_iff. exists m. split; [done|exact Hm].
    - by rewrite Hgone. }
  by rewrite Hnil in Hin.
Qed.

Lemma pure_in_memory_world_flags (opts : ParsedCliOptions) (modules : list string)
    (w w' : World) (r : JS.Value) :
  JS.truthy (output opts) = false ->
  (forall io wa b wb, rollup io wa = (Ok b, wb) -> wb = wa) ->
  (forall b oo wa outs wb, bundleGenerate b oo wa = (Ok outs, wb) -> wb = wa) ->
  lookupEntry w (scratchFile w) = None ->
  checkSideEffects (flagCheckerOptions opts modules) w = (Ok r, w') ->
  exists bundle outputs,
    r = JS.Str (chunkCode outputs)
    /\ fs w' = fs w
    /\ console w' = console w
         ++ (if printDependencies opts then watchFiles bundle else []).
Proof.
  intros Hout Hroll Hgen Hfree Hrun.
  apply CheckerMore.pure_in_memory_world in Hrun; try done.
  unfold outputFilePath. simpl. by rewrite Hout.
Qed.

(** X18. From the command line, in memory, with a bundler whose graph
    build and generation do not act on the world: a run that returns ends
    the process with status 0 and an empty error stream, leaves the file
    system as it found it, and prints the residual code as the last
    console line exactly when it is not the empty string; modules without
    import-time side effects print nothing. *)
Theorem residual_code_printed_when_nonempty (argv : list string) (w w' : World)
    (r : JS.Value) :
  help (minimist argv) = false ->
  JS.truthy (test (minimist argv)) = false ->
  JS.truthy (output (minimist argv)) = false ->
  (forall io wa b wb, rollup io wa = (Ok b, wb) -> wb = wa) ->
  (forall b oo wa outs wb, bundleGenerate b oo wa = (Ok outs, wb) -> wb = wa) ->
  lookupEntry w (scratchFile w) = None ->
  main (mkMainOptions argv) w = (Ok r, w') ->
  exists bundle s,
    r = JS.Str s
    /\ run argv w =
       {| finalWorld :=
            {| fs := fs w;
               console := console w
                 ++ (if printDependencies (minimist argv) then watchFiles bundle else [])
                 ++ (if String.eqb s "" then [] else [s]) |};
          stderr := [];
          exitCode := 0 |}.
Proof.
  intros Hhelp Htest Hout Hroll Hgen Hfree Hmain.
  unfold run. rewrite Hmain.
  destruct (positional (minimist argv)) as [|first rest] eqn:Hpos.
  { unfold main in Hmain. simpl in Hmain. rewrite Hhelp, Htest, Hpos in Hmain.
    discriminate. }
  rewrite (main_flags_eq argv w first rest) in Hmain by done.
  destruct (if isNodeBinary first then tl rest else rest) as [|m ms];
    [discriminate|].
  apply pure_in_memory_world_flags in Hmain as (bundle & outputs & -> & Hfs & Hcon);
    try done.
  exists bundle, (chunkCode outputs). split; [reflexivity|].
  f_equal. unfold truthyValue, logged.
  destruct w' as [fs' console']. simpl in *. subst fs' console'.
  destruct (String.eqb (chunkCode outputs) ""); simpl.
  - by rewrite app_nil_r.
  - by rewrite <- app_assoc.
Qed.

End Facts.

End RunnerFacts.

(** * Properties of the earlier revisions of the command line *)

Module CliInlineFacts.
Import Sys Checker CheckerFacts CliFacts.
Import CliInline.

Section Facts.
Context `{Platform} `{Bundler} `{Parsers}.

Lemma inline_loop_Ok (parsedArgs : Cli.ParsedCliOptions) (ts : list Test) :
  forall (failed failed' : list string) (w w' : World),
    forOf (runTest parsedArgs) ts failed w = (Ok failed', w') ->
    map fst (outcomes parsedArgs ts w) = ts
    /\ failed' = failed
         ++ map describe (List.filter differs (outcomes parsedArgs ts w)).
Proof.
  induction ts as [|t ts IH]; intros failed failed' w w' Hrun.
  - injection Hrun as <- _. simpl. by rewrite app_nil_r.
  - simpl in Hrun. bind_inv Hrun failed1 w1 Hstep. unfold runTest in Hstep.
    bind_inv Hstep r w2 Hpipe. simpl. rewrite Hpipe.
    assert (Hw : w2 = w1 /\ failed1
              = failed ++ (if JS.looseNeq r (expected t)
                           then [JS.join " " (esModules t)] else [])).
    { destruct (JS.looseNeq r (expected t)); injection Hstep as <- <-;
        by rewrite ?app_nil_r. }
    destruct Hw as [-> ->].
    apply IH in Hrun as [Hfst ->]. simpl. split; [by rewrite Hfst|].
    unfold differs at 2. simpl.
    destruct (JS.looseNeq r (expected t)); simpl.
    + by rewrite <- app_assoc.
    + by rewrite app_nil_r.
Qed.

(** X19. In the revision that keeps the expected text in the test file:
    for a suite whose every pipeline run returns, the batch throws exactly
    when some result differs from the expected text of its test, and the
    message then lists, one per line and in suite order, the module
    references of exactly those tests; otherwise "All tests passed." is
    printed.  No file is read for an expectation and none is written. *)
Theorem inline_batch_fails_iff_mismatch (opts : Cli.MainOptions)
    (w w' : World) (text : string) (suite : TestJson) (failed : list string) :
  Cli.help (minimist (Cli.args opts)) = false ->
  JS.truthy (Cli.test (minimist (Cli.args opts))) = true ->
  lookupEntry w
    (resolve (Cli.cwd (minimist (Cli.args opts)))
             (default "" (Cli.test (minimist (Cli.args opts)))))
  = Some (File text) ->
  JSON_parse text = Ok suite ->
  forOf (runTest (minimist (Cli.args opts))) (tests suite) [] w = (Ok failed, w') ->
  let outs := outcomes (minimist (Cli.args opts)) (tests suite) w in
  map fst outs = tests suite
  /\ failed = map (fun outcome => JS.join " " (esModules (fst outcome)))
                (List.filter
                   (fun outcome => JS.looseNeq (snd outcome) (expected (fst outcome)))
                   outs)
  /\ main opts w =
     (if existsb
           (fun outcome => JS.looseNeq (snd outcome) (expected (fst outcome))) outs
      then (Throw (ThrownString
              ("Tests failed for modules:" +:+ JS.LF
               +:+ JS.join JS.LF failed
               +:+ JS.LF +:+ JS.LF
               +:+ "Run 'check-side-effects path-to-modules' individually to check results."
               +:+ JS.LF)),
            w')
      else (Ok JS.Undefined, Cli.logged w' "All tests passed.")).
Proof.
  intros Hhelp Htest Hfile Hparse Hrun outs.
  pose proof (inline_loop_Ok _ _ _ _ _ _ Hrun) as [Hfst Hfailed].
  simpl in Hfailed. fold outs in Hfst, Hfailed.
  split; [exact Hfst|]. split; [exact Hfailed|].
  unfold main. rewrite Hhelp, Htest.
  unfold bind at 1. unfold existsSync, exists_. rewrite Hfile. simpl.
  unfold bind at 1. unfold readFileSync. rewrite Hfile, Hparse.
  unfold bind at 1. rewrite Hrun.
  change (fun outcome : Test * JS.Value =>
            JS.looseNeq (snd outcome) (expected (fst outcome))) with differs in *.
  destruct (existsb differs outs) eqn:Hex.
  - destruct failed as [|d ds]; [|reflexivity].
    symmetry in Hfailed. apply map_eq_nil in Hfailed.
    apply filter_nil_existsb in Hfailed. congruence.
  - apply filter_nil_existsb in Hex. rewrite Hex in Hfailed. subst failed.
    reflexivity.
Qed.

End Facts.

End CliInlineFacts.

Module CliNoMkdirFacts.
Import Sys Checker CheckerFacts CliFacts.
Import CliNoMkdir.

Section Facts.
Context `{Platform} `{Bundler} `{Cli.Parsers}.


End Facts.

End CliNoMkdirFacts.

(** * The further properties at concrete inputs *)

Module MoreWitnesses.
Import Sys Checker Cli CheckerFacts CliFacts Examples MoreExamples.

(** A file outside the listed segments is skipped, one inside is
    checked. *)
Lemma apply_path_filter_witness :
  Rule.apply ["src/"; "chain"] Rule.example_chain
  = Rule.applyWithFunction Rule.example_chain Rule.walk
  /\ Rule.apply ["src/"; "lib/"] Rule.example_chain = [].
Proof.
  destruct (RuleMore.apply_path_filter ["src/"; "chain"] Rule.example_chain)
    as (Hchecked & _ & _).
  destruct (RuleMore.apply_path_filter ["src/"; "lib/"] Rule.example_chain)
    as (_ & Hskipped & _).
  split.
  - apply Hchecked. right. exists "chain", "", ".ts". split; [simpl; tauto|reflexivity].
  - apply Hskipped; [discriminate|].
    intros seg a b Hin Heq.
    assert (Hinc : JS.includes (Rule.fileName Rule.example_chain) seg = true).
    { apply RuleMore.includes_iff. eauto. }
    destruct Hin as [<-|[<-|[]]]; vm_compute in Hinc; discriminate.
Defined.




Lemma scratch_directory_failure_witness :
  exists code,
    @checkSideEffects posix echoBundler (checkOptions ["a.js"] None) noTmpWorld
    = (Throw (SystemError code (@scratchDir posix noTmpWorld)), noTmpWorld).
Proof.
  refine (@CheckerMore.scratch_directory_failure posix echoBundler
            (checkOptions ["a.js"] None) noTmpWorld _ _).
  - intros p [<-|[]]. vm_compute; reflexivity.
  - vm_compute; reflexivity.
Defined.

Lemma bundler_step_fault_witness :
  @checkSideEffects posix generateFailingBundler
    (checkOptions ["a.js"] None) projectWorld
  = (Throw (ExternalError "Unexpected token (1:0)"),
     snd (@writeTemporaryInput posix ["/proj/a.js"] projectWorld)).
Proof.
  refine (@CheckerMore.bundler_step_fault_propagates posix generateFailingBundler
            (checkOptions ["a.js"] None) projectWorld
            (snd (@writeTemporaryInput posix ["/proj/a.js"] projectWorld))
            (snd (@writeTemporaryInput posix ["/proj/a.js"] projectWorld))
            (snd (@writeTemporaryInput posix ["/proj/a.js"] projectWorld))
            "/tmp/check-side-effects-Ab3dE9"
            "/tmp/check-side-effects-Ab3dE9/index.js" tt
            (ExternalError "Unexpected token (1:0)") _ _ _ _).
  - intros p [<-|[]]. vm_compute; reflexivity.
  - vm_compute; reflexivity.
  - vm_compute; reflexivity.
  - vm_compute; reflexivity.
Defined.

Lemma earlier_missing_modules_witness :
  @CheckerEarlier.checkSideEffects posix earlierEchoBundler
    (earlierOptions ["a.js"; "c.js"; "d.js"] None) projectWorld
  = (Throw (ThrownString (missingModulesMessage ["/proj/c.js"; "/proj/d.js"])),
     projectWorld).
Proof.
  refine (proj1 (@CheckerEarlierFacts.earlier_missing_modules posix earlierEchoBundler
                   (earlierOptions ["a.js"; "c.js"; "d.js"] None) projectWorld
                   "c.js" _ _)).
  - simpl; tauto.
  - vm_compute; reflexivity.
Defined.


Lemma earlier_in_memory_leaves_input_witness :
  lookupEntry
    (snd (@CheckerEarlier.checkSideEffects posix earlierEchoBundler
            (earlierOptions ["a.js"] None) projectWorld))
    "/proj/check-side-effects.tmp-input.js"
  = Some (File "import '/proj/a.js';").
Proof.
  refine (proj2 (@CheckerEarlierMore.earlier_in_memory_leaves_input posix
                   earlierEchoBundler (earlierOptions ["a.js"] None) projectWorld
                   (snd (@CheckerEarlier.checkSideEffects posix earlierEchoBundler
                           (earlierOptions ["a.js"] None) projectWorld))
                   (JS.Str "import '/proj/a.js';") eq_refl _ _ _)).
  - intros io wa b wb Hread. simpl in Hread. unfold readFileSync in Hread.
    destruct (lookupEntry wa (CheckerEarlier.input io)) as [[c|]|];
      try discriminate.
    by injection Hread as _ <-.
  - intros b oo wa outs wb Hgen. by injection Hgen as _ <-.
  - vm_compute; reflexivity.
Defined.

Lemma main_module_arguments_witness :
  @main posix echoBundler flagParsers (mkMainOptions ["/usr/bin/node"; "cli.js"]) projectWorld
  = (Throw (ThrownString
       "You must provide at least one ES module. Use --help for usage information."),
     projectWorld)
  /\ @main posix echoBundler flagParsers (mkMainOptions []) projectWorld
     = (Throw (TypeError "Cannot read property 'endsWith' of undefined"),
        projectWorld).
Proof.
  split.
  - refine (proj2 (@CliMore.main_module_arguments posix echoBundler flagParsers
                     (mkMainOptions ["/usr/bin/node"; "cli.js"]) projectWorld
                     eq_refl eq_refl)).
  - refine (proj2 (@CliMore.main_module_arguments posix echoBundler flagParsers
                     (mkMainOptions []) projectWorld eq_refl eq_refl)).
Defined.

(** No test file in the project, then one that does not parse. *)
Lemma test_file_faults_witness :
  @main posix echoBundler (parsersFor twoCases) withoutUpdate projectWorld
  = (Throw (ThrownString "Could not find the test file: /proj/tests.json."),
     projectWorld)
  /\ @main posix echoBundler brokenJsonParsers withoutUpdate suiteWorld
     = (Throw (ExternalError "Unexpected end of JSON input"),
        logged suiteWorld ("Loading tests from /proj/tests.json" +:+ JS.LF)).
Proof.
  split.
  - refine (proj1 (@CliMore.test_file_faults posix echoBundler (parsersFor twoCases)
                     withoutUpdate projectWorld eq_refl eq_refl) _).
    vm_compute; reflexivity.
  - refine (proj2 (proj2 (@CliMore.test_file_faults posix echoBundler
                            brokenJsonParsers withoutUpdate suiteWorld
                            eq_refl eq_refl))
              "{ tests }" (ExternalError "Unexpected end of JSON input") _ eq_refl).
    vm_compute; reflexivity.
Defined.

Lemma empty_suite_witness :
  @main posix echoBundler (parsersFor []) withUpdate suiteWorld
  = (Ok JS.Undefined,
     logged (logged (loadedWorld true [] suiteWorld) "") "All tests passed.").
Proof.
  refine (proj1 (@CliMore.empty_suite_passes posix echoBundler (parsersFor [])
                   withUpdate suiteWorld (loadedWorld true [] suiteWorld)
                   "/proj" (mkTestJson []) eq_refl eq_refl _ eq_refl)).
  vm_compute; reflexivity.
Defined.

(** The second of three tests names a module that is not there: the
    batch ends with the missing-module message, and the mismatch of the
    first test is not reported. *)
Lemma pipeline_fault_witness :
  @main posix echoBundler (parsersFor faultySuite) withoutUpdate suiteWorld
  = (Throw (ThrownString (missingModulesMessage ["/proj/gone.js"])),
     logged (finishedWorld false [caseOf "b.js" "expected/b.txt"] suiteWorld)
       "Testing gone.js").
Proof.
  refine (@CliMore.pipeline_fault_aborts_batch posix echoBundler
            (parsersFor faultySuite) withoutUpdate suiteWorld
            (loadedWorld false faultySuite suiteWorld)
            (finishedWorld false [caseOf "b.js" "expected/b.txt"] suiteWorld)
            (logged (finishedWorld false [caseOf "b.js" "expected/b.txt"] suiteWorld)
               "Testing gone.js")
            "/proj" (mkTestJson faultySuite)
            [caseOf "b.js" "expected/b.txt"] [caseOf "a.js" "expected/a.txt"]
            (caseOf "gone.js" "expected/gone.txt") ["b.js"]
            (ThrownString (missingModulesMessage ["/proj/gone.js"]))
            eq_refl eq_refl _ eq_refl _ _); vm_compute; reflexivity.
Defined.

Lemma test_with_missing_module_witness :
  @runTest posix echoBundler (cliOptions false) "/proj"
    (caseOf "gone.js" "expected/gone.txt") [] suiteWorld
  = (Throw (ThrownString (missingModulesMessage ["/proj/gone.js"])),
     logged suiteWorld "Testing gone.js").
Proof.
  refine (proj1 (@CliMore.test_with_missing_module posix echoBundler
                   (cliOptions false) "/proj" (caseOf "gone.js" "expected/gone.txt")
                   [] suiteWorld "gone.js" _ _)).
  - simpl; tauto.
  - vm_compute; reflexivity.
Defined.

Lemma recursiveMkDir_idempotent_witness :
  let w' := snd (@_recursiveMkDir posix 64 "/proj/fresh/out" projectWorld) in
  isDirectory w' "/proj/fresh" = true
  /\ exists_ w' "/proj/fresh/out" = true
  /\ @_recursiveMkDir posix 1 "/proj/fresh/out" w' = (Ok tt, w').
Proof.
  intros w'.
  destruct (@CliMore.recursiveMkDir_idempotent posix 64 0 "/proj/fresh/out"
              projectWorld w' tt ltac:(vm_compute; reflexivity))
    as (_ & _ & Hexists & Hagain).
  split; [vm_compute; reflexivity|]. split; [exact Hexists|exact Hagain].
Defined.


Lemma missing_module_exit_witness :
  @Runner.run posix echoBundler flagParsers
    ["/usr/bin/node"; "cli.js"; "a.js"; "gone.js"] projectWorld
  = {| Runner.finalWorld := projectWorld;
       Runner.stderr := [ThrownString (missingModulesMessage ["/proj/gone.js"])];
       Runner.exitCode := 1 |}.
Proof.
  refine (@RunnerFacts.missing_module_exit posix echoBundler flagParsers
            ["/usr/bin/node"; "cli.js"; "a.js"; "gone.js"] projectWorld
            "/usr/bin/node" "gone.js" ["cli.js"; "a.js"; "gone.js"]
            eq_refl eq_refl eq_refl _ _).
  - vm_compute; tauto.
  - vm_compute; reflexivity.
Defined.

(** A library whose code is all removed prints its dependencies, as the
    flags ask, and nothing else. *)
Lemma residual_code_witness :
  exists bundle s,
    JS.Str "" = JS.Str s
    /\ @Runner.run posix shakingBundler flagParsers
         ["/usr/bin/node"; "cli.js"; "a.js"] projectWorld
       = {| Runner.finalWorld :=
              {| fs := fs projectWorld;
                 console := console projectWorld
                   ++ (if printDependencies
                            (@minimist flagParsers ["/usr/bin/node"; "cli.js"; "a.js"])
                       then @Checker.watchFiles shakingBundler bundle else [])
                   ++ (if String.eqb s "" then [] else [s]) |};
            Runner.stderr := [];
            Runner.exitCode := 0 |}.
Proof.
  refine (@RunnerFacts.residual_code_printed_when_nonempty posix shakingBundler
            flagParsers ["/usr/bin/node"; "cli.js"; "a.js"] projectWorld
            {| fs := fs projectWorld;
               console := ["/tmp/check-side-effects-Ab3dE9/index.js"; "/proj/a.js"] |}
            (JS.Str "") eq_refl eq_refl eq_refl _ _ _ _).
  - intros io wa b wb Hroll. by injection Hroll as _ <-.
  - intros b oo wa outs wb Hgen. by injection Hgen as _ <-.
  - vm_compute; reflexivity.
  - vm_compute; reflexivity.
Defined.

Lemma inline_batch_witness :
  @CliInline.main posix echoBundler inlineParsers withoutUpdate suiteWorld
  = (Throw (ThrownString
       ("Tests failed for modules:" +:+ JS.LF +:+ "b.js a.js" +:+ JS.LF +:+ JS.LF
        +:+ "Run 'check-side-effects path-to-modules' individually to check results."
        +:+ JS.LF)),
     suiteWorld).
Proof.
  refine (proj2 (proj2
    (@CliInlineFacts.inline_batch_fails_iff_mismatch posix echoBundler inlineParsers
       withoutUpdate suiteWorld suiteWorld "{ tests }"
       (CliInline.mkTestJson inlineSuite) ["b.js a.js"]
       eq_refl eq_refl _ eq_refl _))); vm_compute; reflexivity.
Defined.


End MoreWitnesses.
